(** * A model of cricket_dashboard.py

    The dashboard is a single script over pandas data frames: it reads a
    player directory and nine statistics files, left-joins every statistics
    file to the directory on [id], tags the rows with their match format,
    concatenates them into three tables, and then aggregates, charts and
    summarises the rows of the players the user selects.

    The development follows the script top to bottom.  The pandas operations
    the script calls are modelled in [Module pd] and [Module loader] (one
    definition per method the script uses), the script's own code under the
    names it has in the source.

    How the data is modelled:
    - a frame is its columns, each with a dtype (int64, float64 or object),
      and its rows in order; a row is an association list from column label
      to cell.  The row index is not modelled: the script resets or ignores
      it everywhere;
    - a cell is an int64 (a [Z], sums wrap around), a binary64 float (a
      primitive float) or a string; a missing cell is the float NaN;
    - the files are an input: what [pd.read_csv] returns for a path, or
      nothing when it raises.  Parsing CSV text is not modelled;
    - column labels are normalised byte by byte (ASCII letters and blanks);
    - a Python set is the list of its distinct elements in order of first
      appearance, and [sorted] compares with [<] as Python does, raising
      TypeError between a string and a number;
    - how Python prints a float is a parameter of the prompt. *)

From Stdlib Require Import ZArith List String Ascii Floats Bool Lia Sorted.
From Stdlib Require Import DecimalString.
Import ListNotations.

Local Open Scope string_scope.
Local Open Scope list_scope.

(** ** Exceptions and results

    Every statement of the script that can raise is a [result]; a [try]
    block is a [match] on it. *)

Inductive exn : Type :=
| KeyError (key : string)          (* a column label that is not there *)
| ValueError (what : string)       (* merge keys of incompatible dtypes *)
| TypeError                        (* '<' between a str and a float *)
| ReadError (path : string)        (* pd.read_csv could not read or parse *)
| GenerationError                  (* the text service failed *)
| OSError (path : string).         (* open or write on a file failed *)

Inductive result (A : Type) : Type :=
| Ok (a : A)
| Raise (e : exn).

Arguments Ok {A} a.
Arguments Raise {A} e.

Definition bind {A B : Type} (m : result A) (k : A -> result B) : result B :=
  match m with
  | Ok a => k a
  | Raise e => Raise e
  end.

Notation "x <- m ;; k" := (bind m (fun x => k))
  (at level 61, m at next level, right associativity).

(** ** Cell values

    A cell holds a 64-bit integer, a binary64 float or a string.  A missing
    cell is the float NaN, as in pandas. *)

Inductive value : Type :=
| VInt (z : Z)
| VFloat (f : float)
| VStr (s : string).

Definition NaN : value := VFloat nan.

Definition isna (v : value) : bool :=
  match v with
  | VFloat f => is_nan f
  | _ => false
  end.

Inductive dtype : Type := int64 | float64 | object.

Definition is_numeric (dt : dtype) : bool :=
  match dt with
  | object => false
  | _ => true
  end.

(** int64 arithmetic wraps around. *)
Definition wrap64 (z : Z) : Z :=
  ((z + 2 ^ 63) mod 2 ^ 64 - 2 ^ 63)%Z.

(** int64 to float64, rounding to nearest even. *)
Definition float_of_Z (z : Z) : float :=
  SF2Prim (binary_normalize prec emax z 0 false).

Definition as_int (v : value) : Z :=
  match v with
  | VInt z => z
  | _ => 0%Z
  end.

Definition to_float (v : value) : float :=
  match v with
  | VInt z => float_of_Z z
  | VFloat f => f
  | VStr _ => nan
  end.

(** [v == s] for a cell and a Python str: equal strings, byte for byte. *)
Definition eq_str (v : value) (s : string) : bool :=
  match v with
  | VStr t => t =? s
  | _ => false
  end.

(** Equality of two group keys (what the grouping hash table identifies). *)
Definition key_eqb (a b : value) : bool :=
  match a, b with
  | VStr s, VStr t => s =? t
  | VInt x, VInt y => (x =? y)%Z
  | VStr _, _ | _, VStr _ => false
  | _, _ => PrimFloat.eqb (to_float a) (to_float b)
  end.

(** The order group keys are sorted in: numbers before strings, numbers by
    value, strings by code point. *)
Definition key_leb (a b : value) : bool :=
  match a, b with
  | VStr s, VStr t => (s <=? t)
  | VInt x, VInt y => (x <=? y)%Z
  | VStr _, _ => false
  | _, VStr _ => true
  | _, _ => PrimFloat.leb (to_float a) (to_float b)
  end.

Fixpoint assoc {A : Type} (k : string) (l : list (string * A)) : option A :=
  match l with
  | [] => None
  | (k', a) :: t => if k' =? k then Some a else assoc k t
  end.

Fixpoint insert_sorted (x : value) (l : list value) : list value :=
  match l with
  | [] => [x]
  | y :: t => if key_leb x y then x :: l else y :: insert_sorted x t
  end.

Definition sort_keys (l : list value) : list value :=
  fold_right insert_sorted [] l.

(** First occurrences, in order. *)
Fixpoint uniq (l : list value) : list value :=
  match l with
  | [] => []
  | x :: t => x :: filter (fun y => negb (key_eqb x y)) (uniq t)
  end.

(** ** The pandas operations the script uses *)

Module pd.

(** A row maps column labels to cells, in column order. *)
Definition row : Type := list (string * value).

Record DataFrame : Type := mkDataFrame {
  columns : list (string * dtype);
  rows : list row
}.

(** [pd.DataFrame()] *)
Definition empty_frame : DataFrame := mkDataFrame [] [].

(** [df.empty]: no column or no row. *)
Definition empty (df : DataFrame) : bool :=
  match columns df, rows df with
  | [], _ | _, [] => true
  | _, _ => false
  end.

Definition cell (c : string) (r : row) : value :=
  match assoc c r with
  | Some v => v
  | None => NaN
  end.

Definition has_column (df : DataFrame) (c : string) : bool :=
  match assoc c (columns df) with
  | Some _ => true
  | None => false
  end.

(** [df[c]]: the column's cells, or KeyError. *)
Definition getitem (df : DataFrame) (c : string) : result (list value) :=
  if has_column df c then Ok (map (cell c) (rows df)) else Raise (KeyError c).

(** [series == s] *)
Definition series_eq (col : list value) (s : string) : list bool :=
  map (fun v => eq_str v s) col.

(** [series.isin(names)] for a list of str. *)
Definition isin (col : list value) (names : list string) : list bool :=
  map (fun v => existsb (eq_str v) names) col.

(** [df[mask]]: the rows whose mask entry is True. *)
Definition loc (df : DataFrame) (mask : list bool) : DataFrame :=
  mkDataFrame (columns df)
    (map fst (filter snd (combine (rows df) mask))).

Definition remove_key {A : Type} (c : string) (l : list (string * A))
  : list (string * A) :=
  filter (fun kv => negb (fst kv =? c)) l.

(** [df.drop(columns=[c])] *)
Definition drop (df : DataFrame) (c : string) : result DataFrame :=
  if has_column df c
  then Ok (mkDataFrame (remove_key c (columns df))
                       (map (remove_key c) (rows df)))
  else Raise (KeyError c).

(** *** groupby(...).sum(numeric_only=True).reset_index() *)

Record GroupBy : Type := mkGroupBy {
  obj : DataFrame;
  by_ : string;
  keys : list value      (* distinct non-missing keys, sorted *)
}.

Definition groupby (df : DataFrame) (by_col : string) : result GroupBy :=
  if has_column df by_col
  then Ok (mkGroupBy df by_col
             (sort_keys
                (uniq (filter (fun v => negb (isna v))
                              (map (cell by_col) (rows df))))))
  else Raise (KeyError by_col).

(** One step of the compensated (Kahan) float sum of the grouped
    reduction; [st] is the running sum and its compensation. *)
Definition kahan_step (st : float * float) (x : float) : float * float :=
  let '(sumx, comp) := st in
  let y := (x - comp)%float in
  let t := (sumx + y)%float in
  let c := (t - sumx - y)%float in
  (t, if is_nan c then 0%float else c).

(** The sum of one numeric column over one group.  Missing cells are
    skipped; the sum of no cell is zero; int64 wraps around. *)
Definition col_sum (dt : dtype) (vs : list value) : value :=
  match dt with
  | int64 =>
      VInt (fold_left (fun acc v => wrap64 (acc + as_int v)) vs 0%Z)
  | _ =>
      VFloat (fst (fold_left
                     (fun st v => if isna v then st
                                  else kahan_step st (to_float v))
                     vs (0%float, 0%float)))
  end.

(** A frame indexed by group key, as [.sum()] returns it. *)
Record Indexed : Type := mkIndexed {
  index_name : string;
  index_dtype : dtype;
  index : list value;
  frame : DataFrame
}.

Definition summed_columns (g : GroupBy) : list (string * dtype) :=
  filter (fun cd => is_numeric (snd cd) && negb (fst cd =? by_ g))
         (columns (obj g)).

Definition group_rows (g : GroupBy) (k : value) : list row :=
  filter (fun r => key_eqb (cell (by_ g) r) k) (rows (obj g)).

Definition sum_numeric (g : GroupBy) : Indexed :=
  let cols := summed_columns g in
  mkIndexed (by_ g)
    (match assoc (by_ g) (columns (obj g)) with
     | Some dt => dt
     | None => object
     end)
    (keys g)
    (mkDataFrame cols
       (map (fun k =>
               map (fun cd =>
                      (fst cd,
                       col_sum (snd cd)
                               (map (cell (fst cd)) (group_rows g k))))
                   cols)
            (keys g))).

Definition reset_index (x : Indexed) : DataFrame :=
  mkDataFrame
    ((index_name x, index_dtype x) :: columns (frame x))
    (map (fun kr => (index_name x, fst kr) :: snd kr)
         (combine (index x) (rows (frame x)))).

End pd.

Import pd.

(** ** Helper Function (source lines 88-92) *)

Definition get_stats (df : DataFrame) (player : string) : result DataFrame :=
  if empty df then Ok empty_frame
  else
    col <- getitem df "player" ;;
    if negb (existsb (fun v => eq_str v player) col) then Ok empty_frame
    else
      mask <- (c <- getitem df "player" ;; Ok (series_eq c player)) ;;
      data <- drop (loc df mask) "player" ;;
      g <- groupby data "format" ;;
      Ok (reset_index (sum_numeric g)).

(** ** Dataset Configuration (source lines 30-73) *)

Module Import loader.

Definition data_dir : string := "archive (2)".
Definition formats : list string := ["ODI"; "TEST"; "T20"].

(** [os.path.join] *)
Definition path_join (dir file : string) : string :=
  (dir ++ "/" ++ file)%string.

(** The files under [data_dir] as [pd.read_csv] parses them: the frame a
    path yields, or nothing when reading it raises. *)
Definition files : Type := string -> option DataFrame.

Definition read_csv (fs : files) (path : string) : result DataFrame :=
  match fs path with
  | Some df => Ok df
  | None => Raise (ReadError path)
  end.

(** *** [str.strip] and [str.lower] on column labels (ASCII) *)
Definition is_space (a : ascii) : bool :=
  let n := nat_of_ascii a in
  ((9 <=? n)%nat && (n <=? 13)%nat) || ((28 <=? n)%nat && (n <=? 32)%nat).

Fixpoint lstrip_chars (l : list ascii) : list ascii :=
  match l with
  | a :: t => if is_space a then lstrip_chars t else l
  | [] => []
  end.

Definition strip (s : string) : string :=
  string_of_list_ascii
    (rev (lstrip_chars (rev (lstrip_chars (list_ascii_of_string s))))).

Definition lower_char (a : ascii) : ascii :=
  let n := nat_of_ascii a in
  if (65 <=? n)%nat && (n <=? 90)%nat then ascii_of_nat (n + 32) else a.

Fixpoint lower (s : string) : string :=
  match s with
  | EmptyString => EmptyString
  | String a t => String (lower_char a) (lower t)
  end.

(** Relabelling the columns by a function of the label. *)
Definition relabel (f : string -> string) (df : DataFrame) : DataFrame :=
  mkDataFrame
    (map (fun cd => (f (fst cd), snd cd)) (columns df))
    (map (map (fun kv => (f (fst kv), snd kv))) (rows df)).

(** [df.columns = df.columns.str.strip().str.lower()] *)
Definition normalize_columns (df : DataFrame) : DataFrame :=
  relabel (fun c => lower (strip c)) df.

(** [df.rename(columns={old: new}, inplace=True)] *)
Definition rename (old new : string) (df : DataFrame) : DataFrame :=
  relabel (fun c => if c =? old then new else c) df.

(** *** [left.merge(right, on=key, how="left")] *)

(** Two join keys match when they are equal; a missing key matches a
    missing key. *)
Definition key_match (l r : value) : bool :=
  if isna l then isna r else key_eqb l r.

Definition astype (dt : dtype) (v : value) : value :=
  match dt, v with
  | float64, VInt z => VFloat (float_of_Z z)
  | _, _ => v
  end.

Definition mem_string (c : string) (l : list string) : bool :=
  existsb (String.eqb c) l.

(** A label other than the key that both frames carry. *)
Definition overlap (left right : DataFrame) (on c : string) : bool :=
  mem_string c (map fst (remove_key on (columns left)))
  && mem_string c (map fst (remove_key on (columns right))).

(** Such labels get the suffixes [_x] (left) and [_y] (right). *)
Definition left_label (left right : DataFrame) (on c : string) : string :=
  if overlap left right on c then (c ++ "_x")%string else c.

Definition right_label (left right : DataFrame) (on c : string) : string :=
  if overlap left right on c then (c ++ "_y")%string else c.

(** The rows of [right] that a left row joins to, in their order. *)
Definition matches (right : DataFrame) (on : string) (l : row) : list row :=
  filter (fun r => key_match (cell on l) (cell on r)) (rows right).

(** Some left row joins to nothing. *)
Definition unmatched (left right : DataFrame) (on : string) : bool :=
  existsb (fun l => Nat.eqb (List.length (matches right on l)) 0) (rows left).

(** A right column with unmatched rows holds NaN: int64 becomes float64. *)
Definition right_dtype (left right : DataFrame) (on : string) (dt : dtype)
  : dtype :=
  match dt with
  | int64 => if unmatched left right on then float64 else int64
  | _ => dt
  end.

(** The rows one left row contributes: one per match, or one with every
    right column missing. *)
Definition joined_rows (left right : DataFrame) (on : string) (l : row)
  : list row :=
  let lrow := map (fun kv => (left_label left right on (fst kv), snd kv)) l in
  match matches right on l with
  | [] =>
      [lrow ++ map (fun cd => (right_label left right on (fst cd), NaN))
                   (remove_key on (columns right))]
  | ms =>
      map (fun r =>
             lrow
             ++ map (fun cd =>
                       (right_label left right on (fst cd),
                        astype (right_dtype left right on (snd cd))
                               (cell (fst cd) r)))
                    (remove_key on (columns right)))
          ms
  end.

Definition merge (left right : DataFrame) (on : string) : result DataFrame :=
  match assoc on (columns left), assoc on (columns right) with
  | Some ldt, Some rdt =>
      if negb (Bool.eqb (is_numeric ldt) (is_numeric rdt))
         && negb (Nat.eqb (List.length (rows left)) 0)
         && negb (Nat.eqb (List.length (rows right)) 0)
      then Raise (ValueError "merge on incompatible key dtypes")
      else
        Ok (mkDataFrame
              (map (fun cd => (left_label left right on (fst cd), snd cd))
                   (columns left)
               ++ map (fun cd => (right_label left right on (fst cd),
                                  right_dtype left right on (snd cd)))
                      (remove_key on (columns right)))
              (flat_map (joined_rows left right on) (rows left)))
  | _, _ => Raise (KeyError on)
  end.

(** [df[c] = v] for a str [v]: the column is replaced where it stands, or
    added last. *)
Definition setitem (df : DataFrame) (c : string) (v : value) : DataFrame :=
  if has_column df c
  then mkDataFrame
         (map (fun cd => if fst cd =? c then (c, object) else cd) (columns df))
         (map (map (fun kv => if fst kv =? c then (c, v) else kv)) (rows df))
  else mkDataFrame
         (columns df ++ [(c, object)])
         (map (fun r => r ++ [(c, v)]) (rows df)).

(** *** [pd.concat(frames, ignore_index=True)] *)

Fixpoint uniq_labels (l : list string) : list string :=
  match l with
  | [] => []
  | c :: t => c :: filter (fun d => negb (c =? d)) (uniq_labels t)
  end.

(** The dtype of a column of the result: object if it is object anywhere,
    int64 if it is int64 in every frame, float64 otherwise (a frame without
    the column contributes NaN). *)
Definition concat_dtype (dfs : list DataFrame) (c : string) : dtype :=
  let ds := map (fun df => assoc c (columns df)) dfs in
  if existsb (fun d => match d with Some object => true | _ => false end) ds
  then object
  else if forallb (fun d => match d with Some int64 => true | _ => false end) ds
       then int64
       else float64.

Definition concat (dfs : list DataFrame) : DataFrame :=
  let cols :=
    map (fun c => (c, concat_dtype dfs c))
        (uniq_labels (flat_map (fun df => map fst (columns df)) dfs)) in
  mkDataFrame cols
    (flat_map
       (fun df =>
          map (fun r => map (fun cd => (fst cd, astype (snd cd) (cell (fst cd) r)))
                            cols)
              (rows df))
       dfs).

(** *** The load loop *)

Inductive message : Type :=
| st_error (what : string) (e : exn)
| st_warning (what : string) (e : exn).

(** One [try] body of the loop: read, normalise, join, tag. *)
Definition load_table (fs : files) (all_players_df : DataFrame)
    (fmt category : string) : result DataFrame :=
  t <- read_csv fs (path_join data_dir (fmt ++ "_" ++ category ++ ".csv")%string) ;;
  let t := normalize_columns t in
  t <- merge t all_players_df "id" ;;
  Ok (setitem t "format" (VStr fmt)).

Record tables : Type := mkTables {
  batting_list : list DataFrame;
  bowling_list : list DataFrame;
  all_round_list : list DataFrame;
  shown : list message
}.

Definition load_all_players (fs : files) : DataFrame * list message :=
  match read_csv fs (path_join data_dir "all_players.csv") with
  | Ok df => (rename "name" "player" (normalize_columns df), [])
  | Raise e => (empty_frame, [st_error "Failed to load all_players.csv" e])
  end.

(** The body of [for fmt in formats]. *)
Definition load_format (fs : files) (all_players_df : DataFrame)
    (st : tables) (fmt : string) : tables :=
  let st :=
    match load_table fs all_players_df fmt "batting" with
    | Ok bat =>
        mkTables (batting_list st ++ [bat]) (bowling_list st) (all_round_list st)
                 (shown st)
    | Raise e =>
        mkTables (batting_list st) (bowling_list st) (all_round_list st)
                 (shown st
                  ++ [st_warning ("Could not load " ++ fmt ++ "_batting.csv")%string e])
    end in
  let st :=
    match load_table fs all_players_df fmt "bowling" with
    | Ok bowl =>
        mkTables (batting_list st) (bowling_list st ++ [bowl]) (all_round_list st)
                 (shown st)
    | Raise e =>
        mkTables (batting_list st) (bowling_list st) (all_round_list st)
                 (shown st
                  ++ [st_warning ("Could not load " ++ fmt ++ "_bowling.csv")%string e])
    end in
  match load_table fs all_players_df fmt "all_round" with
  | Ok allr =>
      mkTables (batting_list st) (bowling_list st) (all_round_list st ++ [allr])
               (shown st)
  | Raise e =>
      mkTables (batting_list st) (bowling_list st) (all_round_list st)
               (shown st
                ++ [st_warning ("Could not load " ++ fmt ++ "_all_round.csv")%string e])
  end.

(** [pd.concat(l, ignore_index=True) if l else pd.DataFrame()] *)
Definition concat_or_empty (l : list DataFrame) : DataFrame :=
  match l with
  | [] => empty_frame
  | _ => concat l
  end.

(** The module-level tables once the script has run lines 30-73. *)
Record dataset : Type := mkDataset {
  all_players_df : DataFrame;
  batting_df : DataFrame;
  bowling_df : DataFrame;
  all_round_df : DataFrame;
  messages : list message
}.

Definition load (fs : files) : dataset :=
  let '(players, msgs) := load_all_players fs in
  let st := fold_left (load_format fs players) formats
                      (mkTables [] [] [] msgs) in
  mkDataset players
    (concat_or_empty (batting_list st))
    (concat_or_empty (bowling_list st))
    (concat_or_empty (all_round_list st))
    (shown st).

End loader.

(** ** Player Names List (source lines 78-83) *)

(** Membership in a Python set: the same object, or equal. The missing cells
    the join fills in are one object, [np.nan]. *)
Definition same_element (a b : value) : bool :=
  if isna a then isna b else key_eqb a b.

Definition set_add (s : list value) (v : value) : list value :=
  if existsb (same_element v) s then s else s ++ [v].

(** [set(series)] *)
Definition set_of (col : list value) : list value :=
  fold_left set_add col [].

(** [a | b] *)
Definition set_union (a b : list value) : list value :=
  fold_left set_add b a.

(** [try: set(...) | set(...) | set(...)  except KeyError: set()] *)
Definition all_players (d : dataset) : list value :=
  match
    (bat <- getitem (batting_df d) "player" ;;
     bowl <- getitem (bowling_df d) "player" ;;
     allr <- getitem (all_round_df d) "player" ;;
     Ok (set_union (set_union (set_of bat) (set_of bowl)) (set_of allr)))
  with
  | Ok s => s
  | Raise _ => []
  end.

(** [a < b] in Python: defined between two numbers and between two strings. *)
Definition py_lt (a b : value) : result bool :=
  match a, b with
  | VStr s, VStr t => Ok (String.ltb s t)
  | VInt x, VInt y => Ok (x <? y)%Z
  | VStr _, _ | _, VStr _ => Raise TypeError
  | _, _ => Ok (PrimFloat.ltb (to_float a) (to_float b))
  end.

Fixpoint py_insert (x : value) (l : list value) : result (list value) :=
  match l with
  | [] => Ok [x]
  | y :: t =>
      b <- py_lt x y ;;
      if b then Ok (x :: l)
      else (t' <- py_insert x t ;; Ok (y :: t'))
  end.

(** [sorted(s)]: raises as soon as two elements cannot be compared. *)
Definition sorted (s : list value) : result (list value) :=
  fold_left (fun acc x => l <- acc ;; py_insert x l) s (Ok []).

Definition player_names (d : dataset) : result (list value) :=
  sorted (all_players d).

(** ** UI and Logic: the comparison tabs (source lines 104-131) *)

Module Import comparison.

Definition tab_labels : list string := ["Batting"; "Bowling"; "All-Round"].

(** The dict [dfs]. *)
Definition dfs (d : dataset) (label : string) : DataFrame :=
  if label =? "Batting" then batting_df d
  else if label =? "Bowling" then bowling_df d
  else all_round_df d.

Definition metrics (label : string) : list string :=
  if label =? "Batting" then ["runs"; "average_score"; "strike_rate"]
  else ["wk"].

(** One [go.Bar] trace. *)
Record Bar : Type := mkBar {
  x : list value;
  y : list value;
  name : string
}.

(** [dfs[label][dfs[label]["player"].isin(selected)]] *)
Definition compare_df (df : DataFrame) (selected : list string)
  : result DataFrame :=
  col <- getitem df "player" ;;
  Ok (loc df (isin col selected)).

(** [compare_df[compare_df["player"] == player]
       .groupby("format").sum(numeric_only=True).reset_index()] *)
Definition subset (compare_df : DataFrame) (player : string)
  : result DataFrame :=
  col <- getitem compare_df "player" ;;
  g <- groupby (loc compare_df (series_eq col player)) "format" ;;
  Ok (reset_index (sum_numeric g)).

Definition bar (compare_df : DataFrame) (metric player : string)
  : result Bar :=
  s <- subset compare_df player ;;
  xs <- getitem s "format" ;;
  ys <- getitem s metric ;;
  Ok (mkBar xs ys (player ++ " - " ++ metric)%string).

(** The two nested loops that fill the figure. *)
Definition chart (label : string) (compare_df : DataFrame)
    (selected : list string) : result (list Bar) :=
  fold_left
    (fun fig metric =>
       fold_left
         (fun fig player =>
            traces <- fig ;;
            b <- bar compare_df metric player ;;
            Ok (traces ++ [b]))
         selected fig)
    (metrics label) (Ok []).

Inductive tab_content : Type :=
| no_records_found
| table_and_chart (table : DataFrame) (fig : list Bar).

Definition show_tab (d : dataset) (selected : list string) (label : string)
  : result tab_content :=
  c <- compare_df (dfs d label) selected ;;
  if empty c then Ok no_records_found
  else (fig <- chart label c selected ;; Ok (table_and_chart c fig)).

End comparison.

(** ** Gemini Summary (source lines 136-160) *)

Section summary.

(** How Python prints a float in an f-string. *)
Variable repr_float : float -> string.

Definition nl : string := String (ascii_of_nat 10) EmptyString.

Definition str (v : value) : string :=
  match v with
  | VInt z => DecimalString.NilZero.string_of_int (Z.to_int z)
  | VFloat f => repr_float f
  | VStr s => s
  end.

(** [row[k]] *)
Definition row_getitem (r : row) (k : string) : result value :=
  match assoc k r with
  | Some v => Ok v
  | None => Raise (KeyError k)
  end.

(** [row.get(k, default)], printed. *)
Definition row_get (r : row) (k default : string) : string :=
  match assoc k r with
  | Some v => str v
  | None => default
  end.

Definition batting_line (r : row) : result string :=
  f <- row_getitem r "format" ;;
  Ok ("Batting - " ++ str f ++ ": " ++ row_get r "runs" "-"
      ++ " runs, Avg: " ++ row_get r "average_score" "-"
      ++ ", SR: " ++ row_get r "strike_rate" "-" ++ nl)%string.

Definition bowling_line (r : row) : result string :=
  f <- row_getitem r "format" ;;
  Ok ("Bowling - " ++ str f ++ ": " ++ row_get r "wk" "-"
      ++ " wickets" ++ nl)%string.

Definition instruction : string :=
  ("Summarize the cricket performance of the following players:" ++ nl)%string.

(** [for _, row in stats.iterrows(): prompt += line(row)] *)
Definition add_lines (line : row -> result string) (stats : DataFrame)
    (prompt : string) : result string :=
  fold_left
    (fun acc r => p <- acc ;; l <- line r ;; Ok (p ++ l)%string)
    (rows stats) (Ok prompt).

Definition build_prompt (d : dataset) (selected : list string)
  : result string :=
  fold_left
    (fun acc player =>
       prompt <- acc ;;
       let prompt := (prompt ++ nl ++ "Player: " ++ player ++ nl)%string in
       bat <- get_stats (batting_df d) player ;;
       prompt <- add_lines batting_line bat prompt ;;
       bowl <- get_stats (bowling_df d) player ;;
       add_lines bowling_line bowl prompt)
    selected (Ok instruction).

(** The working directory: the contents of each file that exists. *)
Definition disk : Type := string -> option string.

(** [open(path, "w")]: the file is created or truncated. *)
Definition open_w (fs : disk) (path : string) : disk :=
  fun p => if p =? path then Some EmptyString else fs p.

(** [f.write(text)] on a file opened at [path]. *)
Definition write (fs : disk) (path text : string) : disk :=
  fun p =>
    if p =? path
    then match fs p with
         | Some old => Some (old ++ text)%string
         | None => None
         end
    else fs p.

Inductive shown_summary : Type :=
| nothing_shown
| summary_shown (summary_text : string)
| generation_failed (e : exn).

(** What the operating system does to the attempt to write summary.txt.
    [open] and [f.write] sit inside the [try] of lines 140-160, so either
    can raise and end in the [except] branch. *)
Inductive io_fault : Type :=
| no_fault
| open_fails                      (* [open] raises: the file is untouched *)
| write_fails (written : nat).    (* the file was truncated; [written]
                                     characters reached it before the
                                     write raised *)

(** The body of the button's [try]: [model] is [model.generate_content]
    followed by [.text].  The summary is shown only after the file was
    written (lines 156-158 follow the [with] block). *)
Definition generate (model : string -> result string) (fault : io_fault)
    (d : dataset) (selected : list string) (fs : disk)
  : disk * shown_summary :=
  match (prompt <- build_prompt d selected ;; model prompt) with
  | Ok summary_text =>
      match fault with
      | no_fault =>
          (write (open_w fs "summary.txt") "summary.txt" summary_text,
           summary_shown summary_text)
      | open_fails => (fs, generation_failed (OSError "summary.txt"))
      | write_fails written =>
          (write (open_w fs "summary.txt") "summary.txt"
                 (substring 0 written summary_text),
           generation_failed (OSError "summary.txt"))
      end
  | Raise e => (fs, generation_failed e)
  end.

(** [if selected and gemini_ready: if st.button(...): ...] *)
Definition summary_button (gemini_ready : bool)
    (model : string -> result string) (fault : io_fault) (d : dataset)
    (selected : list string) (fs : disk) : disk * shown_summary :=
  match selected with
  | [] => (fs, nothing_shown)
  | _ => if gemini_ready then generate model fault d selected fs
         else (fs, nothing_shown)
  end.

End summary.

(** * Vocabulary of the statements *)

(** The rows of [T] whose player is [p]. *)
Definition player_rows (T : DataFrame) (p : string) : list row :=
  filter (fun r => eq_str (cell "player" r) p) (rows T).

(** The format values of a list of rows. *)
Definition formats_of (rs : list row) : list value :=
  map (cell "format") rs.

(** The rows of [p] in [T] whose format is [k]. *)
Definition group_of (T : DataFrame) (p : string) (k : value) : list row :=
  filter (fun r => key_eqb (cell "format" r) k) (player_rows T p).

(** The aggregation as the specification words it: the rows of [p], without
    the player column, grouped by format, every numeric column summed. *)
Definition aggregate_spec (T : DataFrame) (p : string) : DataFrame :=
  let cols :=
    filter (fun cd => is_numeric (snd cd) && negb (fst cd =? "format"))
           (remove_key "player" (columns T)) in
  let ks :=
    sort_keys (uniq (filter (fun v => negb (isna v))
                            (formats_of (player_rows T p)))) in
  mkDataFrame
    (("format",
      match assoc "format" (columns T) with Some dt => dt | None => object end)
     :: cols)
    (map (fun k =>
            ("format", k)
            :: map (fun cd =>
                      (fst cd,
                       col_sum (snd cd) (map (cell (fst cd)) (group_of T p k))))
                   cols)
         ks).

(** A table of one category as the loader leaves it: [pd.DataFrame()] when
    no file of the category loaded, and otherwise a frame with a [player]
    and a [format] column. *)
Definition unified_table (T : DataFrame) : Prop :=
  empty T = true \/
  (has_column T "player" = true /\ has_column T "format" = true).

(** Ascending order of strings, by code point. *)
Definition string_lt (s t : string) : Prop := String.ltb s t = true.

(** The order of group keys, as a relation. *)
Definition key_le (a b : value) : Prop := key_leb a b = true.

Definition is_str (v : value) : Prop := exists s, v = VStr s.

(** The tagged frames of one category that the load loop collects, in the
    order of [formats]. *)
Definition loaded (fs : files) (players : DataFrame) (category : string)
  : list DataFrame :=
  flat_map
    (fun fmt =>
       match load_table fs players fmt category with
       | Ok t => [t]
       | Raise _ => []
       end)
    formats.

(** The table of a category. *)
Definition category_table (d : dataset) (category : string) : DataFrame :=
  if category =? "batting" then batting_df d
  else if category =? "bowling" then bowling_df d
  else all_round_df d.

Definition categories : list string := ["batting"; "bowling"; "all_round"].

Definition csv_path (fmt category : string) : string :=
  path_join data_dir (fmt ++ "_" ++ category ++ ".csv")%string.

(** Mapping a function that can raise over a list, left to right. *)
Fixpoint traverse {A B : Type} (f : A -> result B) (l : list A)
  : result (list B) :=
  match l with
  | [] => Ok []
  | a :: t => b <- f a ;; bs <- traverse f t ;; Ok (b :: bs)
  end.

(** The texts of a list, one after the other. *)
Definition join (l : list string) : string :=
  fold_right String.append EmptyString l.

(** The header line of a player, after an empty line. *)
Definition header (player : string) : string :=
  (nl ++ "Player: " ++ player ++ nl)%string.

(** The part of the prompt about one player, as the specification lays it
    out: the header, a line per batting row, a line per bowling row. *)
Definition player_block (repr_float : float -> string) (d : dataset)
    (player : string) : result string :=
  bat <- get_stats (batting_df d) player ;;
  bat_lines <- traverse (batting_line repr_float) (rows bat) ;;
  bowl <- get_stats (bowling_df d) player ;;
  bowl_lines <- traverse (bowling_line repr_float) (rows bowl) ;;
  Ok (header player ++ join bat_lines ++ join bowl_lines)%string.

(** Every row of a frame carries the frame's labels, in order. *)
Definition well_formed (df : DataFrame) : Prop :=
  forall r, In r (rows df) -> map fst r = map fst (columns df).

(** * Example data *)

Module example.

(** A table in the shape the loader produces: joined, tagged, concatenated
    in the order of [formats]. *)
Definition table : DataFrame :=
  mkDataFrame
    [("id", int64); ("runs", int64); ("player", object); ("format", object)]
    [[("id", VInt 1); ("runs", VInt 50); ("player", VStr "A Sharma");
      ("format", VStr "ODI")];
     [("id", VInt 2); ("runs", VInt 7); ("player", NaN);
      ("format", VStr "ODI")];
     [("id", VInt 1); ("runs", VInt 30); ("player", VStr "A Sharma");
      ("format", VStr "TEST")];
     [("id", VInt 1); ("runs", VInt 12); ("player", VStr "A Sharma");
      ("format", VStr "T20")];
     [("id", VInt 1); ("runs", VInt 8); ("player", VStr "A Sharma");
      ("format", VStr "T20")]].

(** The scenario of the specification: one directory row and one batting
    row in each of two formats. *)
Definition directory : DataFrame :=
  mkDataFrame [("id", int64); ("player", object)]
    [[("id", VInt 1); ("player", VStr "A Sharma")]].

Definition batting_columns : list (string * dtype) :=
  [("id", int64); ("runs", int64); ("average_score", float64);
   ("strike_rate", float64)].

Definition odi_batting : DataFrame :=
  mkDataFrame batting_columns
    [[("id", VInt 1); ("runs", VInt 50); ("average_score", VFloat 50);
      ("strike_rate", VFloat 80)]].

Definition test_batting : DataFrame :=
  mkDataFrame batting_columns
    [[("id", VInt 1); ("runs", VInt 30); ("average_score", VFloat 30);
      ("strike_rate", VFloat 40)]].

Definition scenario : files :=
  fun path =>
    if path =? "archive (2)/all_players.csv" then Some directory
    else if path =? "archive (2)/ODI_batting.csv" then Some odi_batting
    else if path =? "archive (2)/TEST_batting.csv" then Some test_batting
    else None.

(** The rows the specification's example lists. *)
Definition scenario_rows_as_specified : list row :=
  [[("format", VStr "ODI"); ("runs", VInt 50); ("average_score", VFloat 50);
    ("strike_rate", VFloat 80)];
   [("format", VStr "TEST"); ("runs", VInt 30); ("average_score", VFloat 30);
    ("strike_rate", VFloat 40)]].

(** Two rows of one player in one format whose identifiers add up to
    2^63. *)
Definition large_ids : DataFrame :=
  mkDataFrame
    [("id", int64); ("runs", int64); ("player", object); ("format", object)]
    [[("id", VInt 4611686018427387904); ("runs", VInt 50);
      ("player", VStr "A Sharma"); ("format", VStr "ODI")];
     [("id", VInt 4611686018427387904); ("runs", VInt 7);
      ("player", VStr "A Sharma"); ("format", VStr "ODI")]].

(** No directory file; one batting file that reads fine. *)
Definition no_directory : files :=
  fun path =>
    if path =? "archive (2)/ODI_batting.csv" then Some odi_batting else None.

(** A directory that lacks identifier 2, and one T20 file per category
    whose only row carries identifier 2. *)
Definition directory_by_name : DataFrame :=
  mkDataFrame [("id", int64); ("name", object)]
    [[("id", VInt 1); ("name", VStr "A Sharma")]].

Definition t20_batting : DataFrame :=
  mkDataFrame [("id", int64); ("runs", int64)]
    [[("id", VInt 2); ("runs", VInt 5)]].

Definition t20_bowling : DataFrame :=
  mkDataFrame [("id", int64); ("wk", int64)]
    [[("id", VInt 2); ("wk", VInt 3)]].

Definition t20_all_round : DataFrame :=
  mkDataFrame [("id", int64); ("wk", int64)]
    [[("id", VInt 2); ("wk", VInt 1)]].

Definition join_miss : files :=
  fun path =>
    if path =? "archive (2)/all_players.csv" then Some directory_by_name
    else if path =? "archive (2)/T20_batting.csv" then Some t20_batting
    else if path =? "archive (2)/T20_bowling.csv" then Some t20_bowling
    else if path =? "archive (2)/T20_all_round.csv" then Some t20_all_round
    else None.

(** A directory with two players; the batting file also carries an
    identifier the directory lacks. *)
Definition two_players : DataFrame :=
  mkDataFrame [("id", int64); ("name", object)]
    [[("id", VInt 1); ("name", VStr "V Kohli")];
     [("id", VInt 3); ("name", VStr "A Sharma")]].

Definition odi_batting_three : DataFrame :=
  mkDataFrame [("id", int64); ("runs", int64)]
    [[("id", VInt 1); ("runs", VInt 50)];
     [("id", VInt 2); ("runs", VInt 7)];
     [("id", VInt 3); ("runs", VInt 9)]].

Definition odi_bowling_two : DataFrame :=
  mkDataFrame [("id", int64); ("wk", int64)]
    [[("id", VInt 1); ("wk", VInt 2)];
     [("id", VInt 3); ("wk", VInt 4)]].

(** Every identifier matched. *)
Definition all_matched : files :=
  fun path =>
    if path =? "archive (2)/all_players.csv" then Some two_players
    else if path =? "archive (2)/ODI_batting.csv" then Some odi_bowling_two
    else if path =? "archive (2)/ODI_bowling.csv" then Some odi_bowling_two
    else if path =? "archive (2)/ODI_all_round.csv" then Some odi_bowling_two
    else None.

(** One batting row unmatched, beside matched ones. *)
Definition one_unmatched : files :=
  fun path =>
    if path =? "archive (2)/all_players.csv" then Some two_players
    else if path =? "archive (2)/ODI_batting.csv" then Some odi_batting_three
    else if path =? "archive (2)/ODI_bowling.csv" then Some odi_bowling_two
    else if path =? "archive (2)/ODI_all_round.csv" then Some odi_bowling_two
    else None.

(** A batting table with the three batting metrics, and files whose
    bowling file has no [wk] column. *)
Definition batting_table : DataFrame :=
  mkDataFrame
    [("id", int64); ("runs", int64); ("average_score", float64);
     ("strike_rate", float64); ("player", object); ("format", object)]
    [[("id", VInt 1); ("runs", VInt 50); ("average_score", VFloat 50);
      ("strike_rate", VFloat 80); ("player", VStr "V Kohli");
      ("format", VStr "ODI")];
     [("id", VInt 3); ("runs", VInt 9); ("average_score", VFloat 9);
      ("strike_rate", VFloat 60); ("player", VStr "A Sharma");
      ("format", VStr "ODI")]].

Definition odi_bowling_overs : DataFrame :=
  mkDataFrame [("id", int64); ("overs", int64)]
    [[("id", VInt 1); ("overs", VInt 10)]].

Definition odi_batting_two : DataFrame :=
  mkDataFrame [("id", int64); ("runs", int64)]
    [[("id", VInt 1); ("runs", VInt 50)];
     [("id", VInt 3); ("runs", VInt 9)]].

Definition without_wk : files :=
  fun path =>
    if path =? "archive (2)/all_players.csv" then Some two_players
    else if path =? "archive (2)/ODI_batting.csv" then Some odi_batting_two
    else if path =? "archive (2)/ODI_bowling.csv" then Some odi_bowling_overs
    else if path =? "archive (2)/ODI_all_round.csv" then Some odi_bowling_two
    else None.

(** Files for a summary: two batting rows and a bowling row for one player,
    a bowling row only for the other. *)
Definition summary_files : files :=
  fun path =>
    if path =? "archive (2)/all_players.csv" then Some two_players
    else if path =? "archive (2)/ODI_batting.csv" then Some odi_batting
    else if path =? "archive (2)/TEST_batting.csv" then Some test_batting
    else if path =? "archive (2)/ODI_bowling.csv" then Some odi_bowling_two
    else if path =? "archive (2)/ODI_all_round.csv" then Some odi_bowling_two
    else None.

(** A disk that already holds a summary. *)
Definition old_disk : disk :=
  fun path =>
    if path =? "summary.txt" then Some "an older and longer summary"
    else None.

End example.

(** * Properties *)

(** ** Association lists and masks *)

Lemma assoc_remove_key_ne {A : Type} (c k : string) (l : list (string * A)) :
  k <> c -> assoc k (remove_key c l) = assoc k l.
Proof.
  intros Hne. induction l as [|[k' a] l IH]; simpl; [reflexivity|].
  destruct (String.eqb_spec k' c) as [->|Hc]; simpl.
  - destruct (String.eqb_spec c k) as [->|_]; [congruence|exact IH].
  - rewrite IH. reflexivity.
Qed.

Lemma assoc_remove_key_eq {A : Type} (c : string) (l : list (string * A)) :
  assoc c (remove_key c l) = None.
Proof.
  induction l as [|[k' a] l IH]; simpl; [reflexivity|].
  destruct (String.eqb_spec k' c) as [->|Hc]; simpl; [exact IH|].
  destruct (String.eqb_spec k' c); [contradiction|exact IH].
Qed.

Lemma cell_remove_key_ne (c k : string) (r : row) :
  k <> c -> cell k (remove_key c r) = cell k r.
Proof.
  intros Hne. unfold cell. rewrite assoc_remove_key_ne by exact Hne.
  reflexivity.
Qed.

Lemma assoc_map_values {A B : Type} (g : string -> A -> B) (k : string)
    (l : list (string * A)) :
  assoc k (map (fun kv => (fst kv, g (fst kv) (snd kv))) l)
  = option_map (g k) (assoc k l).
Proof.
  induction l as [|[k' a] l IH]; simpl; [reflexivity|].
  destruct (String.eqb_spec k' k) as [->|_]; [reflexivity|exact IH].
Qed.

Lemma assoc_filter_keep {A : Type} (P : string * A -> bool) (k : string)
    (l : list (string * A)) (a : A) :
  assoc k l = Some a -> P (k, a) = true -> assoc k (filter P l) = Some a.
Proof.
  induction l as [|[k' b] l IH]; simpl; [discriminate|].
  destruct (String.eqb_spec k' k) as [->|Hne].
  - intros [= ->] HP. rewrite HP. simpl. rewrite String.eqb_refl. reflexivity.
  - intros Ha HP. destruct (P (k', b)); simpl.
    + destruct (String.eqb_spec k' k); [contradiction|auto].
    + auto.
Qed.

Lemma loc_mask (df : DataFrame) (f : row -> bool) :
  loc df (map f (rows df)) = mkDataFrame (columns df) (filter f (rows df)).
Proof.
  unfold loc. f_equal.
  induction (rows df) as [|r rs IH]; simpl; [reflexivity|].
  destruct (f r); simpl; rewrite IH; reflexivity.
Qed.

Lemma combine_map_self {A B : Type} (f : A -> B) (l : list A) :
  combine l (map f l) = map (fun a => (a, f a)) l.
Proof.
  induction l as [|a l IH]; simpl; [reflexivity|]. rewrite IH. reflexivity.
Qed.

Lemma filter_map_commute {A B : Type} (g : A -> B) (P : B -> bool)
    (l : list A) :
  filter P (map g l) = map g (filter (fun a => P (g a)) l).
Proof.
  induction l as [|a l IH]; simpl; [reflexivity|].
  destruct (P (g a)); simpl; rewrite IH; reflexivity.
Qed.

Lemma existsb_map_commute {A B : Type} (g : A -> B) (P : B -> bool)
    (l : list A) :
  existsb P (map g l) = existsb (fun a => P (g a)) l.
Proof.
  induction l as [|a l IH]; simpl; [reflexivity|]. rewrite IH. reflexivity.
Qed.

Lemma existsb_filter_nonempty {A : Type} (P : A -> bool) (l : list A) :
  existsb P l = true <-> filter P l <> [].
Proof.
  induction l as [|a l IH]; simpl.
  - split; [discriminate|congruence].
  - destruct (P a); simpl; [split; [discriminate|reflexivity]|exact IH].
Qed.

(** ** The aggregation computes what the specification words *)

Lemma has_column_loc (df : DataFrame) (mask : list bool) (c : string) :
  has_column (loc df mask) c = has_column df c.
Proof. reflexivity. Qed.

Lemma not_empty (df : DataFrame) (c : string) (r : row) :
  has_column df c = true -> In r (rows df) -> empty df = false.
Proof.
  unfold has_column, empty. intros Hc Hr.
  destruct (columns df); [discriminate|].
  destruct (rows df); [contradiction|reflexivity].
Qed.

Lemma player_rows_in (T : DataFrame) (p : string) (r : row) :
  In r (player_rows T p) <-> In r (rows T) /\ cell "player" r = VStr p.
Proof.
  unfold player_rows. rewrite filter_In. unfold eq_str.
  destruct (cell "player" r) as [z|f|s]; try (split; [intros [_ H]; discriminate|intros [_ H]; discriminate]).
  destruct (String.eqb_spec s p) as [->|Hne]; [tauto|].
  split; [intros [_ H]; discriminate|intros [_ H]; congruence].
Qed.

Lemma get_stats_absent (T : DataFrame) (p : string) :
  has_column T "player" = true -> player_rows T p = [] ->
  get_stats T p = Ok empty_frame.
Proof.
  intros Hp Hrows. unfold get_stats.
  destruct (empty T); [reflexivity|].
  unfold getitem. rewrite Hp. simpl.
  rewrite existsb_map_commute.
  destruct (existsb (fun r => eq_str (cell "player" r) p) (rows T)) eqn:E;
    [|reflexivity].
  apply existsb_filter_nonempty in E. contradiction.
Qed.

Lemma get_stats_present (T : DataFrame) (p : string) :
  has_column T "player" = true -> has_column T "format" = true ->
  player_rows T p <> [] ->
  get_stats T p = Ok (aggregate_spec T p).
Proof.
  intros Hp Hf Hrows. unfold get_stats.
  assert (Hne : empty T = false).
  { destruct (player_rows T p) as [|r rs] eqn:E; [contradiction|].
    apply (not_empty T "player" r Hp).
    apply (player_rows_in T p r). rewrite E. left. reflexivity. }
  rewrite Hne. unfold getitem. rewrite Hp. simpl.
  rewrite existsb_map_commute.
  apply existsb_filter_nonempty in Hrows. rewrite Hrows. simpl.
  unfold series_eq. rewrite map_map, loc_mask.
  unfold drop. unfold has_column at 1. simpl. fold (has_column T "player").
  rewrite Hp. simpl.
  unfold groupby. unfold has_column at 1. simpl.
  rewrite assoc_remove_key_ne by discriminate.
  fold (has_column T "format"). rewrite Hf. simpl.
  unfold reset_index, sum_numeric, summed_columns, group_rows, aggregate_spec.
  simpl.
  rewrite assoc_remove_key_ne by discriminate.
  fold (player_rows T p).
  assert (Hk : map (cell "format") (map (remove_key "player") (player_rows T p))
               = formats_of (player_rows T p)).
  { unfold formats_of. rewrite map_map. apply map_ext. intros r.
    apply cell_remove_key_ne. discriminate. }
  rewrite Hk. f_equal. f_equal.
  rewrite combine_map_self, map_map. apply map_ext. intros k. simpl.
  f_equal. apply map_ext_in. intros [c dt] Hc. simpl. f_equal. f_equal.
  apply filter_In in Hc. destruct Hc as [Hc _].
  unfold remove_key in Hc. apply filter_In in Hc. destruct Hc as [_ Hc].
  simpl in Hc. apply negb_true_iff, String.eqb_neq in Hc.
  unfold group_of.
  rewrite (filter_map_commute (remove_key "player")
             (fun r => key_eqb (cell "format" r) k)).
  rewrite map_map.
  rewrite (filter_ext (fun a => key_eqb (cell "format" (remove_key "player" a)) k)
                      (fun r => key_eqb (cell "format" r) k)).
  2:{ intros r. rewrite cell_remove_key_ne by discriminate. reflexivity. }
  apply map_ext. intros r. apply cell_remove_key_ne. exact Hc.
Qed.

Lemma get_stats_no_format (T : DataFrame) (p : string) :
  has_column T "player" = true -> has_column T "format" = false ->
  player_rows T p <> [] ->
  get_stats T p = Raise (KeyError "format").
Proof.
  intros Hp Hf Hrows. unfold get_stats.
  assert (Hne : empty T = false).
  { destruct (player_rows T p) as [|r rs] eqn:E; [contradiction|].
    apply (not_empty T "player" r Hp).
    apply (player_rows_in T p r). rewrite E. left. reflexivity. }
  rewrite Hne. unfold getitem. rewrite Hp. simpl.
  rewrite existsb_map_commute.
  apply existsb_filter_nonempty in Hrows. rewrite Hrows. simpl.
  unfold series_eq. rewrite map_map, loc_mask.
  unfold drop. unfold has_column at 1. simpl. fold (has_column T "player").
  rewrite Hp. simpl.
  unfold groupby. unfold has_column at 1. simpl.
  rewrite assoc_remove_key_ne by discriminate.
  fold (has_column T "format"). rewrite Hf. reflexivity.
Qed.

Lemma get_stats_no_player (T : DataFrame) (p : string) :
  empty T = false -> has_column T "player" = false ->
  get_stats T p = Raise (KeyError "player").
Proof.
  intros He Hp. unfold get_stats. rewrite He. unfold getitem. rewrite Hp.
  reflexivity.
Qed.

(** Every case of [get_stats]. *)
Lemma get_stats_cases (T : DataFrame) (p : string) :
  get_stats T p
  = (if empty T then Ok empty_frame
     else if has_column T "player"
          then match player_rows T p with
               | [] => Ok empty_frame
               | _ :: _ =>
                   if has_column T "format" then Ok (aggregate_spec T p)
                   else Raise (KeyError "format")
               end
          else Raise (KeyError "player")).
Proof.
  destruct (empty T) eqn:He.
  { unfold get_stats. rewrite He. reflexivity. }
  destruct (has_column T "player") eqn:Hp.
  2:{ apply get_stats_no_player; assumption. }
  destruct (player_rows T p) as [|r rs] eqn:E.
  { apply get_stats_absent; assumption. }
  assert (Hne : player_rows T p <> []) by (rewrite E; discriminate).
  destruct (has_column T "format") eqn:Hf.
  - apply get_stats_present; assumption.
  - apply get_stats_no_format; assumption.
Qed.

(** ** Group keys: distinct and sorted *)

Lemma key_eqb_refl (v : value) : isna v = false -> key_eqb v v = true.
Proof.
  destruct v as [z|f|s]; simpl.
  - intros _. apply Z.eqb_refl.
  - unfold is_nan. intros H. apply negb_false_iff in H. exact H.
  - intros _. apply String.eqb_refl.
Qed.

Lemma uniq_incl (l : list value) (v : value) : In v (uniq l) -> In v l.
Proof.
  induction l as [|x t IH]; simpl; [tauto|].
  intros [->|H]; [left; reflexivity|].
  right. apply IH. apply filter_In in H. tauto.
Qed.

Lemma uniq_NoDup (l : list value) :
  (forall v, In v l -> isna v = false) -> NoDup (uniq l).
Proof.
  induction l as [|x t IH]; simpl; intros Hna; [constructor|].
  constructor.
  - intros H. apply filter_In in H. destruct H as [_ H].
    rewrite key_eqb_refl in H by (apply Hna; left; reflexivity).
    discriminate.
  - apply NoDup_filter. apply IH. intros v Hv. apply Hna. right. exact Hv.
Qed.

Lemma key_eqb_str (v : value) (s : string) :
  key_eqb v (VStr s) = true <-> v = VStr s.
Proof.
  destruct v as [z|f|t]; simpl; try (split; [discriminate|discriminate]).
  rewrite String.eqb_eq. split; [intros ->; reflexivity|intros [= ->]; reflexivity].
Qed.

(** A string key of the input is a key of the result. *)
Lemma uniq_complete_str (l : list value) (s : string) :
  In (VStr s) l -> In (VStr s) (uniq l).
Proof.
  induction l as [|x t IH]; simpl; [tauto|].
  intros [->|Hs]; [left; reflexivity|].
  destruct (key_eqb x (VStr s)) eqn:E.
  - left. apply key_eqb_str. exact E.
  - right. apply filter_In. split; [apply IH; exact Hs|]. rewrite E. reflexivity.
Qed.

Lemma insert_sorted_In (x y : value) (l : list value) :
  In y (insert_sorted x l) <-> y = x \/ In y l.
Proof.
  induction l as [|z t IH]; simpl.
  - intuition congruence.
  - destruct (key_leb x z); simpl; rewrite ?IH; intuition congruence.
Qed.

Lemma sort_keys_In (y : value) (l : list value) :
  In y (sort_keys l) <-> In y l.
Proof.
  induction l as [|x t IH]; simpl; [tauto|].
  rewrite insert_sorted_In, IH. intuition congruence.
Qed.

Lemma insert_sorted_NoDup (x : value) (l : list value) :
  ~ In x l -> NoDup l -> NoDup (insert_sorted x l).
Proof.
  induction l as [|z t IH]; simpl; intros Hx Hl.
  - constructor; [tauto|constructor].
  - destruct (key_leb x z).
    + constructor; [simpl; exact Hx|exact Hl].
    + inversion Hl as [|? ? Hz Ht]; subst. constructor.
      * rewrite insert_sorted_In. intros [->|H]; [apply Hx; left; reflexivity|].
        contradiction.
      * apply IH; [intros H; apply Hx; right; exact H|exact Ht].
Qed.

Lemma sort_keys_NoDup (l : list value) : NoDup l -> NoDup (sort_keys l).
Proof.
  induction 1 as [|x t Hx Ht IH]; simpl; [constructor|].
  apply insert_sorted_NoDup; [|exact IH].
  rewrite sort_keys_In. exact Hx.
Qed.

Lemma group_keys_NoDup (l : list value) :
  NoDup (sort_keys (uniq (filter (fun v => negb (isna v)) l))).
Proof.
  apply sort_keys_NoDup, uniq_NoDup. intros v Hv.
  apply filter_In in Hv. destruct Hv as [_ Hv].
  apply negb_true_iff in Hv. exact Hv.
Qed.

Lemma group_keys_incl (l : list value) (k : value) :
  In k (sort_keys (uniq (filter (fun v => negb (isna v)) l))) -> In k l.
Proof.
  rewrite sort_keys_In. intros H. apply uniq_incl in H.
  apply filter_In in H. tauto.
Qed.

Lemma group_keys_complete_str (l : list value) (s : string) :
  In (VStr s) l ->
  In (VStr s) (sort_keys (uniq (filter (fun v => negb (isna v)) l))).
Proof.
  intros H. rewrite sort_keys_In. apply uniq_complete_str.
  apply filter_In. split; [exact H|reflexivity].
Qed.

(** The formats of the aggregated rows are the group keys. *)
Lemma formats_of_aggregate_spec (T : DataFrame) (p : string) :
  formats_of (rows (aggregate_spec T p))
  = sort_keys (uniq (filter (fun v => negb (isna v))
                            (formats_of (player_rows T p)))).
Proof.
  unfold aggregate_spec, formats_of at 1. simpl. rewrite map_map.
  simpl. apply map_id.
Qed.

(** ** The order of strings *)

Lemma ascii_compare_refl (a : ascii) : Ascii.compare a a = Eq.
Proof. unfold Ascii.compare. apply N.compare_refl. Qed.

Lemma ascii_compare_Lt_trans (a b c : ascii) :
  Ascii.compare a b = Lt -> Ascii.compare b c = Lt -> Ascii.compare a c = Lt.
Proof.
  unfold Ascii.compare. rewrite !N.compare_lt_iff. apply N.lt_trans.
Qed.

Lemma string_compare_refl (s : string) : String.compare s s = Eq.
Proof.
  induction s as [|a s IH]; simpl; [reflexivity|].
  rewrite ascii_compare_refl. exact IH.
Qed.

Lemma string_compare_Lt_trans (s t u : string) :
  String.compare s t = Lt -> String.compare t u = Lt ->
  String.compare s u = Lt.
Proof.
  revert t u. induction s as [|a s IH]; intros [|b t] [|c u]; simpl;
    try discriminate; try reflexivity.
  destruct (Ascii.compare a b) eqn:Eab; try discriminate;
    destruct (Ascii.compare b c) eqn:Ebc; try discriminate; intros H1 H2.
  - apply Ascii.compare_eq_iff in Eab, Ebc. subst.
    rewrite ascii_compare_refl. exact (IH _ _ H1 H2).
  - apply Ascii.compare_eq_iff in Eab. subst. rewrite Ebc. reflexivity.
  - apply Ascii.compare_eq_iff in Ebc. subst. rewrite Eab. reflexivity.
  - rewrite (ascii_compare_Lt_trans _ _ _ Eab Ebc). reflexivity.
Qed.

Lemma string_leb_cases (s t : string) :
  (s <=? t) = true <-> s = t \/ String.compare s t = Lt.
Proof.
  unfold String.leb. destruct (String.compare s t) eqn:E.
  - apply String.compare_eq_iff in E. tauto.
  - tauto.
  - split; [discriminate|]. intros [->|H]; [|discriminate].
    rewrite string_compare_refl in E. discriminate.
Qed.

Lemma string_leb_trans (s t u : string) :
  (s <=? t) = true -> (t <=? u) = true -> (s <=? u) = true.
Proof.
  rewrite !string_leb_cases. intros [->|H1] [->|H2]; auto.
  right. exact (string_compare_Lt_trans _ _ _ H1 H2).
Qed.

Lemma string_ltb_leb_ne (s t : string) :
  (s <=? t) = true -> s <> t -> String.ltb s t = true.
Proof.
  rewrite string_leb_cases. unfold String.ltb.
  intros [->|H] Hne; [contradiction|]. rewrite H. reflexivity.
Qed.

(** ** Sorting string keys *)

Lemma key_le_trans_str (a b c : value) :
  is_str a -> is_str b -> is_str c ->
  key_le a b -> key_le b c -> key_le a c.
Proof.
  intros [s ->] [t ->] [u ->]. unfold key_le. simpl. apply string_leb_trans.
Qed.

Lemma key_le_total_str (a b : value) :
  is_str a -> is_str b -> key_leb a b = false -> key_le b a.
Proof.
  intros [s ->] [t ->]. unfold key_le. simpl. intros H.
  destruct (String.leb_total s t) as [H'|H']; [congruence|exact H'].
Qed.

Lemma insert_sorted_sorted (x : value) (l : list value) :
  is_str x -> Forall is_str l ->
  StronglySorted key_le l -> StronglySorted key_le (insert_sorted x l).
Proof.
  intros Hx Hl Hs. induction l as [|y t IH]; simpl.
  - constructor; constructor.
  - inversion Hl as [|? ? Hy Ht]; subst.
    inversion Hs as [|? ? Hst Hyt]; subst.
    destruct (key_leb x y) eqn:E.
    + constructor; [exact Hs|]. constructor; [exact E|].
      rewrite Forall_forall in *. intros z Hz.
      apply (key_le_trans_str x y z); auto.
    + constructor; [apply IH; assumption|].
      rewrite Forall_forall in *. intros z Hz.
      apply insert_sorted_In in Hz. destruct Hz as [->|Hz]; [|auto].
      apply key_le_total_str; assumption.
Qed.

Lemma sort_keys_sorted (l : list value) :
  Forall is_str l -> StronglySorted key_le (sort_keys l).
Proof.
  induction 1 as [|x t Hx Ht IH]; simpl; [constructor|].
  apply insert_sorted_sorted; [exact Hx| |exact IH].
  rewrite Forall_forall in *. intros z Hz. apply Ht.
  apply sort_keys_In. exact Hz.
Qed.

(** A duplicate-free list of string keys in key order is a strictly
    ascending list of strings. *)
Lemma sorted_strings (l : list value) :
  Forall is_str l -> StronglySorted key_le l -> NoDup l ->
  exists ss, l = map VStr ss /\ StronglySorted string_lt ss.
Proof.
  induction l as [|x t IH]; intros Hl Hs Hn.
  - exists []. split; [reflexivity|constructor].
  - inversion Hl as [|? ? [s ->] Ht]; subst.
    inversion Hs as [|? ? Hst Hx]; subst.
    inversion Hn as [|? ? Hni Hnt]; subst.
    destruct (IH Ht Hst Hnt) as [ss [-> Hss]].
    exists (s :: ss). split; [reflexivity|].
    constructor; [exact Hss|].
    rewrite Forall_forall in *. intros u Hu.
    apply string_ltb_leb_ne.
    + apply (Hx (VStr u)). apply in_map. exact Hu.
    + intros ->. apply Hni. apply in_map. exact Hu.
Qed.

Lemma group_keys_sorted_str (l : list value) :
  Forall is_str l ->
  exists ss,
    sort_keys (uniq (filter (fun v => negb (isna v)) l)) = map VStr ss
    /\ StronglySorted string_lt ss.
Proof.
  intros Hl. apply sorted_strings.
  - rewrite Forall_forall in *. intros v Hv. apply Hl.
    apply group_keys_incl. exact Hv.
  - apply sort_keys_sorted. rewrite Forall_forall in *. intros v Hv.
    apply Hl. apply uniq_incl in Hv. apply filter_In in Hv. tauto.
  - apply group_keys_NoDup.
Qed.

(** ** Summing an int64 column *)

Lemma wrap64_add_l (a b : Z) : wrap64 (wrap64 a + b) = wrap64 (a + b).
Proof.
  unfold wrap64. f_equal.
  replace ((a + 2 ^ 63) mod 2 ^ 64 - 2 ^ 63 + b + 2 ^ 63)%Z
    with ((a + 2 ^ 63) mod 2 ^ 64 + b)%Z by lia.
  rewrite Zplus_mod_idemp_l. f_equal. lia.
Qed.

Lemma wrap64_small (z : Z) :
  (- 2 ^ 63 <= z < 2 ^ 63)%Z -> wrap64 z = z.
Proof.
  intros H. unfold wrap64. rewrite Z.mod_small; lia.
Qed.

Lemma sum_int64_fold (vs : list value) (a : Z) :
  fold_left (fun acc v => wrap64 (acc + as_int v)) vs (wrap64 a)
  = wrap64 (a + fold_right (fun v s => as_int v + s) 0 vs)%Z.
Proof.
  revert a. induction vs as [|v vs IH]; intros a; simpl.
  - f_equal. lia.
  - rewrite wrap64_add_l, IH. f_equal. lia.
Qed.

Lemma sum_int64_constant (vs : list value) (i : Z) :
  (forall v, In v vs -> v = VInt i) ->
  col_sum int64 vs = VInt (wrap64 (Z.of_nat (List.length vs) * i)).
Proof.
  intros Hall. unfold col_sum. f_equal.
  change 0%Z with (wrap64 0) at 1. rewrite sum_int64_fold. f_equal.
  rewrite Z.add_0_l.
  induction vs as [|v vs IH]; [reflexivity|].
  cbn [fold_right List.length].
  rewrite IH by (intros w Hw; apply Hall; right; exact Hw).
  rewrite (Hall v) by (left; reflexivity). simpl as_int. lia.
Qed.

(** The cell of a summed column in the aggregated row of format [k]. *)
Lemma aggregate_spec_cell (T : DataFrame) (p c : string) (k : value)
    (dt : dtype) :
  assoc c (columns T) = Some dt -> is_numeric dt = true ->
  c <> "player" -> c <> "format" ->
  cell c (("format", k)
          :: map (fun cd =>
                    (fst cd,
                     col_sum (snd cd) (map (cell (fst cd)) (group_of T p k))))
                 (filter (fun cd => is_numeric (snd cd)
                                    && negb (fst cd =? "format"))
                         (remove_key "player" (columns T))))
  = col_sum dt (map (cell c) (group_of T p k)).
Proof.
  intros Hc Hnum Hp Hf. unfold cell at 1. cbn [assoc].
  destruct (String.eqb_spec "format" c) as [E|_]; [congruence|].
  rewrite (assoc_map_values
             (fun c dt => col_sum dt (map (cell c) (group_of T p k)))).
  rewrite (assoc_filter_keep _ c _ dt).
  - reflexivity.
  - rewrite assoc_remove_key_ne by exact Hp. exact Hc.
  - simpl. rewrite Hnum. simpl. apply negb_true_iff, String.eqb_neq. exact Hf.
Qed.

(** ** The load loop *)

Lemma load_format_lists (fs : files) (players : DataFrame) (st : tables)
    (fmt : string) :
  let add category :=
    match load_table fs players fmt category with
    | Ok t => [t]
    | Raise _ => []
    end in
  batting_list (load_format fs players st fmt)
  = batting_list st ++ add "batting"
  /\ bowling_list (load_format fs players st fmt)
     = bowling_list st ++ add "bowling"
  /\ all_round_list (load_format fs players st fmt)
     = all_round_list st ++ add "all_round".
Proof.
  unfold load_format.
  destruct (load_table fs players fmt "batting");
    destruct (load_table fs players fmt "bowling");
    destruct (load_table fs players fmt "all_round");
    simpl; rewrite ?app_nil_r; repeat split; reflexivity.
Qed.

Lemma load_loop_lists (fs : files) (players : DataFrame) (fmts : list string)
    (st : tables) :
  let add category :=
    flat_map (fun fmt =>
                match load_table fs players fmt category with
                | Ok t => [t]
                | Raise _ => []
                end) fmts in
  let st' := fold_left (load_format fs players) fmts st in
  batting_list st' = batting_list st ++ add "batting"
  /\ bowling_list st' = bowling_list st ++ add "bowling"
  /\ all_round_list st' = all_round_list st ++ add "all_round".
Proof.
  revert st. induction fmts as [|fmt fmts IH]; intros st; simpl.
  - rewrite !app_nil_r. repeat split; reflexivity.
  - destruct (IH (load_format fs players st fmt)) as [H1 [H2 H3]].
    destruct (load_format_lists fs players st fmt) as [E1 [E2 E3]].
    simpl in *. rewrite H1, H2, H3, E1, E2, E3, <- !app_assoc.
    repeat split; reflexivity.
Qed.

(** The three tables are the concatenations of what the loop collected. *)
Lemma load_tables (fs : files) (category : string) :
  In category categories ->
  category_table (load fs) category
  = concat_or_empty (loaded fs (all_players_df (load fs)) category).
Proof.
  intros Hc. unfold load.
  destruct (load_all_players fs) as [players msgs]. cbn [all_players_df].
  destruct (load_loop_lists fs players formats (mkTables [] [] [] msgs))
    as [H1 [H2 H3]].
  cbn [batting_list bowling_list all_round_list app] in H1, H2, H3.
  unfold category_table, loaded.
  destruct Hc as [<-|[<-|[<-|[]]]]; cbn [String.eqb Ascii.eqb Bool.eqb];
    cbn [batting_df bowling_df all_round_df]; congruence.
Qed.

Lemma all_players_df_load (fs : files) :
  all_players_df (load fs) = fst (load_all_players fs).
Proof.
  unfold load. destruct (load_all_players fs). reflexivity.
Qed.

(** ** Without the directory every join raises *)

Lemma merge_empty_directory (t : DataFrame) :
  merge t empty_frame "id" = Raise (KeyError "id").
Proof.
  unfold merge. destruct (assoc "id" (columns t)); reflexivity.
Qed.

Lemma load_table_empty_directory (fs : files) (fmt category : string) :
  exists e, load_table fs empty_frame fmt category = Raise e.
Proof.
  unfold load_table, read_csv.
  destruct (fs _) as [t|]; simpl.
  - rewrite merge_empty_directory. eexists. reflexivity.
  - eexists. reflexivity.
Qed.

Lemma load_without_directory (fs : files) (category : string) :
  fs (path_join data_dir "all_players.csv") = None ->
  In category categories ->
  category_table (load fs) category = empty_frame.
Proof.
  intros Hdir Hc. rewrite load_tables by exact Hc.
  rewrite all_players_df_load. unfold load_all_players, read_csv.
  rewrite Hdir. cbn [fst]. unfold loaded.
  assert (H : forall fmts,
    flat_map (fun fmt =>
                match load_table fs empty_frame fmt category with
                | Ok t => [t]
                | Raise _ => []
                end) fmts = []).
  { induction fmts as [|fmt fmts IH]; simpl; [reflexivity|].
    destruct (load_table_empty_directory fs fmt category) as [e ->].
    exact IH. }
  rewrite H. reflexivity.
Qed.

(** ** Rows of a join *)

Lemma assoc_app {A : Type} (c : string) (l1 l2 : list (string * A)) :
  assoc c (l1 ++ l2)
  = match assoc c l1 with
    | Some a => Some a
    | None => assoc c l2
    end.
Proof.
  induction l1 as [|[k a] l1 IH]; simpl; [reflexivity|].
  destruct (k =? c); [reflexivity|exact IH].
Qed.

Lemma assoc_None_iff {A : Type} (c : string) (l : list (string * A)) :
  assoc c l = None <-> ~ In c (map fst l).
Proof.
  induction l as [|[k a] l IH]; simpl; [tauto|].
  destruct (String.eqb_spec k c) as [->|Hne].
  - split; [discriminate|]. intros H. exfalso. apply H. left. reflexivity.
  - rewrite IH. tauto.
Qed.

Lemma has_column_In (df : DataFrame) (c : string) :
  has_column df c = true <-> In c (map fst (columns df)).
Proof.
  unfold has_column. destruct (assoc c (columns df)) eqn:E.
  - split; [intros _|reflexivity].
    destruct (in_dec string_dec c (map fst (columns df))) as [H|H];
      [exact H|]. apply assoc_None_iff in H. congruence.
  - apply assoc_None_iff in E. split; [discriminate|tauto].
Qed.

Lemma assoc_relabel_none {A : Type} (f : string -> string) (c : string)
    (l : list (string * A)) :
  (forall k, In k (map fst l) -> f k <> c) ->
  assoc c (map (fun kv => (f (fst kv), snd kv)) l) = None.
Proof.
  intros H. apply assoc_None_iff. rewrite map_map. simpl.
  intros Hin. apply in_map_iff in Hin. destruct Hin as [[k a] [E Hk]].
  simpl in E. apply (H k); [|exact E].
  apply in_map_iff. exists (k, a). split; [reflexivity|exact Hk].
Qed.

Lemma assoc_relabel_same {A : Type} (f : string -> string) (c : string)
    (l : list (string * A)) :
  f c = c -> (forall k, f k = c -> k = c) ->
  assoc c (map (fun kv => (f (fst kv), snd kv)) l) = assoc c l.
Proof.
  intros Hc Hinj. induction l as [|[k a] l IH]; simpl; [reflexivity|].
  destruct (String.eqb_spec k c) as [->|Hne].
  - rewrite Hc, String.eqb_refl. reflexivity.
  - destruct (String.eqb_spec (f k) c) as [E|_]; [|exact IH].
    apply Hinj in E. contradiction.
Qed.

Lemma cell_all_missing (c : string) (l1 l2 : row) :
  assoc c l1 = None -> (forall kv, In kv l2 -> snd kv = NaN) ->
  cell c (l1 ++ l2) = NaN.
Proof.
  intros H1 H2. unfold cell. rewrite assoc_app, H1.
  destruct (assoc c l2) as [v|] eqn:E; [|reflexivity].
  clear H1. induction l2 as [|[k a] l2 IH]; simpl in E; [discriminate|].
  destruct (k =? c).
  - injection E as <-. apply (H2 (k, a)). left. reflexivity.
  - apply IH; [|exact E]. intros kv Hkv. apply H2. right. exact Hkv.
Qed.

Lemma suffix_x_not_player (k : string) : (k ++ "_x")%string <> "player".
Proof.
  intros H.
  repeat (destruct k as [|? k]; simpl in H;
          [discriminate H|injection H as ? H; subst]).
  destruct k; discriminate H.
Qed.

Lemma suffix_x_not_id (k : string) : (k ++ "_x")%string <> "id".
Proof.
  intros H.
  repeat (destruct k as [|? k]; simpl in H;
          [discriminate H|injection H as ? H; subst]).
  destruct k; discriminate H.
Qed.

Lemma mem_string_In (c : string) (l : list string) :
  mem_string c l = true <-> In c l.
Proof.
  unfold mem_string. rewrite existsb_exists. split.
  - intros [d [Hd E]]. apply String.eqb_eq in E. subst. exact Hd.
  - intros H. exists c. split; [exact H|apply String.eqb_refl].
Qed.

Lemma overlap_key (left right : DataFrame) (on : string) :
  overlap left right on on = false.
Proof.
  unfold overlap. apply andb_false_iff. left.
  destruct (mem_string on (map fst (remove_key on (columns left)))) eqn:E;
    [|reflexivity].
  apply mem_string_In, in_map_iff in E. destruct E as [[k a] [E Hk]].
  simpl in E. subst. unfold remove_key in Hk. apply filter_In in Hk.
  destruct Hk as [_ Hk]. simpl in Hk. rewrite String.eqb_refl in Hk.
  discriminate.
Qed.

Lemma left_label_key (left right : DataFrame) (on : string) :
  left_label left right on on = on.
Proof. unfold left_label. rewrite overlap_key. reflexivity. Qed.

Lemma left_label_inv (left right : DataFrame) (on k c : string) :
  (forall k', (k' ++ "_x")%string <> c) ->
  left_label left right on k = c -> k = c.
Proof.
  intros Hsuf. unfold left_label.
  destruct (overlap left right on k); [|tauto].
  intros E. exfalso. exact (Hsuf k E).
Qed.

Lemma merge_Ok (left right m : DataFrame) (on : string) :
  merge left right on = Ok m ->
  columns m
  = map (fun cd => (left_label left right on (fst cd), snd cd)) (columns left)
    ++ map (fun cd => (right_label left right on (fst cd),
                       right_dtype left right on (snd cd)))
           (remove_key on (columns right))
  /\ rows m = flat_map (joined_rows left right on) (rows left)
  /\ has_column left on = true /\ has_column right on = true.
Proof.
  unfold merge, has_column.
  destruct (assoc on (columns left)); [|discriminate].
  destruct (assoc on (columns right)); [|discriminate].
  destruct (_ && _); [discriminate|].
  intros [= <-]. simpl. repeat split; reflexivity.
Qed.

Lemma matches_none (right : DataFrame) (on : string) (l : row) :
  (forall d, In d (rows right) -> key_match (cell on l) (cell on d) = false) ->
  matches right on l = [].
Proof.
  intros H. unfold matches.
  induction (rows right) as [|d ds IH]; simpl; [reflexivity|].
  rewrite (H d) by (left; reflexivity). apply IH.
  intros d' Hd'. apply H. right. exact Hd'.
Qed.

(** The row an unmatched left row becomes. *)
Lemma unmatched_row_joined (left right m : DataFrame) (on : string) (l : row) :
  merge left right on = Ok m -> In l (rows left) ->
  (forall d, In d (rows right) -> key_match (cell on l) (cell on d) = false) ->
  In (map (fun kv => (left_label left right on (fst kv), snd kv)) l
      ++ map (fun cd => (right_label left right on (fst cd), NaN))
             (remove_key on (columns right)))
     (rows m).
Proof.
  intros Hm Hl Hno. apply merge_Ok in Hm. destruct Hm as [_ [-> _]].
  apply in_flat_map. exists l. split; [exact Hl|].
  unfold joined_rows. rewrite (matches_none right on l Hno).
  left. reflexivity.
Qed.

Lemma joined_rows_labels (left right : DataFrame) (on : string) (l r : row) :
  In r (joined_rows left right on l) ->
  map fst r
  = map (left_label left right on) (map fst l)
    ++ map (right_label left right on)
           (map fst (remove_key on (columns right))).
Proof.
  unfold joined_rows. destruct (matches right on l) as [|d ds].
  - intros [<-|[]]. rewrite map_app, !map_map. reflexivity.
  - intros H. apply in_map_iff in H. destruct H as [d' [<- _]].
    rewrite map_app, !map_map. reflexivity.
Qed.

Lemma merge_well_formed (left right m : DataFrame) (on : string) :
  well_formed left -> merge left right on = Ok m -> well_formed m.
Proof.
  intros Hwf Hm r Hr. apply merge_Ok in Hm. destruct Hm as [Hc [Hrows _]].
  rewrite Hrows in Hr. apply in_flat_map in Hr. destruct Hr as [l [Hl Hr]].
  rewrite (joined_rows_labels _ _ _ _ _ Hr), Hc, (Hwf l Hl).
  rewrite map_app, !map_map. reflexivity.
Qed.

(** ** Tagging and concatenating *)

Lemma assoc_replace_same {A : Type} (c : string) (v : A)
    (l : list (string * A)) :
  In c (map fst l) ->
  assoc c (map (fun kv => if fst kv =? c then (c, v) else kv) l) = Some v.
Proof.
  induction l as [|[k a] l IH]; simpl; [tauto|].
  destruct (String.eqb_spec k c) as [->|Hne]; simpl.
  - rewrite String.eqb_refl. reflexivity.
  - destruct (String.eqb_spec k c); [contradiction|].
    intros [E|H]; [contradiction|exact (IH H)].
Qed.

Lemma assoc_replace_other {A : Type} (c c' : string) (v : A)
    (l : list (string * A)) :
  c' <> c ->
  assoc c' (map (fun kv => if fst kv =? c then (c, v) else kv) l)
  = assoc c' l.
Proof.
  intros Hne. induction l as [|[k a] l IH]; simpl; [reflexivity|].
  destruct (String.eqb_spec k c) as [->|Hk]; simpl.
  - destruct (String.eqb_spec c c') as [E|_]; [congruence|exact IH].
  - rewrite IH. reflexivity.
Qed.

(** What [df[c] = v] makes of one row. *)
Lemma setitem_rows (df : DataFrame) (c : string) (v : value) (r : row) :
  well_formed df -> In r (rows df) ->
  exists r',
    In r' (rows (setitem df c v))
    /\ cell c r' = v
    /\ forall c', c' <> c -> cell c' r' = cell c' r.
Proof.
  intros Hwf Hr. unfold setitem. destruct (has_column df c) eqn:Hc.
  - exists (map (fun kv => if fst kv =? c then (c, v) else kv) r).
    split; [|split].
    + simpl. apply in_map. exact Hr.
    + unfold cell. rewrite assoc_replace_same; [reflexivity|].
      rewrite (Hwf r Hr). apply has_column_In. exact Hc.
    + intros c' Hne. unfold cell. rewrite assoc_replace_other by exact Hne.
      reflexivity.
  - exists (r ++ [(c, v)]). split; [|split].
    + simpl. apply (in_map (fun r => r ++ [(c, v)])). exact Hr.
    + unfold cell. rewrite assoc_app.
      assert (E : assoc c r = None).
      { apply assoc_None_iff. rewrite (Hwf r Hr). intros H.
        apply has_column_In in H. congruence. }
      rewrite E. simpl. rewrite String.eqb_refl. reflexivity.
    + intros c' Hne. unfold cell. rewrite assoc_app.
      destruct (assoc c' r); [reflexivity|]. simpl.
      destruct (String.eqb_spec c c'); [congruence|reflexivity].
Qed.

Lemma has_column_setitem (df : DataFrame) (c c' : string) (v : value) :
  has_column (setitem df c v) c' = (c' =? c) || has_column df c'.
Proof.
  unfold setitem. destruct (has_column df c) eqn:Hc; unfold has_column in *;
    simpl.
  - destruct (String.eqb_spec c' c) as [->|Hne]; simpl.
    + destruct (assoc c (columns df)) eqn:E; [|discriminate].
      assert (H : In c (map fst (columns df))).
      { destruct (in_dec string_dec c (map fst (columns df))) as [H|H];
          [exact H|]. apply assoc_None_iff in H. congruence. }
      rewrite (assoc_replace_same c object (columns df) H). reflexivity.
    + rewrite assoc_replace_other by exact Hne. reflexivity.
  - rewrite assoc_app. destruct (assoc c' (columns df)) eqn:E.
    + rewrite orb_true_r. reflexivity.
    + simpl. rewrite (String.eqb_sym c' c). destruct (c =? c'); reflexivity.
Qed.

Lemma uniq_labels_In (c : string) (l : list string) :
  In c (uniq_labels l) <-> In c l.
Proof.
  induction l as [|d l IH]; simpl; [tauto|].
  rewrite filter_In, IH. split.
  - intros [->|[H _]]; tauto.
  - intros [->|H]; [tauto|].
    destruct (String.eqb_spec d c) as [->|Hne]; [tauto|].
    right. split; [exact H|reflexivity].
Qed.

Lemma assoc_tabulate {A : Type} (g : string -> A) (c : string)
    (l : list string) :
  assoc c (map (fun d => (d, g d)) l)
  = if mem_string c l then Some (g c) else None.
Proof.
  unfold mem_string. induction l as [|d l IH]; simpl; [reflexivity|].
  rewrite (String.eqb_sym c d).
  destruct (String.eqb_spec d c) as [->|_]; simpl; [reflexivity|exact IH].
Qed.

Lemma concat_has_column (dfs : list DataFrame) (df : DataFrame) (c : string) :
  In df dfs -> has_column df c = true ->
  assoc c (columns (concat dfs)) = Some (concat_dtype dfs c).
Proof.
  intros Hdf Hc. unfold concat. cbn [columns].
  rewrite assoc_tabulate.
  assert (H : mem_string c
                (uniq_labels (flat_map (fun df => map fst (columns df)) dfs))
              = true).
  { apply mem_string_In, uniq_labels_In, in_flat_map.
    exists df. split; [exact Hdf|]. apply has_column_In. exact Hc. }
  rewrite H. reflexivity.
Qed.

(** What concatenation makes of one row of one frame. *)
Lemma concat_rows (dfs : list DataFrame) (df : DataFrame) (r : row) :
  In df dfs -> In r (rows df) ->
  exists r',
    In r' (rows (concat dfs))
    /\ forall c,
         cell c r'
         = match assoc c (columns (concat dfs)) with
           | Some dt => astype dt (cell c r)
           | None => NaN
           end.
Proof.
  intros Hdf Hr. unfold concat. cbn [columns rows].
  set (cols := map (fun c => (c, concat_dtype dfs c))
                   (uniq_labels (flat_map (fun df => map fst (columns df)) dfs))).
  exists (map (fun cd => (fst cd, astype (snd cd) (cell (fst cd) r))) cols).
  split.
  - apply in_flat_map. exists df. split; [exact Hdf|].
    apply (in_map (fun r => map (fun cd => (fst cd, astype (snd cd) (cell (fst cd) r))) cols)).
    exact Hr.
  - intros c. unfold cell at 1.
    rewrite (assoc_map_values (fun c dt => astype dt (cell c r))).
    destruct (assoc c cols); reflexivity.
Qed.

Lemma astype_missing (dt : dtype) (v : value) :
  isna v = true -> astype dt v = v.
Proof. destruct dt, v; simpl; try discriminate; reflexivity. Qed.

Lemma astype_str (dt : dtype) (s : string) : astype dt (VStr s) = VStr s.
Proof. destruct dt; reflexivity. Qed.

(** ** The player set keeps a missing value *)

Lemma set_add_incl (s : list value) (v w : value) :
  In w s -> In w (set_add s v).
Proof.
  unfold set_add. destruct (existsb (same_element v) s); [tauto|].
  intros H. apply in_or_app. left. exact H.
Qed.

Lemma set_add_missing (s : list value) (v : value) :
  isna v = true -> exists w, In w (set_add s v) /\ isna w = true.
Proof.
  intros Hv. unfold set_add.
  destruct (existsb (same_element v) s) eqn:E.
  - apply existsb_exists in E. destruct E as [w [Hw Hs]].
    unfold same_element in Hs. rewrite Hv in Hs. exists w. tauto.
  - exists v. split; [apply in_or_app; right; left; reflexivity|exact Hv].
Qed.

Lemma fold_set_add_missing (l s : list value) :
  (exists w, In w s /\ isna w = true) \/ (exists v, In v l /\ isna v = true) ->
  exists w, In w (fold_left set_add l s) /\ isna w = true.
Proof.
  revert s. induction l as [|x l IH]; intros s; simpl.
  - intros [H|[v [[] _]]]. exact H.
  - intros [[w [Hw Hna]]|[v [[->|Hv] Hna]]]; apply IH.
    + left. exists w. split; [apply set_add_incl; exact Hw|exact Hna].
    + left. apply set_add_missing. exact Hna.
    + right. exists v. tauto.
Qed.

Lemma py_insert_In (x : value) (l l' : list value) :
  py_insert x l = Ok l' -> forall v, In v l' <-> v = x \/ In v l.
Proof.
  revert l'. induction l as [|y t IH]; intros l'; simpl.
  - intros [= <-] v. simpl. intuition congruence.
  - destruct (py_lt x y) as [b|e]; simpl; [|discriminate].
    destruct b.
    + intros [= <-] v. simpl. intuition congruence.
    + destruct (py_insert x t) as [t'|e]; simpl; [|discriminate].
      intros [= <-] v. simpl. rewrite (IH t' eq_refl v). intuition congruence.
Qed.

Lemma sorted_fold_In (s a l : list value) :
  fold_left (fun acc x => l <- acc ;; py_insert x l) s (Ok a) = Ok l ->
  forall v, In v l <-> In v a \/ In v s.
Proof.
  revert a. induction s as [|x s IH]; intros a; simpl.
  - intros [= <-] v. tauto.
  - destruct (py_insert x a) as [a'|e] eqn:E.
    + intros H v. rewrite (IH a' H v), (py_insert_In x a a' E v).
      intuition congruence.
    + intros H. exfalso. clear -H.
      induction s as [|y s IHs]; simpl in H; [discriminate|auto].
Qed.

Lemma sorted_In (s l : list value) :
  sorted s = Ok l -> forall v, In v l <-> In v s.
Proof.
  intros H v. unfold sorted in H. rewrite (sorted_fold_In s [] l H v).
  simpl. tauto.
Qed.

(** ** An unmatched row through the loader *)

Lemma relabel_well_formed (f : string -> string) (df : DataFrame) :
  well_formed df -> well_formed (relabel f df).
Proof.
  intros Hwf r Hr. unfold relabel in *. simpl in *.
  apply in_map_iff in Hr. destruct Hr as [r0 [<- Hr0]].
  rewrite !map_map. simpl. rewrite <- !(map_map fst f), (Hwf r0 Hr0).
  reflexivity.
Qed.

Lemma concat_or_empty_In (l : list DataFrame) (df : DataFrame) :
  In df l -> concat_or_empty l = concat l.
Proof. destruct l; [intros []|reflexivity]. Qed.

Lemma loaded_In (fs : files) (players t : DataFrame) (fmt category : string) :
  In fmt formats -> load_table fs players fmt category = Ok t ->
  In t (loaded fs players category).
Proof.
  intros Hf Ht. unfold loaded. apply in_flat_map. exists fmt.
  split; [exact Hf|]. rewrite Ht. left. reflexivity.
Qed.

Lemma merged_has_right_column (left right m : DataFrame) (on c : string) :
  merge left right on = Ok m ->
  has_column right c = true -> c <> on -> has_column left c = false ->
  has_column m c = true.
Proof.
  intros Hm Hr Hne Hl. apply merge_Ok in Hm. destruct Hm as [Hc _].
  apply has_column_In. rewrite Hc, map_app, !map_map. simpl.
  apply in_or_app. right.
  assert (Hov : overlap left right on c = false).
  { unfold overlap. apply andb_false_iff. left.
    destruct (mem_string c (map fst (remove_key on (columns left)))) eqn:E;
      [|reflexivity].
    apply mem_string_In, in_map_iff in E. destruct E as [[k a] [E Hk]].
    simpl in E. subst. unfold remove_key in Hk. apply filter_In in Hk.
    destruct Hk as [Hk _].
    assert (H : has_column left c = true).
    { apply has_column_In. apply in_map_iff. exists (c, a). tauto. }
    congruence. }
  apply has_column_In in Hr. apply in_map_iff in Hr.
  destruct Hr as [[k a] [E Hk]]. simpl in E. subst.
  apply in_map_iff. exists (c, a). split.
  - simpl. unfold right_label. rewrite Hov. reflexivity.
  - unfold remove_key. apply filter_In. split; [exact Hk|]. simpl.
    apply negb_true_iff, String.eqb_neq. exact Hne.
Qed.

Lemma merged_has_key (left right m : DataFrame) (on : string) :
  merge left right on = Ok m -> has_column m on = true.
Proof.
  intros Hm. apply merge_Ok in Hm. destruct Hm as [Hc [_ [Hl _]]].
  apply has_column_In. rewrite Hc, map_app, !map_map. simpl.
  apply in_or_app. left. apply has_column_In in Hl.
  apply in_map_iff in Hl. destruct Hl as [[k a] [E Hk]]. simpl in E. subst.
  apply in_map_iff. exists (on, a). split; [|exact Hk].
  simpl. apply left_label_key.
Qed.

Lemma assoc_Some_of_In {A : Type} (c : string) (l : list (string * A)) :
  In c (map fst l) -> exists a, assoc c l = Some a.
Proof.
  intros H. destruct (assoc c l) as [a|] eqn:E; [exists a; reflexivity|].
  apply assoc_None_iff in E. contradiction.
Qed.

(** The row of a statistics file that joins to nothing, once the file is
    read, normalised, joined and tagged. *)
Lemma load_table_unmatched (fs : files) (players raw m : DataFrame)
    (fmt category : string) (r : row) :
  fs (csv_path fmt category) = Some raw ->
  well_formed raw ->
  has_column (normalize_columns raw) "player" = false ->
  merge (normalize_columns raw) players "id" = Ok m ->
  In r (rows (normalize_columns raw)) ->
  (forall d, In d (rows players) ->
             key_match (cell "id" r) (cell "id" d) = false) ->
  exists t r1,
    load_table fs players fmt category = Ok t
    /\ In r1 (rows t)
    /\ cell "player" r1 = NaN
    /\ cell "format" r1 = VStr fmt
    /\ cell "id" r1 = cell "id" r
    /\ has_column t "format" = true
    /\ has_column t "id" = true
    /\ (has_column players "player" = true -> has_column t "player" = true).
Proof.
  intros Hfs Hwf Hnp Hm Hr Hno.
  set (stat := normalize_columns raw) in *.
  assert (Hwfs : well_formed stat) by (apply relabel_well_formed; exact Hwf).
  assert (Hwfm : well_formed m) by (exact (merge_well_formed _ _ _ _ Hwfs Hm)).
  pose proof (unmatched_row_joined stat players m "id" r Hm Hr Hno) as Hrow.
  destruct (setitem_rows m "format" (VStr fmt) _ Hwfm Hrow)
    as [r1 [Hr1 [Hfmt Hother]]].
  exists (setitem m "format" (VStr fmt)), r1.
  split; [|split; [exact Hr1|split; [|split; [exact Hfmt|split; [|split; [|split]]]]]].
  - unfold load_table, read_csv. unfold csv_path in Hfs. rewrite Hfs.
    cbn [bind]. fold stat. rewrite Hm. reflexivity.
  - rewrite Hother by discriminate. apply cell_all_missing.
    + apply assoc_relabel_none. intros k Hk E.
      apply (left_label_inv stat players "id" k "player" suffix_x_not_player)
        in E.
      subst k. rewrite (Hwfs r Hr) in Hk. apply has_column_In in Hk.
      congruence.
    + intros kv Hkv. apply in_map_iff in Hkv. destruct Hkv as [cd [<- _]].
      reflexivity.
  - rewrite Hother by discriminate. unfold cell. rewrite assoc_app.
    rewrite (assoc_relabel_same (left_label stat players "id") "id" r
               (left_label_key stat players "id")
               (fun k => left_label_inv stat players "id" k "id"
                           suffix_x_not_id)).
    destruct (assoc_Some_of_In "id" r) as [a Ha]; [|rewrite Ha; reflexivity].
    rewrite (Hwfs r Hr). apply has_column_In.
    apply merge_Ok in Hm. tauto.
  - rewrite has_column_setitem. reflexivity.
  - rewrite has_column_setitem. rewrite (merged_has_key _ _ _ _ Hm).
    apply orb_true_r.
  - intros Hpl. rewrite has_column_setitem.
    rewrite (merged_has_right_column stat players m "id" "player" Hm Hpl);
      [apply orb_true_r|discriminate|exact Hnp].
Qed.

Lemma all_players_missing (d : dataset) (category : string) (r : row) :
  has_column (batting_df d) "player" = true ->
  has_column (bowling_df d) "player" = true ->
  has_column (all_round_df d) "player" = true ->
  In category categories ->
  In r (rows (category_table d category)) ->
  isna (cell "player" r) = true ->
  exists v, In v (all_players d) /\ isna v = true.
Proof.
  intros Hb Hw Ha Hc Hr Hna. unfold all_players, getitem.
  rewrite Hb, Hw, Ha. cbn [bind]. unfold set_union, set_of.
  assert (Hcol : exists v,
            In v (map (cell "player") (rows (category_table d category)))
            /\ isna v = true).
  { exists (cell "player" r). split; [apply in_map; exact Hr|exact Hna]. }
  unfold category_table in Hcol.
  destruct Hc as [<-|[<-|[<-|[]]]]; cbn [String.eqb Ascii.eqb Bool.eqb] in Hcol.
  - apply fold_set_add_missing. left.
    apply fold_set_add_missing. left.
    apply fold_set_add_missing. right. exact Hcol.
  - apply fold_set_add_missing. left.
    apply fold_set_add_missing. right.
    apply fold_set_add_missing. right. exact Hcol.
  - apply fold_set_add_missing. right.
    apply fold_set_add_missing. right. exact Hcol.
Qed.

(** ** The chart's re-aggregation *)

Lemma remove_key_filter {A : Type} (c : string) (P : string * A -> bool)
    (l : list (string * A)) :
  remove_key c (filter P l) = filter P (remove_key c l).
Proof.
  unfold remove_key. induction l as [|kv l IH]; simpl; [reflexivity|].
  destruct (P kv) eqn:EP, (negb (fst kv =? c)) eqn:Ec; simpl;
    rewrite ?EP, ?Ec, IH; reflexivity.
Qed.

Lemma remove_key_map_values {A B : Type} (c : string)
    (g : string * A -> B) (l : list (string * A)) :
  remove_key c (map (fun kv => (fst kv, g kv)) l)
  = map (fun kv => (fst kv, g kv)) (remove_key c l).
Proof.
  unfold remove_key. induction l as [|kv l IH]; simpl; [reflexivity|].
  destruct (negb (fst kv =? c)); simpl; rewrite IH; reflexivity.
Qed.

Lemma remove_key_cons_ne {A : Type} (c k : string) (a : A)
    (l : list (string * A)) :
  k <> c -> remove_key c ((k, a) :: l) = (k, a) :: remove_key c l.
Proof.
  intros Hne. unfold remove_key. simpl.
  destruct (String.eqb_spec k c); [contradiction|reflexivity].
Qed.

Lemma compare_df_Ok (df cdf : DataFrame) (selected : list string) :
  compare_df df selected = Ok cdf ->
  has_column df "player" = true
  /\ cdf = mkDataFrame (columns df)
             (filter (fun r => existsb (eq_str (cell "player" r)) selected)
                     (rows df)).
Proof.
  unfold compare_df, getitem. destruct (has_column df "player");
    [|discriminate].
  cbn [bind]. unfold isin. rewrite map_map, loc_mask.
  intros [= <-]. split; reflexivity.
Qed.

Lemma selected_player_rows (df : DataFrame) (selected : list string)
    (p : string) :
  In p selected ->
  filter (fun r => eq_str (cell "player" r) p)
         (filter (fun r => existsb (eq_str (cell "player" r)) selected)
                 (rows df))
  = player_rows df p.
Proof.
  intros Hp. unfold player_rows.
  induction (rows df) as [|r rs IH]; simpl; [reflexivity|].
  destruct (eq_str (cell "player" r) p) eqn:E.
  - assert (Hs : existsb (eq_str (cell "player" r)) selected = true).
    { apply existsb_exists. exists p. split; [exact Hp|exact E]. }
    rewrite Hs. simpl. rewrite E, IH. reflexivity.
  - destruct (existsb (eq_str (cell "player" r)) selected); simpl;
      rewrite ?E, IH; reflexivity.
Qed.

(** The frame the chart sums for one player: the aggregation, except that
    the player column was not dropped first. *)
Lemma subset_Ok (df cdf : DataFrame) (selected : list string) (p : string) :
  compare_df df selected = Ok cdf -> In p selected ->
  has_column df "format" = true ->
  exists s,
    subset cdf p = Ok s
    /\ columns (aggregate_spec df p) = remove_key "player" (columns s)
    /\ rows (aggregate_spec df p) = map (remove_key "player") (rows s).
Proof.
  intros Hc Hp Hf. apply compare_df_Ok in Hc. destruct Hc as [Hpl ->].
  unfold subset, getitem. unfold has_column at 1. cbn [columns].
  fold (has_column df "player"). rewrite Hpl. cbn [bind].
  unfold series_eq. rewrite map_map, loc_mask.
  cbn [columns rows]. rewrite (selected_player_rows df selected p Hp).
  unfold groupby. unfold has_column at 1. cbn [columns].
  fold (has_column df "format"). rewrite Hf. cbn [bind rows].
  eexists. split; [reflexivity|].
  unfold reset_index, sum_numeric, summed_columns, group_rows, aggregate_spec.
  cbn [columns rows index_name index_dtype index frame obj by_ keys].
  split.
  - rewrite remove_key_cons_ne by discriminate. f_equal.
    rewrite remove_key_filter. reflexivity.
  - rewrite combine_map_self, !map_map. apply map_ext. intros k.
    cbn [fst snd]. rewrite remove_key_cons_ne by discriminate. f_equal.
    rewrite (remove_key_map_values "player"
               (fun cd : string * dtype =>
                  col_sum (snd cd)
                    (map (cell (fst cd))
                       (filter (fun r => key_eqb (cell "format" r) k)
                               (player_rows df p))))).
    rewrite remove_key_filter. reflexivity.
Qed.

Lemma subset_no_format (df cdf : DataFrame) (selected : list string)
    (p : string) :
  compare_df df selected = Ok cdf ->
  has_column df "format" = false ->
  subset cdf p = Raise (KeyError "format").
Proof.
  intros Hc Hf. apply compare_df_Ok in Hc. destruct Hc as [Hpl ->].
  unfold subset, getitem. unfold has_column at 1. cbn [columns].
  fold (has_column df "player"). rewrite Hpl. cbn [bind].
  unfold groupby. rewrite has_column_loc.
  unfold has_column at 1. cbn [columns]. fold (has_column df "format").
  rewrite Hf. reflexivity.
Qed.

Lemma getitem_without_player (s a : DataFrame) (c : string) :
  columns a = remove_key "player" (columns s) ->
  rows a = map (remove_key "player") (rows s) ->
  c <> "player" ->
  getitem a c = getitem s c.
Proof.
  intros Hc Hr Hne. unfold getitem, has_column. rewrite Hc, Hr.
  rewrite assoc_remove_key_ne by exact Hne. rewrite map_map.
  destruct (assoc c (columns s)); [|reflexivity].
  f_equal. apply map_ext. intros r. apply cell_remove_key_ne. exact Hne.
Qed.

(** ** The two loops of the chart *)

Lemma player_loop_raise (cdf : DataFrame) (metric : string)
    (players : list string) (e : exn) :
  fold_left
    (fun fig player =>
       traces <- fig ;; b <- bar cdf metric player ;; Ok (traces ++ [b]))
    players (Raise e)
  = Raise e.
Proof. induction players as [|p ps IH]; simpl; [reflexivity|exact IH]. Qed.

Lemma player_loop_Ok (cdf : DataFrame) (metric : string)
    (players : list string) (acc fig : list Bar) :
  fold_left
    (fun fig player =>
       traces <- fig ;; b <- bar cdf metric player ;; Ok (traces ++ [b]))
    players (Ok acc)
  = Ok fig ->
  exists bs,
    fig = acc ++ bs
    /\ Forall2 (fun mp b => bar cdf (fst mp) (snd mp) = Ok b)
               (map (pair metric) players) bs.
Proof.
  revert acc. induction players as [|p ps IH]; intros acc; simpl.
  - intros [= <-]. exists []. rewrite app_nil_r. split; [reflexivity|constructor].
  - destruct (bar cdf metric p) as [b|e] eqn:E; simpl.
    + intros H. destruct (IH _ H) as [bs [-> Hbs]].
      exists (b :: bs). rewrite <- app_assoc. split; [reflexivity|].
      constructor; [exact E|exact Hbs].
    + rewrite player_loop_raise. discriminate.
Qed.

Lemma metric_loop_raise (cdf : DataFrame) (selected ms : list string)
    (e : exn) :
  fold_left
    (fun fig metric =>
       fold_left
         (fun fig player =>
            traces <- fig ;; b <- bar cdf metric player ;; Ok (traces ++ [b]))
         selected fig)
    ms (Raise e)
  = Raise e.
Proof.
  induction ms as [|m ms IH]; simpl; [reflexivity|].
  rewrite player_loop_raise. exact IH.
Qed.

Lemma metric_loop_Ok (cdf : DataFrame) (selected ms : list string)
    (acc fig : list Bar) :
  fold_left
    (fun fig metric =>
       fold_left
         (fun fig player =>
            traces <- fig ;; b <- bar cdf metric player ;; Ok (traces ++ [b]))
         selected fig)
    ms (Ok acc)
  = Ok fig ->
  exists bs,
    fig = acc ++ bs
    /\ Forall2 (fun mp b => bar cdf (fst mp) (snd mp) = Ok b)
               (list_prod ms selected) bs.
Proof.
  revert acc. induction ms as [|m ms IH]; intros acc; simpl.
  - intros [= <-]. exists []. rewrite app_nil_r. split; [reflexivity|constructor].
  - destruct (fold_left _ selected (Ok acc)) as [mid|e] eqn:E.
    + intros H. destruct (player_loop_Ok _ _ _ _ _ E) as [bs1 [-> H1]].
      destruct (IH _ H) as [bs2 [-> H2]].
      exists (bs1 ++ bs2). rewrite app_assoc. split; [reflexivity|].
      apply Forall2_app; assumption.
    + rewrite metric_loop_raise. discriminate.
Qed.

Lemma metrics_not_player (label metric : string) :
  In metric (metrics label) -> metric <> "player".
Proof.
  unfold metrics. destruct (label =? "Batting"); simpl;
    intros H; repeat (destruct H as [<-|H]; [discriminate|]); contradiction.
Qed.

(** ** The prompt *)

Lemma append_assoc (a b c : string) :
  ((a ++ b) ++ c = a ++ (b ++ c))%string.
Proof.
  induction a as [|x a IH]; simpl; [reflexivity|]. rewrite IH. reflexivity.
Qed.

Lemma append_empty_r (a : string) : (a ++ "")%string = a.
Proof.
  induction a as [|x a IH]; simpl; [reflexivity|]. rewrite IH. reflexivity.
Qed.

Lemma add_lines_raise (line : row -> result string) (rs : list row)
    (e : exn) :
  fold_left (fun acc r => p <- acc ;; l <- line r ;; Ok (p ++ l)%string)
            rs (Raise e)
  = Raise e.
Proof. induction rs as [|r rs IH]; simpl; [reflexivity|exact IH]. Qed.

Lemma add_lines_traverse (line : row -> result string) (stats : DataFrame)
    (prompt : string) :
  add_lines line stats prompt
  = (ls <- traverse line (rows stats) ;; Ok (prompt ++ join ls)%string).
Proof.
  unfold add_lines. revert prompt.
  induction (rows stats) as [|r rs IH]; intros prompt; simpl.
  - rewrite append_empty_r. reflexivity.
  - destruct (line r) as [l|e]; simpl.
    + rewrite IH. destruct (traverse line rs) as [ls|e]; simpl;
        [|reflexivity].
      rewrite append_assoc. reflexivity.
    + apply add_lines_raise.
Qed.

Lemma prompt_loop_raise (repr_float : float -> string) (d : dataset)
    (players : list string) (e : exn) :
  fold_left
    (fun acc player =>
       prompt <- acc ;;
       let prompt := (prompt ++ nl ++ "Player: " ++ player ++ nl)%string in
       bat <- get_stats (batting_df d) player ;;
       prompt <- add_lines (batting_line repr_float) bat prompt ;;
       bowl <- get_stats (bowling_df d) player ;;
       add_lines (bowling_line repr_float) bowl prompt)
    players (Raise e)
  = Raise e.
Proof. induction players as [|p ps IH]; simpl; [reflexivity|exact IH]. Qed.

Lemma prompt_loop_blocks (repr_float : float -> string) (d : dataset)
    (players : list string) (prompt : string) :
  fold_left
    (fun acc player =>
       prompt <- acc ;;
       let prompt := (prompt ++ nl ++ "Player: " ++ player ++ nl)%string in
       bat <- get_stats (batting_df d) player ;;
       prompt <- add_lines (batting_line repr_float) bat prompt ;;
       bowl <- get_stats (bowling_df d) player ;;
       add_lines (bowling_line repr_float) bowl prompt)
    players (Ok prompt)
  = (blocks <- traverse (player_block repr_float d) players ;;
     Ok (prompt ++ join blocks)%string).
Proof.
  revert prompt. induction players as [|p ps IH]; intros prompt;
    cbn [fold_left traverse bind join fold_right].
  - rewrite append_empty_r. reflexivity.
  - unfold player_block at 1.
    destruct (get_stats (batting_df d) p) as [bat|e]; cbn [bind];
      [|apply prompt_loop_raise].
    rewrite add_lines_traverse.
    destruct (traverse (batting_line repr_float) (rows bat)) as [bl|e];
      cbn [bind]; [|apply prompt_loop_raise].
    destruct (get_stats (bowling_df d) p) as [bowl|e]; cbn [bind];
      [|apply prompt_loop_raise].
    rewrite add_lines_traverse.
    destruct (traverse (bowling_line repr_float) (rows bowl)) as [wl|e];
      cbn [bind]; [|apply prompt_loop_raise].
    rewrite IH.
    destruct (traverse (player_block repr_float d) ps) as [blocks|e];
      cbn [bind join fold_right]; [|reflexivity].
    f_equal. unfold header. rewrite !append_assoc. reflexivity.
Qed.

(** Every row [get_stats] returns has its format. *)
Lemma get_stats_rows_have_format (T : DataFrame) (p : string)
    (out : DataFrame) (r : row) :
  get_stats T p = Ok out -> In r (rows out) ->
  exists f, assoc "format" r = Some f.
Proof.
  rewrite get_stats_cases. intros H Hr.
  assert (Hspec : out = empty_frame \/ out = aggregate_spec T p).
  { destruct (empty T); [left; congruence|].
    destruct (has_column T "player"); [|discriminate].
    destruct (player_rows T p); [left; congruence|].
    destruct (has_column T "format"); [right; congruence|discriminate]. }
  destruct Hspec as [->| ->]; [destruct Hr|].
  unfold aggregate_spec in Hr. cbn [rows] in Hr. apply in_map_iff in Hr.
  destruct Hr as [k [<- _]]. exists k. reflexivity.
Qed.

(** ** Every loaded row is tagged *)

Lemma setitem_cell (df : DataFrame) (c : string) (v : value) (r : row) :
  well_formed df -> In r (rows (setitem df c v)) -> cell c r = v.
Proof.
  intros Hwf. unfold setitem. destruct (has_column df c) eqn:Hc; simpl;
    intros Hr; apply in_map_iff in Hr; destruct Hr as [r0 [<- Hr0]].
  - unfold cell. rewrite assoc_replace_same; [reflexivity|].
    rewrite (Hwf r0 Hr0). apply has_column_In. exact Hc.
  - unfold cell. rewrite assoc_app.
    assert (E : assoc c r0 = None).
    { apply assoc_None_iff. rewrite (Hwf r0 Hr0). intros H.
      apply has_column_In in H. congruence. }
    rewrite E. simpl. rewrite String.eqb_refl. reflexivity.
Qed.

Lemma concat_rows_inv (dfs : list DataFrame) (r' : row) :
  In r' (rows (concat dfs)) ->
  exists df r,
    In df dfs /\ In r (rows df)
    /\ forall c,
         cell c r'
         = match assoc c (columns (concat dfs)) with
           | Some dt => astype dt (cell c r)
           | None => NaN
           end.
Proof.
  unfold concat. cbn [columns rows].
  set (cols := map (fun c => (c, concat_dtype dfs c))
                   (uniq_labels (flat_map (fun df => map fst (columns df)) dfs))).
  intros H. apply in_flat_map in H. destruct H as [df [Hdf H]].
  apply in_map_iff in H. destruct H as [r [<- Hr]].
  exists df, r. split; [exact Hdf|split; [exact Hr|]].
  intros c. unfold cell at 1.
  rewrite (assoc_map_values (fun c dt => astype dt (cell c r))).
  destruct (assoc c cols); reflexivity.
Qed.

Lemma load_table_tagged (fs : files) (players t : DataFrame)
    (fmt category : string) (r : row) :
  (forall path raw, fs path = Some raw -> well_formed raw) ->
  load_table fs players fmt category = Ok t -> In r (rows t) ->
  has_column t "format" = true /\ cell "format" r = VStr fmt.
Proof.
  intros Hwf. unfold load_table, read_csv.
  destruct (fs _) as [raw|] eqn:Hfs; cbn [bind]; [|discriminate].
  destruct (merge (normalize_columns raw) players "id") as [m|e] eqn:Hm;
    cbn [bind]; [|discriminate].
  intros [= <-] Hr. split.
  - rewrite has_column_setitem. reflexivity.
  - apply (setitem_cell m "format" (VStr fmt) r); [|exact Hr].
    apply (merge_well_formed _ _ _ _ (relabel_well_formed _ _ (Hwf _ _ Hfs)) Hm).
Qed.

(** * The claims *)

(** C3.  For every table [T] and player name [p]: if [T] is empty, or [p]
    does not occur in the player column of [T], then [get_stats T p] returns
    the empty frame; it does not raise. *)
Theorem get_stats_empty_or_absent (T : DataFrame) (p : string) :
  empty T = true \/
  (has_column T "player" = true /\
   forall r, In r (rows T) -> cell "player" r <> VStr p) ->
  get_stats T p = Ok empty_frame.
Proof.
  intros [He|[Hp Hno]].
  - unfold get_stats. rewrite He. reflexivity.
  - apply get_stats_absent; [exact Hp|].
    destruct (player_rows T p) as [|r rs] eqn:E; [reflexivity|].
    exfalso. assert (Hr : In r (player_rows T p)) by (rewrite E; left; reflexivity).
    apply player_rows_in in Hr. destruct Hr as [Hr Hc]. exact (Hno r Hr Hc).
Qed.

Lemma get_stats_empty_or_absent_witness :
  (empty empty_frame = true /\ get_stats empty_frame "A Sharma" = Ok empty_frame)
  /\ ((has_column example.table "player" = true /\
       forall r, In r (rows example.table) -> cell "player" r <> VStr "a sharma")
      /\ get_stats example.table "a sharma" = Ok empty_frame).
Proof.
  split.
  - split; [reflexivity|].
    apply (get_stats_empty_or_absent empty_frame "A Sharma").
    left. reflexivity.
  - assert (H : has_column example.table "player" = true /\
                forall r, In r (rows example.table) ->
                          cell "player" r <> VStr "a sharma").
    { split; [reflexivity|].
      simpl. intros r [<-|[<-|[<-|[<-|[<-|[]]]]]]; vm_compute; discriminate. }
    split; [exact H|].
    apply (get_stats_empty_or_absent example.table "a sharma").
    right. exact H.
Defined.

(** C4.  For every unified table [T] and player [p], [get_stats T p] returns
    a frame with at most one row per format value, and every format value of
    a returned row is the format of a row of [p] in [T]. *)
Theorem get_stats_one_row_per_format (T : DataFrame) (p : string) :
  unified_table T ->
  exists out,
    get_stats T p = Ok out
    /\ NoDup (formats_of (rows out))
    /\ forall k, In k (formats_of (rows out)) ->
                 In k (formats_of (player_rows T p)).
Proof.
  intros [He|[Hp Hf]].
  { exists empty_frame. unfold get_stats. rewrite He.
    split; [reflexivity|]. split; [constructor|intros k []]. }
  destruct (player_rows T p) as [|r rs] eqn:E.
  - exists empty_frame. split; [apply get_stats_absent; assumption|].
    split; [constructor|intros k []].
  - exists (aggregate_spec T p). split.
    + apply get_stats_present; try assumption. rewrite E. discriminate.
    + rewrite formats_of_aggregate_spec, E. split.
      * apply group_keys_NoDup.
      * intros k. apply group_keys_incl.
Qed.

Lemma get_stats_one_row_per_format_witness :
  unified_table example.table
  /\ exists out,
       get_stats example.table "A Sharma" = Ok out
       /\ NoDup (formats_of (rows out))
       /\ forall k, In k (formats_of (rows out)) ->
                    In k (formats_of (player_rows example.table "A Sharma")).
Proof.
  assert (H : unified_table example.table)
    by (right; split; reflexivity).
  split; [exact H|].
  apply (get_stats_one_row_per_format example.table "A Sharma" H).
Defined.

(** C9.  For every table [T] and player [p] present in [T] (the format of
    whose rows is a string, as the loader tags them), the rows that
    [get_stats T p] returns are in strictly ascending order of their format
    value, compared as strings by code point: ODI before T20 before TEST,
    whatever the order of the rows of [T]. *)
Theorem get_stats_sorted_by_format (T : DataFrame) (p : string) :
  has_column T "player" = true -> has_column T "format" = true ->
  player_rows T p <> [] ->
  (forall r, In r (player_rows T p) -> is_str (cell "format" r)) ->
  exists out ss,
    get_stats T p = Ok out
    /\ formats_of (rows out) = map VStr ss
    /\ StronglySorted string_lt ss.
Proof.
  intros Hp Hf Hrows Hstr.
  destruct (group_keys_sorted_str (formats_of (player_rows T p)))
    as [ss [Hss Hsorted]].
  { rewrite Forall_forall. intros v Hv. unfold formats_of in Hv.
    apply in_map_iff in Hv. destruct Hv as [r [<- Hr]]. apply Hstr. exact Hr. }
  exists (aggregate_spec T p), ss. split; [|split].
  - apply get_stats_present; assumption.
  - rewrite formats_of_aggregate_spec. exact Hss.
  - exact Hsorted.
Qed.

Lemma get_stats_sorted_by_format_witness :
  formats_of (player_rows example.table "A Sharma")
  = [VStr "ODI"; VStr "TEST"; VStr "T20"; VStr "T20"]
  /\ (forall out, get_stats example.table "A Sharma" = Ok out ->
                  formats_of (rows out) = [VStr "ODI"; VStr "T20"; VStr "TEST"])
  /\ exists out ss,
       get_stats example.table "A Sharma" = Ok out
       /\ formats_of (rows out) = map VStr ss
       /\ StronglySorted string_lt ss.
Proof.
  split; [reflexivity|]. split.
  - intros out H. vm_compute in H. injection H as <-. reflexivity.
  - apply (get_stats_sorted_by_format example.table "A Sharma").
    + reflexivity.
    + reflexivity.
    + vm_compute. discriminate.
    + intros r Hr. vm_compute in Hr.
      destruct Hr as [<-|[<-|[<-|[<-|[]]]]]; vm_compute; eexists; reflexivity.
Defined.

(** C10 (amended).  The identifier column is summed like every other numeric
    column.  For every player [p] whose rows of format [f] in [T] number [n]
    and all carry the int64 identifier [i], the row of format [f] that
    [get_stats T p] returns carries [id = n * i] reduced to the signed 64-bit
    range, which is [n * i] itself whenever that fits in 64 bits; the
    returned frame has [id] among its columns. *)
Theorem get_stats_sums_id (T : DataFrame) (p f : string) (i : Z) :
  has_column T "player" = true -> has_column T "format" = true ->
  assoc "id" (columns T) = Some int64 ->
  group_of T p (VStr f) <> [] ->
  (forall r, In r (group_of T p (VStr f)) -> cell "id" r = VInt i) ->
  let n := Z.of_nat (List.length (group_of T p (VStr f))) in
  exists out row,
    get_stats T p = Ok out
    /\ assoc "id" (columns out) = Some int64
    /\ In row (rows out)
    /\ cell "format" row = VStr f
    /\ cell "id" row = VInt (wrap64 (n * i))
    /\ ((- 2 ^ 63 <= n * i < 2 ^ 63)%Z -> cell "id" row = VInt (n * i)%Z).
Proof.
  intros Hp Hf Hid Hgroup Hall n.
  assert (Hin : In (VStr f) (formats_of (player_rows T p))).
  { destruct (group_of T p (VStr f)) as [|r rs] eqn:E; [contradiction|].
    assert (Hr : In r (group_of T p (VStr f))) by (rewrite E; left; reflexivity).
    unfold group_of in Hr. apply filter_In in Hr. destruct Hr as [Hr Hk].
    apply key_eqb_str in Hk. rewrite <- Hk. unfold formats_of.
    apply in_map. exact Hr. }
  assert (Hrows : player_rows T p <> []).
  { intros E. rewrite E in Hin. exact Hin. }
  assert (Hcell :
    cell "id"
      (("format", VStr f)
       :: map (fun cd =>
                 (fst cd,
                  col_sum (snd cd)
                    (map (cell (fst cd)) (group_of T p (VStr f)))))
              (filter (fun cd => is_numeric (snd cd)
                                 && negb (fst cd =? "format"))
                      (remove_key "player" (columns T))))
    = VInt (wrap64 (n * i))).
  { rewrite (aggregate_spec_cell T p "id" (VStr f) int64 Hid);
      [|reflexivity|discriminate|discriminate].
    rewrite (sum_int64_constant _ i).
    - rewrite length_map. reflexivity.
    - intros v Hv. apply in_map_iff in Hv. destruct Hv as [r [<- Hr]].
      apply Hall. exact Hr. }
  eexists (aggregate_spec T p), _. split; [|split; [|split; [|split; [|split]]]].
  - apply get_stats_present; assumption.
  - unfold aggregate_spec. cbn [columns assoc].
    destruct (String.eqb_spec "format" "id") as [E|_]; [discriminate E|].
    apply assoc_filter_keep; [|reflexivity].
    rewrite assoc_remove_key_ne by discriminate. exact Hid.
  - unfold aggregate_spec. cbn [rows].
    apply (in_map
             (fun k =>
                ("format", k)
                :: map (fun cd =>
                          (fst cd,
                           col_sum (snd cd)
                             (map (cell (fst cd)) (group_of T p k))))
                       (filter (fun cd => is_numeric (snd cd)
                                          && negb (fst cd =? "format"))
                               (remove_key "player" (columns T))))).
    apply group_keys_complete_str. exact Hin.
  - reflexivity.
  - exact Hcell.
  - intros Hrange. rewrite Hcell. rewrite wrap64_small by exact Hrange.
    reflexivity.
Qed.

Lemma get_stats_sums_id_witness :
  group_of example.table "A Sharma" (VStr "T20") <> []
  /\ exists out row,
       get_stats example.table "A Sharma" = Ok out
       /\ assoc "id" (columns out) = Some int64
       /\ In row (rows out)
       /\ cell "format" row = VStr "T20"
       /\ cell "id" row = VInt (wrap64 (2 * 1))
       /\ ((- 2 ^ 63 <= 2 * 1 < 2 ^ 63)%Z -> cell "id" row = VInt (2 * 1)%Z).
Proof.
  split; [vm_compute; discriminate|].
  apply (get_stats_sums_id example.table "A Sharma" "T20" 1).
  - reflexivity.
  - reflexivity.
  - reflexivity.
  - vm_compute. discriminate.
  - intros r Hr. vm_compute in Hr. destruct Hr as [<-|[<-|[]]]; reflexivity.
Defined.

(** C10 as stated fails where the sum leaves the 64-bit range: two rows
    with identifier 2^62 aggregate to -2^63, not to 2 * 2^62. *)
Lemma get_stats_id_sum_wraps :
  get_stats example.large_ids "A Sharma"
  = Ok (mkDataFrame
          [("format", object); ("id", int64); ("runs", int64)]
          [[("format", VStr "ODI"); ("id", VInt (-9223372036854775808));
            ("runs", VInt 57)]])
  /\ VInt (-9223372036854775808) <> VInt (2 * 4611686018427387904).
Proof.
  split; [vm_compute; reflexivity|]. intros H. discriminate H.
Qed.

(** C5 (amended).  [get_stats T p] keeps the rows of [T] whose player is the
    string [p] exactly (byte for byte, so case matters), drops the player
    column, groups the rows by format and sums every numeric column of each
    group: it returns [aggregate_spec T p].  The identifier is a numeric
    column, so it is summed too: in the scenario of one directory row
    (id 1, A Sharma) with one ODI and one TEST batting row, the result is
    exactly the two rows of format, id, runs, average_score and
    strike_rate. *)
Theorem get_stats_spec (T : DataFrame) (p : string) :
  get_stats T p
  = (if empty T then Ok empty_frame
     else if has_column T "player"
          then match player_rows T p with
               | [] => Ok empty_frame
               | _ :: _ =>
                   if has_column T "format" then Ok (aggregate_spec T p)
                   else Raise (KeyError "format")
               end
          else Raise (KeyError "player"))
  /\ (forall r, In r (player_rows T p)
                <-> In r (rows T) /\ cell "player" r = VStr p)
  /\ get_stats (batting_df (load example.scenario)) "A Sharma"
     = Ok (mkDataFrame
             [("format", object); ("id", int64); ("runs", int64);
              ("average_score", float64); ("strike_rate", float64)]
             [[("format", VStr "ODI"); ("id", VInt 1); ("runs", VInt 50);
               ("average_score", VFloat 50); ("strike_rate", VFloat 80)];
              [("format", VStr "TEST"); ("id", VInt 1); ("runs", VInt 30);
               ("average_score", VFloat 30); ("strike_rate", VFloat 40)]])
  /\ get_stats (batting_df (load example.scenario)) "a sharma"
     = Ok empty_frame.
Proof.
  split; [|split; [|split]].
  - apply get_stats_cases.
  - apply player_rows_in.
  - vm_compute. reflexivity.
  - vm_compute. reflexivity.
Qed.

(** C5 as stated fails on its example: the rows returned are not the rows
    the example lists, each carries the summed identifier as well. *)
Lemma scenario_rows_carry_id :
  exists out,
    get_stats (batting_df (load example.scenario)) "A Sharma" = Ok out
    /\ rows out <> example.scenario_rows_as_specified
    /\ map (assoc "id") (rows out) = [Some (VInt 1); Some (VInt 1)]
    /\ map (assoc "id") example.scenario_rows_as_specified = [None; None].
Proof.
  eexists. split; [vm_compute; reflexivity|].
  split; [intros H; discriminate H|]. split; reflexivity.
Qed.

(** C1 (amended).  A row of a statistics file whose identifier matches no
    row of the player directory is kept by the left join: the table of its
    category holds it, tagged with its format, with its identifier, and with
    a missing (NaN) player.  That missing value is not filtered out of the
    player values: when the three tables have a player column it is among
    the distinct values [all_players] collects, and every list
    [player_names] returns contains it. *)
Theorem join_miss_kept_with_missing_player (fs : files)
    (fmt category : string) (raw m : DataFrame) (r : row) :
  In fmt formats -> In category categories ->
  fs (csv_path fmt category) = Some raw ->
  well_formed raw ->
  has_column (normalize_columns raw) "player" = false ->
  has_column (all_players_df (load fs)) "player" = true ->
  merge (normalize_columns raw) (all_players_df (load fs)) "id" = Ok m ->
  In r (rows (normalize_columns raw)) ->
  (forall d, In d (rows (all_players_df (load fs))) ->
             key_match (cell "id" r) (cell "id" d) = false) ->
  (exists r',
     In r' (rows (category_table (load fs) category))
     /\ cell "player" r' = NaN
     /\ cell "format" r' = VStr fmt
     /\ exists dt,
          assoc "id" (columns (category_table (load fs) category)) = Some dt
          /\ cell "id" r' = astype dt (cell "id" r))
  /\ has_column (category_table (load fs) category) "player" = true
  /\ (has_column (batting_df (load fs)) "player" = true ->
      has_column (bowling_df (load fs)) "player" = true ->
      has_column (all_round_df (load fs)) "player" = true ->
      (exists v, In v (all_players (load fs)) /\ isna v = true)
      /\ forall names, player_names (load fs) = Ok names ->
                       exists v, In v names /\ isna v = true).
Proof.
  intros Hfmt Hcat Hfs Hwf Hnp Hpl Hm Hr Hno.
  destruct (load_table_unmatched fs (all_players_df (load fs)) raw m fmt
              category r Hfs Hwf Hnp Hm Hr Hno)
    as [t [r1 [Ht [Hr1 [Hp1 [Hf1 [Hi1 [Hcf [Hci Hcp]]]]]]]]].
  pose proof (loaded_In fs _ t fmt category Hfmt Ht) as Hin.
  pose proof (load_tables fs category Hcat) as HT.
  rewrite (concat_or_empty_In _ t Hin) in HT.
  destruct (concat_rows _ t r1 Hin Hr1) as [r' [Hr' Hcell]].
  assert (Hrow :
    In r' (rows (category_table (load fs) category))
    /\ cell "player" r' = NaN
    /\ cell "format" r' = VStr fmt).
  { rewrite HT. split; [exact Hr'|split].
    - rewrite Hcell, Hp1.
      destruct (assoc "player" (columns (concat _))); [|reflexivity].
      apply astype_missing. reflexivity.
    - rewrite Hcell, Hf1, (concat_has_column _ t "format" Hin Hcf).
      apply astype_str. }
  split; [|split].
  - exists r'. destruct Hrow as [H1 [H2 H3]].
    split; [exact H1|split; [exact H2|split; [exact H3|]]].
    rewrite HT. eexists. split.
    + exact (concat_has_column _ t "id" Hin Hci).
    + rewrite Hcell, (concat_has_column _ t "id" Hin Hci), Hi1. reflexivity.
  - rewrite HT. unfold has_column.
    rewrite (concat_has_column _ t "player" Hin (Hcp Hpl)). reflexivity.
  - intros Hb Hw Ha. destruct Hrow as [H1 [H2 _]].
    assert (Hmiss : exists v, In v (all_players (load fs)) /\ isna v = true).
    { apply (all_players_missing (load fs) category r' Hb Hw Ha Hcat H1).
      rewrite H2. reflexivity. }
    split; [exact Hmiss|].
    intros names Hnames. destruct Hmiss as [v [Hv Hna]].
    exists v. split; [|exact Hna].
    apply (sorted_In _ _ Hnames). exact Hv.
Qed.

Lemma join_miss_kept_with_missing_player_witness :
  (forall d, In d (rows (all_players_df (load example.join_miss))) ->
             key_match (VInt 2) (cell "id" d) = false)
  /\ exists r',
       In r' (rows (category_table (load example.join_miss) "bowling"))
       /\ cell "player" r' = NaN
       /\ cell "format" r' = VStr "T20"
       /\ exists dt,
            assoc "id"
              (columns (category_table (load example.join_miss) "bowling"))
            = Some dt
            /\ cell "id" r' = astype dt (VInt 2).
Proof.
  assert (Hno : forall d,
            In d (rows (all_players_df (load example.join_miss))) ->
            key_match (VInt 2) (cell "id" d) = false).
  { intros d Hd. vm_compute in Hd. destruct Hd as [<-|[]]. reflexivity. }
  split; [exact Hno|].
  refine (proj1
            (join_miss_kept_with_missing_player example.join_miss
               "T20" "bowling" example.t20_bowling _
               [("id", VInt 2); ("wk", VInt 3)] _ _ _ _ _ _ _ _ _)).
  - right. right. left. reflexivity.
  - right. left. reflexivity.
  - reflexivity.
  - intros r [<-|[]]. reflexivity.
  - reflexivity.
  - vm_compute. reflexivity.
  - vm_compute. reflexivity.
  - left. reflexivity.
  - exact Hno.
Defined.

(** C1 as stated fails: with the directory lacking identifier 2 and every
    statistics row carrying it, the bowling row is kept with a missing
    player, and the player index is the list of that one missing value. *)
Lemma player_index_lists_missing_player :
  rows (bowling_df (load example.join_miss))
  = [[("id", VInt 2); ("wk", VInt 3); ("player", NaN);
      ("format", VStr "T20")]]
  /\ all_players (load example.join_miss) = [NaN]
  /\ player_names (load example.join_miss) = Ok [NaN].
Proof.
  split; [|split]; vm_compute; reflexivity.
Qed.

(** C2 (the code diverges).  With the directory file unreadable,
    [all_players_df] is [pd.DataFrame()], which has no [id] column: the join
    of a statistics file that was read raises KeyError, the [except] branch
    reports the file as not loaded, and its rows reach no table. *)
Lemma directory_failure_drops_loaded_rows :
  read_csv example.no_directory (csv_path "ODI" "batting")
  = Ok example.odi_batting
  /\ merge (normalize_columns example.odi_batting)
           (all_players_df (load example.no_directory)) "id"
     = Raise (KeyError "id")
  /\ batting_df (load example.no_directory) = empty_frame
  /\ In (st_warning "Could not load ODI_batting.csv" (KeyError "id"))
        (messages (load example.no_directory)).
Proof.
  split; [|split; [|split]]; try (vm_compute; reflexivity).
  vm_compute. right. left. reflexivity.
Qed.

(** C6.  The chart of a tab uses the metrics runs, average_score and
    strike_rate when the tab is Batting and wk otherwise, and draws one bar
    series per metric and selected player, in that order.  For a selected
    player with rows in the table, the series' formats and values are the
    format column and the metric column of [get_stats] for that player (and
    it raises what that would raise); for a selected player without rows,
    [get_stats] is empty and so is the series. *)
Theorem chart_matches_get_stats (df cdf : DataFrame) (selected : list string)
    (label player metric : string) :
  compare_df df selected = Ok cdf ->
  In player selected ->
  In metric (metrics label) ->
  (metrics "Batting" = ["runs"; "average_score"; "strike_rate"]
   /\ forall l, l <> "Batting" -> metrics l = ["wk"])
  /\ (player_rows df player <> [] ->
      bar cdf metric player
      = (a <- get_stats df player ;;
         xs <- getitem a "format" ;;
         ys <- getitem a metric ;;
         Ok (mkBar xs ys (player ++ " - " ++ metric)%string)))
  /\ (player_rows df player = [] ->
      get_stats df player = Ok empty_frame
      /\ forall b, bar cdf metric player = Ok b -> x b = [] /\ y b = [])
  /\ (forall fig,
        chart label cdf selected = Ok fig ->
        Forall2 (fun mp b => bar cdf (fst mp) (snd mp) = Ok b)
                (list_prod (metrics label) selected) fig).
Proof.
  intros Hc Hp Hm.
  pose proof (compare_df_Ok _ _ _ Hc) as [Hpl _].
  pose proof (metrics_not_player _ _ Hm) as Hne.
  split; [|split; [|split]].
  - split; [reflexivity|]. intros l Hl. unfold metrics.
    destruct (String.eqb_spec l "Batting"); [contradiction|reflexivity].
  - intros Hrows. unfold bar. destruct (has_column df "format") eqn:Hf.
    + destruct (subset_Ok df cdf selected player Hc Hp Hf)
        as [s [-> [Hcols Hrws]]].
      rewrite (get_stats_present df player Hpl Hf Hrows). cbn [bind].
      rewrite (getitem_without_player s _ "format" Hcols Hrws)
        by discriminate.
      rewrite (getitem_without_player s _ metric Hcols Hrws) by exact Hne.
      reflexivity.
    + rewrite (subset_no_format df cdf selected player Hc Hf).
      rewrite (get_stats_no_format df player Hpl Hf Hrows). reflexivity.
  - intros Hrows. split; [apply get_stats_absent; assumption|].
    intros b. unfold bar. destruct (has_column df "format") eqn:Hf.
    + destruct (subset_Ok df cdf selected player Hc Hp Hf)
        as [s [-> [_ Hrws]]].
      unfold aggregate_spec in Hrws. rewrite Hrows in Hrws.
      cbn [rows formats_of map filter uniq sort_keys fold_right] in Hrws.
      symmetry in Hrws. apply map_eq_nil in Hrws.
      cbn [bind]. unfold getitem. rewrite Hrws.
      destruct (has_column s "format"); [|discriminate].
      destruct (has_column s metric); [|discriminate].
      cbn [bind map]. intros [= <-]. split; reflexivity.
    + rewrite (subset_no_format df cdf selected player Hc Hf). discriminate.
  - intros fig Hfig. unfold chart in Hfig.
    destruct (metric_loop_Ok _ _ _ _ _ Hfig) as [bs [-> Hbs]]. exact Hbs.
Qed.

Lemma chart_matches_get_stats_witness :
  player_rows example.table "A Sharma" <> []
  /\ exists cdf,
       compare_df example.table ["A Sharma"] = Ok cdf
       /\ bar cdf "runs" "A Sharma"
          = (a <- get_stats example.table "A Sharma" ;;
             xs <- getitem a "format" ;;
             ys <- getitem a "runs" ;;
             Ok (mkBar xs ys "A Sharma - runs")).
Proof.
  assert (Hrows : player_rows example.table "A Sharma" <> [])
    by (vm_compute; discriminate).
  split; [exact Hrows|].
  eexists. split; [vm_compute; reflexivity|].
  refine (proj1 (proj2
            (chart_matches_get_stats example.table _ ["A Sharma"]
               "Batting" "A Sharma" "runs" _ _ _)) Hrows).
  - vm_compute. reflexivity.
  - left. reflexivity.
  - left. reflexivity.
Defined.


(** C8.  A successful generation writes the text the service returned,
    verbatim, to summary.txt, whatever the file held before, shows that
    text, and touches no other file; so after two successful generations
    the file holds exactly the second response.  (A generation is
    successful when the prompt was built, the service returned a text and
    neither [open] nor the write failed; only then is a text shown.) *)
Theorem summary_file_overwritten (repr_float : float -> string)
    (model1 model2 : string -> result string) (d1 d2 : dataset)
    (selected1 selected2 : list string) (fs : disk)
    (prompt1 prompt2 text1 text2 : string) :
  build_prompt repr_float d1 selected1 = Ok prompt1 ->
  model1 prompt1 = Ok text1 ->
  build_prompt repr_float d2 selected2 = Ok prompt2 ->
  model2 prompt2 = Ok text2 ->
  generate repr_float model1 no_fault d1 selected1 fs
  = (write (open_w fs "summary.txt") "summary.txt" text1,
     summary_shown text1)
  /\ fst (generate repr_float model1 no_fault d1 selected1 fs) "summary.txt"
     = Some text1
  /\ snd (generate repr_float model2 no_fault d2 selected2
            (fst (generate repr_float model1 no_fault d1 selected1 fs)))
     = summary_shown text2
  /\ fst (generate repr_float model2 no_fault d2 selected2
            (fst (generate repr_float model1 no_fault d1 selected1 fs)))
         "summary.txt"
     = Some text2
  /\ (forall path, path <> "summary.txt" ->
        fst (generate repr_float model2 no_fault d2 selected2
               (fst (generate repr_float model1 no_fault d1 selected1 fs)))
            path
        = fs path)
  /\ (forall model fault d selected fs0 text,
        snd (generate repr_float model fault d selected fs0)
        = summary_shown text ->
        fault = no_fault
        /\ (exists prompt,
              build_prompt repr_float d selected = Ok prompt
              /\ model prompt = Ok text)
        /\ fst (generate repr_float model fault d selected fs0) "summary.txt"
           = Some text).
Proof.
  intros Hp1 Hm1 Hp2 Hm2.
  assert (Hgen : forall model d selected fs0 prompt text,
            build_prompt repr_float d selected = Ok prompt ->
            model prompt = Ok text ->
            generate repr_float model no_fault d selected fs0
            = (write (open_w fs0 "summary.txt") "summary.txt" text,
               summary_shown text)).
  { intros model d selected fs0 prompt text Hp Hm. unfold generate.
    rewrite Hp. cbn [bind]. rewrite Hm. reflexivity. }
  assert (Hfile : forall fs0 text,
            write (open_w fs0 "summary.txt") "summary.txt" text "summary.txt"
            = Some text).
  { intros fs0 text. unfold write, open_w. rewrite String.eqb_refl.
    reflexivity. }
  assert (Hframe : forall fs0 text path,
            path <> "summary.txt" ->
            write (open_w fs0 "summary.txt") "summary.txt" text path
            = fs0 path).
  { intros fs0 text path Hne. unfold write, open_w.
    destruct (String.eqb_spec path "summary.txt");
      [contradiction|reflexivity]. }
  rewrite (Hgen _ _ _ fs _ _ Hp1 Hm1). cbn [fst snd].
  rewrite (Hgen _ _ _ _ _ _ Hp2 Hm2). cbn [fst snd].
  split; [reflexivity|]. split; [apply Hfile|]. split; [reflexivity|].
  split; [apply Hfile|]. split.
  { intros path Hne. rewrite !Hframe by exact Hne. reflexivity. }
  intros model fault d selected fs0 text. unfold generate.
  destruct (build_prompt repr_float d selected) as [prompt|e] eqn:Hp;
    cbn [bind]; [|cbn [snd]; discriminate].
  destruct (model prompt) as [t|e] eqn:Hm; [|cbn [snd]; discriminate].
  destruct fault; cbn [fst snd]; try discriminate.
  intros [= ->]. split; [reflexivity|]. split; [|apply Hfile].
  exists prompt. split; [reflexivity|exact Hm].
Qed.

Lemma summary_file_overwritten_witness :
  let repr := fun _ : float => "0.0" in
  let d := load example.without_wk in
  let fs1 :=
    fst (generate repr (fun _ => Ok "first text") no_fault d ["V Kohli"]
           example.old_disk) in
  let fs2 :=
    fst (generate repr (fun _ => Ok "second text") no_fault d ["V Kohli"]
           fs1) in
  example.old_disk "summary.txt" = Some "an older and longer summary"
  /\ fs1 "summary.txt" = Some "first text"
  /\ fs2 "summary.txt" = Some "second text".
Proof.
  intros repr d fs1 fs2.
  split; [reflexivity|].
  destruct (summary_file_overwritten repr
              (fun _ => Ok "first text") (fun _ => Ok "second text")
              d d ["V Kohli"] ["V Kohli"] example.old_disk
              (instruction ++ nl ++ "Player: V Kohli" ++ nl
               ++ "Batting - ODI: 50 runs, Avg: -, SR: -" ++ nl
               ++ "Bowling - ODI: - wickets" ++ nl)%string
              (instruction ++ nl ++ "Player: V Kohli" ++ nl
               ++ "Batting - ODI: 50 runs, Avg: -, SR: -" ++ nl
               ++ "Bowling - ODI: - wickets" ++ nl)%string
              "first text" "second text")
    as [_ [H1 [_ [H2 _]]]].
  - vm_compute. reflexivity.
  - reflexivity.
  - vm_compute. reflexivity.
  - reflexivity.
  - split; [exact H1|exact H2].
Defined.

(** X1.  Every row of a loaded table carries the format of the file it came
    from: its format cell is one of ODI, TEST and T20, as a string. *)
Theorem loaded_rows_tagged (fs : files) (category : string) (r : row) :
  (forall path raw, fs path = Some raw -> well_formed raw) ->
  In category categories ->
  In r (rows (category_table (load fs) category)) ->
  exists fmt, In fmt formats /\ cell "format" r = VStr fmt.
Proof.
  intros Hwf Hc Hr. rewrite (load_tables fs category Hc) in Hr.
  destruct (loaded fs (all_players_df (load fs)) category) as [|t0 ts] eqn:E;
    [destruct Hr|].
  change (concat_or_empty (t0 :: ts)) with (concat (t0 :: ts)) in Hr.
  rewrite <- E in Hr.
  destruct (concat_rows_inv _ _ Hr) as [t [r0 [Ht [Hr0 Hcell]]]].
  unfold loaded in Ht. apply in_flat_map in Ht. destruct Ht as [fmt [Hfmt Ht]].
  destruct (load_table fs (all_players_df (load fs)) fmt category)
    as [t'|e] eqn:Hload; [|destruct Ht].
  destruct Ht as [<-|[]].
  destruct (load_table_tagged fs _ _ _ _ r0 Hwf Hload Hr0) as [Hcol Hf].
  exists fmt. split; [exact Hfmt|].
  rewrite Hcell.
  assert (Hin : In t' (loaded fs (all_players_df (load fs)) category))
    by (apply (loaded_In fs _ t' fmt category Hfmt Hload)).
  rewrite (concat_has_column _ t' "format" Hin Hcol), Hf.
  apply astype_str.
Qed.

Lemma loaded_rows_tagged_witness :
  In [("id", VInt 1); ("runs", VInt 30); ("average_score", VFloat 30);
      ("strike_rate", VFloat 40); ("player", VStr "A Sharma");
      ("format", VStr "TEST")]
     (rows (category_table (load example.scenario) "batting"))
  /\ exists fmt,
       In fmt formats
       /\ cell "format"
            [("id", VInt 1); ("runs", VInt 30); ("average_score", VFloat 30);
             ("strike_rate", VFloat 40); ("player", VStr "A Sharma");
             ("format", VStr "TEST")]
          = VStr fmt.
Proof.
  assert (Hr : In [("id", VInt 1); ("runs", VInt 30);
                   ("average_score", VFloat 30); ("strike_rate", VFloat 40);
                   ("player", VStr "A Sharma"); ("format", VStr "TEST")]
                  (rows (category_table (load example.scenario) "batting"))).
  { vm_compute. right. left. reflexivity. }
  split; [exact Hr|].
  apply (loaded_rows_tagged example.scenario "batting" _); [| |exact Hr].
  - intros path raw. unfold example.scenario.
    destruct (path =? "archive (2)/all_players.csv");
      [intros [= <-] r [<-|[]]; reflexivity|].
    destruct (path =? "archive (2)/ODI_batting.csv");
      [intros [= <-] r [<-|[]]; reflexivity|].
    destruct (path =? "archive (2)/TEST_batting.csv");
      [intros [= <-] r [<-|[]]; reflexivity|].
    discriminate.
  - left. reflexivity.
Defined.

(** * Further properties of the script *)

(** ** The loader when files are missing *)

Lemma sorted_nil : sorted [] = Ok [].
Proof. reflexivity. Qed.

Lemma all_players_no_column (d : dataset) :
  has_column (batting_df d) "player" = false
  \/ has_column (bowling_df d) "player" = false
  \/ has_column (all_round_df d) "player" = false ->
  all_players d = [].
Proof.
  intros H. unfold all_players, getitem.
  destruct (has_column (batting_df d) "player"); cbn [bind];
    [|reflexivity].
  destruct (has_column (bowling_df d) "player"); cbn [bind];
    [|reflexivity].
  destruct (has_column (all_round_df d) "player"); cbn [bind];
    [|reflexivity].
  destruct H as [H|[H|H]]; discriminate H.
Qed.

Lemma category_table_no_column (d : dataset) (category : string) :
  In category categories ->
  has_column (category_table d category) "player" = false ->
  all_players d = [].
Proof.
  intros Hc H. apply all_players_no_column. unfold category_table in H.
  destruct Hc as [<-|[<-|[<-|[]]]]; cbn [String.eqb Ascii.eqb Bool.eqb] in H;
    tauto.
Qed.

(** X2.  If all_players.csv cannot be read, the error is shown and nothing
    else loads: whatever the statistics files hold, the three tables are
    [pd.DataFrame()] and the list of player names is empty. *)
Theorem directory_unreadable_empties_tables (fs : files) :
  fs (path_join data_dir "all_players.csv") = None ->
  batting_df (load fs) = empty_frame
  /\ bowling_df (load fs) = empty_frame
  /\ all_round_df (load fs) = empty_frame
  /\ player_names (load fs) = Ok []
  /\ In (st_error "Failed to load all_players.csv"
                  (ReadError (path_join data_dir "all_players.csv")))
        (messages (load fs)).
Proof.
  intros Hdir.
  pose proof (load_without_directory fs "batting" Hdir
                (or_introl eq_refl)) as Hb.
  pose proof (load_without_directory fs "bowling" Hdir
                (or_intror (or_introl eq_refl))) as Hw.
  pose proof (load_without_directory fs "all_round" Hdir
                (or_intror (or_intror (or_introl eq_refl)))) as Ha.
  change (batting_df (load fs) = empty_frame) in Hb.
  change (bowling_df (load fs) = empty_frame) in Hw.
  change (all_round_df (load fs) = empty_frame) in Ha.
  split; [exact Hb|split; [exact Hw|split; [exact Ha|split]]].
  - unfold player_names. rewrite all_players_no_column; [reflexivity|].
    left. rewrite Hb. reflexivity.
  - unfold load, load_all_players, read_csv. rewrite Hdir.
    cbn [messages].
    assert (Hkeep : forall fmts st m,
              In m (shown st) ->
              In m (shown (fold_left (load_format fs empty_frame) fmts st))).
    { induction fmts as [|fmt fmts IH]; intros st m Hm; [exact Hm|].
      cbn [fold_left]. apply IH. unfold load_format.
      destruct (load_table fs empty_frame fmt "batting");
        destruct (load_table fs empty_frame fmt "bowling");
        destruct (load_table fs empty_frame fmt "all_round");
        cbn [shown]; repeat (apply in_or_app; left); exact Hm. }
    apply Hkeep. left. reflexivity.
Qed.

Lemma directory_unreadable_empties_tables_witness :
  example.no_directory (path_join data_dir "all_players.csv") = None
  /\ batting_df (load example.no_directory) = empty_frame
  /\ player_names (load example.no_directory) = Ok [].
Proof.
  assert (H : example.no_directory (path_join data_dir "all_players.csv")
              = None) by reflexivity.
  split; [exact H|].
  destruct (directory_unreadable_empties_tables example.no_directory H)
    as [Hb [_ [_ [Hn _]]]].
  split; [exact Hb|exact Hn].
Defined.

Lemma loaded_nil (fs : files) (players : DataFrame) (category : string) :
  (forall fmt, In fmt formats -> fs (csv_path fmt category) = None) ->
  loaded fs players category = [].
Proof.
  intros Hnone. unfold loaded.
  induction formats as [|fmt fmts IH]; [reflexivity|].
  cbn [flat_map]. unfold load_table at 1, read_csv.
  unfold csv_path in Hnone. rewrite (Hnone fmt) by (left; reflexivity).
  cbn [bind app]. apply IH. intros f Hf. apply Hnone. right. exact Hf.
Qed.

(** X3.  If no file of one category can be read, that category's table is
    [pd.DataFrame()]; it has no player column, so the KeyError branch of
    line 80 empties the whole player list, whatever the other two
    categories loaded. *)
Theorem category_without_files_empties_index (fs : files)
    (category : string) :
  In category categories ->
  (forall fmt, In fmt formats -> fs (csv_path fmt category) = None) ->
  category_table (load fs) category = empty_frame
  /\ all_players (load fs) = []
  /\ player_names (load fs) = Ok [].
Proof.
  intros Hc Hnone.
  assert (HT : category_table (load fs) category = empty_frame).
  { rewrite (load_tables fs category Hc), loaded_nil by exact Hnone.
    reflexivity. }
  assert (Hall : all_players (load fs) = []).
  { apply (category_table_no_column _ category Hc). rewrite HT. reflexivity. }
  split; [exact HT|split; [exact Hall|]].
  unfold player_names. rewrite Hall. reflexivity.
Qed.

Lemma category_without_files_empties_index_witness :
  rows (batting_df (load example.scenario)) <> []
  /\ category_table (load example.scenario) "bowling" = empty_frame
  /\ all_players (load example.scenario) = []
  /\ player_names (load example.scenario) = Ok [].
Proof.
  split; [vm_compute; discriminate|].
  apply (category_without_files_empties_index example.scenario "bowling").
  - right. left. reflexivity.
  - intros fmt [<-|[<-|[<-|[]]]]; reflexivity.
Defined.

(** Where a row of a loaded table comes from. *)
Lemma loaded_row_origin (fs : files) (category : string) (r : row) :
  (forall path raw, fs path = Some raw -> well_formed raw) ->
  In category categories ->
  In r (rows (category_table (load fs) category)) ->
  exists fmt t,
    In fmt formats
    /\ load_table fs (all_players_df (load fs)) fmt category = Ok t
    /\ cell "format" r = VStr fmt.
Proof.
  intros Hwf Hc Hr. rewrite (load_tables fs category Hc) in Hr.
  destruct (loaded fs (all_players_df (load fs)) category) as [|t0 ts] eqn:E;
    [destruct Hr|].
  change (concat_or_empty (t0 :: ts)) with (concat (t0 :: ts)) in Hr.
  rewrite <- E in Hr.
  destruct (concat_rows_inv _ _ Hr) as [t [r0 [Ht [Hr0 Hcell]]]].
  unfold loaded in Ht. apply in_flat_map in Ht. destruct Ht as [fmt [Hfmt Ht]].
  destruct (load_table fs (all_players_df (load fs)) fmt category)
    as [t'|e] eqn:Hload; [|destruct Ht].
  destruct Ht as [<-|[]].
  destruct (load_table_tagged fs _ _ _ _ r0 Hwf Hload Hr0) as [Hcol Hf].
  exists fmt, t'. split; [exact Hfmt|split; [exact Hload|]].
  rewrite Hcell.
  assert (Hin : In t' (loaded fs (all_players_df (load fs)) category))
    by (apply (loaded_In fs _ t' fmt category Hfmt Hload)).
  rewrite (concat_has_column _ t' "format" Hin Hcol), Hf.
  apply astype_str.
Qed.

(** X4.  A statistics file that cannot be read is warned about and simply
    absent: no row of its category's table carries its format, while the
    rows of the files that did load are there. *)
Theorem unreadable_file_leaves_no_rows (fs : files) (fmt category : string) :
  (forall path raw, fs path = Some raw -> well_formed raw) ->
  In category categories ->
  fs (csv_path fmt category) = None ->
  forall r, In r (rows (category_table (load fs) category)) ->
            cell "format" r <> VStr fmt.
Proof.
  intros Hwf Hc Hnone r Hr E.
  destruct (loaded_row_origin fs category r Hwf Hc Hr)
    as [fmt' [t [_ [Hload Hf]]]].
  rewrite E in Hf. injection Hf as <-.
  unfold load_table, read_csv in Hload. unfold csv_path in Hnone.
  rewrite Hnone in Hload. discriminate Hload.
Qed.

Lemma scenario_well_formed (path : string) (raw : DataFrame) :
  example.scenario path = Some raw -> well_formed raw.
Proof.
  unfold example.scenario.
  destruct (path =? "archive (2)/all_players.csv");
    [intros [= <-] r [<-|[]]; reflexivity|].
  destruct (path =? "archive (2)/ODI_batting.csv");
    [intros [= <-] r [<-|[]]; reflexivity|].
  destruct (path =? "archive (2)/TEST_batting.csv");
    [intros [= <-] r [<-|[]]; reflexivity|].
  discriminate.
Qed.

Lemma unreadable_file_leaves_no_rows_witness :
  example.scenario (csv_path "T20" "batting") = None
  /\ rows (category_table (load example.scenario) "batting") <> []
  /\ forall r, In r (rows (category_table (load example.scenario) "batting")) ->
               cell "format" r <> VStr "T20".
Proof.
  split; [reflexivity|]. split; [vm_compute; discriminate|].
  apply (unreadable_file_leaves_no_rows example.scenario "T20" "batting").
  - exact scenario_well_formed.
  - left. reflexivity.
  - reflexivity.
Defined.

(** ** The player list *)

Lemma sorted_fold_raise (s : list value) (e : exn) :
  fold_left (fun acc x => l <- acc ;; py_insert x l) s (Raise e) = Raise e.
Proof. induction s as [|x s IH]; simpl; [reflexivity|exact IH]. Qed.

Lemma py_lt_raises (a b : value) (e : exn) :
  py_lt a b = Raise e -> e = TypeError.
Proof.
  destruct a, b; simpl; intros H; try discriminate H; congruence.
Qed.

Lemma py_insert_raises (x : value) (l : list value) (e : exn) :
  py_insert x l = Raise e -> e = TypeError.
Proof.
  induction l as [|y t IH]; simpl; [discriminate|].
  destruct (py_lt x y) as [b|e'] eqn:E; simpl.
  - destruct b; [discriminate|].
    destruct (py_insert x t) as [t'|e'']; simpl; [discriminate|].
    intros [= <-]. apply IH. reflexivity.
  - intros [= <-]. exact (py_lt_raises _ _ _ E).
Qed.

Lemma py_insert_other_kind (x y : value) (t : list value) :
  (is_str x /\ ~ is_str y) \/ (~ is_str x /\ is_str y) ->
  py_insert x (y :: t) = Raise TypeError.
Proof.
  intros [[[s ->] Hy]|[Hx [s ->]]]; simpl.
  - destruct y as [z|f|u]; try reflexivity.
    exfalso. apply Hy. exists u. reflexivity.
  - destruct x as [z|f|u]; try reflexivity.
    exfalso. apply Hx. exists u. reflexivity.
Qed.

Lemma is_str_dec (v : value) : is_str v \/ ~ is_str v.
Proof.
  destruct v as [z|f|s];
    [right; intros [u H]; discriminate H
    |right; intros [u H]; discriminate H
    |left; exists s; reflexivity].
Qed.

(** Sorting values of both kinds raises, whatever was sorted so far. *)
Lemma sorted_fold_mixed (s acc : list value) :
  (Forall is_str acc \/ Forall (fun v => ~ is_str v) acc) ->
  (exists v, In v (acc ++ s) /\ is_str v) ->
  (exists v, In v (acc ++ s) /\ ~ is_str v) ->
  fold_left (fun acc x => l <- acc ;; py_insert x l) s (Ok acc)
  = Raise TypeError.
Proof.
  revert acc. induction s as [|x s IH]; intros acc Hhom Hs Hn.
  - exfalso. rewrite app_nil_r in Hs, Hn.
    destruct Hs as [v [Hv Hvs]], Hn as [w [Hw Hwn]].
    destruct Hhom as [H|H]; rewrite Forall_forall in H.
    + exact (Hwn (H w Hw)).
    + exact (H v Hv Hvs).
  - cbn [fold_left bind].
    destruct (py_insert x acc) as [acc'|e] eqn:E.
    2:{ rewrite (py_insert_raises _ _ _ E). apply sorted_fold_raise. }
    pose proof (py_insert_In x acc acc' E) as Hin.
    apply IH.
    + destruct acc as [|y t].
      * simpl in E. injection E as <-.
        destruct (is_str_dec x) as [Hx|Hx]; [left|right];
          constructor; [exact Hx|constructor|exact Hx|constructor].
      * destruct (is_str_dec x) as [Hx|Hx], Hhom as [H|H].
        -- left. rewrite Forall_forall in *. intros v Hv.
           apply Hin in Hv. destruct Hv as [->|Hv]; auto.
        -- exfalso. rewrite (py_insert_other_kind x y t) in E;
             [discriminate E|].
           left. split; [exact Hx|]. inversion H. assumption.
        -- exfalso. rewrite (py_insert_other_kind x y t) in E;
             [discriminate E|].
           right. split; [exact Hx|]. inversion H. assumption.
        -- right. rewrite Forall_forall in *. intros v Hv.
           apply Hin in Hv. destruct Hv as [->|Hv]; auto.
    + destruct Hs as [v [Hv Hvs]]. exists v. split; [|exact Hvs].
      apply in_app_or in Hv. apply in_or_app.
      destruct Hv as [Hv|[<-|Hv]].
      * left. apply Hin. right. exact Hv.
      * left. apply Hin. left. reflexivity.
      * right. exact Hv.
    + destruct Hn as [v [Hv Hvn]]. exists v. split; [|exact Hvn].
      apply in_app_or in Hv. apply in_or_app.
      destruct Hv as [Hv|[<-|Hv]].
      * left. apply Hin. right. exact Hv.
      * left. apply Hin. left. reflexivity.
      * right. exact Hv.
Qed.

(** X5.  [sorted] is called outside the [try]: when the collected player
    values hold a name together with a missing value (a statistics row that
    matched no directory row), comparing the two raises TypeError and no
    player list is produced. *)
Theorem player_names_raises_on_missing (d : dataset) :
  (exists s, In (VStr s) (all_players d)) ->
  (exists v, In v (all_players d) /\ isna v = true) ->
  player_names d = Raise TypeError.
Proof.
  intros [s Hs] [v [Hv Hna]]. unfold player_names, sorted.
  apply sorted_fold_mixed.
  - left. constructor.
  - exists (VStr s). split; [exact Hs|exists s; reflexivity].
  - exists v. split; [exact Hv|]. intros [u ->]. discriminate Hna.
Qed.

Lemma player_names_raises_on_missing_witness :
  all_players (load example.one_unmatched)
  = [VStr "V Kohli"; NaN; VStr "A Sharma"]
  /\ player_names (load example.one_unmatched) = Raise TypeError.
Proof.
  split; [vm_compute; reflexivity|].
  apply (player_names_raises_on_missing (load example.one_unmatched)).
  - exists "V Kohli". vm_compute. left. reflexivity.
  - exists NaN. split; [vm_compute; right; left; reflexivity|reflexivity].
Defined.

Lemma same_element_refl (v : value) : same_element v v = true.
Proof.
  unfold same_element. destruct (isna v) eqn:E; [reflexivity|].
  apply key_eqb_refl. exact E.
Qed.

Lemma set_add_NoDup (s : list value) (v : value) :
  NoDup s -> NoDup (set_add s v).
Proof.
  intros Hs. unfold set_add.
  destruct (existsb (same_element v) s) eqn:E; [exact Hs|].
  apply NoDup_app; [exact Hs|constructor; [intros []|constructor]|].
  intros a Ha [Ea|[]]. subst a.
  assert (H : existsb (same_element v) s = true).
  { apply existsb_exists. exists v. split; [exact Ha|apply same_element_refl]. }
  congruence.
Qed.

Lemma fold_set_add_NoDup (l s : list value) :
  NoDup s -> NoDup (fold_left set_add l s).
Proof.
  revert s. induction l as [|x l IH]; intros s Hs; simpl; [exact Hs|].
  apply IH, set_add_NoDup, Hs.
Qed.

Lemma all_players_NoDup (d : dataset) : NoDup (all_players d).
Proof.
  unfold all_players.
  destruct (getitem (batting_df d) "player"); cbn [bind]; [|constructor].
  destruct (getitem (bowling_df d) "player"); cbn [bind]; [|constructor].
  destruct (getitem (all_round_df d) "player"); cbn [bind]; [|constructor].
  unfold set_union, set_of.
  repeat apply fold_set_add_NoDup. constructor.
Qed.

Lemma string_ltb_false_leb (s t : string) :
  String.ltb s t = false -> (t <=? s) = true.
Proof.
  unfold String.ltb, String.leb. rewrite (String.compare_antisym s t).
  destruct (String.compare t s); simpl; congruence.
Qed.

Lemma py_insert_strings (x : value) (l : list value) :
  is_str x -> Forall is_str l -> StronglySorted key_le l ->
  exists l', py_insert x l = Ok l' /\ StronglySorted key_le l'.
Proof.
  intros [s ->] Hl Hs. induction l as [|y t IH]; simpl.
  - eexists. split; [reflexivity|]. constructor; constructor.
  - inversion Hl as [|? ? [u ->] Ht]; subst.
    inversion Hs as [|? ? Hst Hyt]; subst. simpl.
    destruct (String.ltb s u) eqn:E.
    + eexists. split; [reflexivity|]. constructor; [exact Hs|].
      assert (Hsu : key_le (VStr s) (VStr u)).
      { unfold key_le. simpl. apply string_leb_cases. right.
        unfold String.ltb in E. destruct (String.compare s u); congruence. }
      constructor; [exact Hsu|].
      rewrite Forall_forall in *. intros z Hz.
      apply (key_le_trans_str (VStr s) (VStr u) z);
        [eexists; reflexivity|eexists; reflexivity|auto|exact Hsu|auto].
    + destruct (IH Ht Hst) as [t' [Ht' Hs']]. rewrite Ht'. simpl.
      eexists. split; [reflexivity|]. constructor; [exact Hs'|].
      rewrite Forall_forall in *. intros z Hz.
      apply (py_insert_In _ _ _ Ht') in Hz. destruct Hz as [->|Hz]; [|auto].
      unfold key_le. simpl. apply string_ltb_false_leb. exact E.
Qed.

Lemma py_insert_NoDup (x : value) (l l' : list value) :
  py_insert x l = Ok l' -> ~ In x l -> NoDup l -> NoDup l'.
Proof.
  revert l'. induction l as [|y t IH]; intros l'; simpl.
  - intros [= <-] _ _. constructor; [intros []|constructor].
  - destruct (py_lt x y) as [b|e]; simpl; [|discriminate].
    destruct b.
    + intros [= <-] Hx Hn. constructor; [exact Hx|exact Hn].
    + destruct (py_insert x t) as [t'|e] eqn:E; simpl; [|discriminate].
      intros [= <-] Hx Hn. inversion Hn as [|? ? Hy Ht]; subst.
      constructor.
      * intros H. apply (py_insert_In _ _ _ E) in H.
        destruct H as [->|H]; [apply Hx; left; reflexivity|contradiction].
      * apply (IH t' eq_refl); [intros H; apply Hx; right; exact H|exact Ht].
Qed.

Lemma sorted_fold_strings (s acc : list value) :
  Forall is_str acc -> Forall is_str s ->
  StronglySorted key_le acc -> NoDup (acc ++ s) ->
  exists l,
    fold_left (fun acc x => l <- acc ;; py_insert x l) s (Ok acc) = Ok l
    /\ Forall is_str l /\ StronglySorted key_le l /\ NoDup l.
Proof.
  revert acc. induction s as [|x s IH]; intros acc Ha Hs Hsorted Hn.
  - exists acc. rewrite app_nil_r in Hn. simpl. tauto.
  - inversion Hs as [|? ? Hx Hs']; subst. cbn [fold_left bind].
    destruct (py_insert_strings x acc Hx Ha Hsorted) as [acc' [E Hsorted']].
    rewrite E. pose proof (py_insert_In x acc acc' E) as Hin.
    apply NoDup_remove in Hn. destruct Hn as [Hn Hxn].
    apply IH.
    + rewrite Forall_forall in *. intros v Hv. apply Hin in Hv.
      destruct Hv as [->|Hv]; auto.
    + exact Hs'.
    + exact Hsorted'.
    + apply NoDup_app.
      * apply (py_insert_NoDup x acc acc' E).
        -- intros H. apply Hxn. apply in_or_app. left. exact H.
        -- apply NoDup_app_remove_r in Hn. exact Hn.
      * apply NoDup_app_remove_l in Hn. exact Hn.
      * intros a Ha' Hs''. apply Hin in Ha'. destruct Ha' as [->|Ha'].
        -- apply Hxn. apply in_or_app. right. exact Hs''.
        -- revert Ha' Hs''. clear -Hn. revert a.
           induction acc as [|b acc IHa]; [intros a []|].
           simpl in Hn. inversion Hn as [|? ? Hb Hn']; subst.
           intros a [<-|Ha] Hs.
           ++ apply Hb. apply in_or_app. right. exact Hs.
           ++ exact (IHa Hn' a Ha Hs).
Qed.

Lemma set_add_from (s : list value) (v w : value) :
  In w (set_add s v) -> In w s \/ w = v.
Proof.
  unfold set_add. destruct (existsb (same_element v) s); [tauto|].
  intros H. apply in_app_or in H. destruct H as [H|[H|[]]]; [tauto|].
  right. symmetry. exact H.
Qed.

Lemma fold_set_add_from (l s : list value) (w : value) :
  In w (fold_left set_add l s) -> In w s \/ In w l.
Proof.
  revert s. induction l as [|x l IH]; intros s; simpl; [tauto|].
  intros H. destruct (IH _ H) as [H1|H1]; [|tauto].
  destruct (set_add_from _ _ _ H1) as [H2|H2]; [tauto|].
  right. left. symmetry. exact H2.
Qed.

Lemma set_add_str (s : list value) (t : string) :
  In (VStr t) (set_add s (VStr t)).
Proof.
  unfold set_add. destruct (existsb (same_element (VStr t)) s) eqn:E.
  - apply existsb_exists in E. destruct E as [w [Hw Hs]].
    unfold same_element in Hs. cbn [isna] in Hs.
    destruct w as [z|f|u]; simpl in Hs; try discriminate.
    apply String.eqb_eq in Hs. subst u. exact Hw.
  - apply in_or_app. right. left. reflexivity.
Qed.

Lemma fold_set_add_str (l s : list value) (t : string) :
  In (VStr t) (fold_left set_add l s) <-> In (VStr t) s \/ In (VStr t) l.
Proof.
  split; [apply fold_set_add_from|].
  revert s. induction l as [|x l IH]; intros s; simpl.
  - intros [H|[]]. exact H.
  - intros [H|[->|H]]; apply IH.
    + left. apply set_add_incl. exact H.
    + left. apply set_add_str.
    + right. exact H.
Qed.

(** X6.  When each of the three tables has a player column and every player
    cell in them is a name (every statistics row matched the directory),
    [player_names] returns names without duplicates in strictly ascending
    order, and a name is listed exactly when it is the player of some row of
    the batting, the bowling or the all-round table. *)
Theorem player_names_sorted (d : dataset) :
  has_column (batting_df d) "player" = true ->
  has_column (bowling_df d) "player" = true ->
  has_column (all_round_df d) "player" = true ->
  (forall r,
     In r (rows (batting_df d) ++ rows (bowling_df d) ++ rows (all_round_df d)) ->
     is_str (cell "player" r)) ->
  exists names,
    player_names d = Ok (map VStr names)
    /\ StronglySorted string_lt names
    /\ forall s,
         In s names
         <-> exists r,
               In r (rows (batting_df d) ++ rows (bowling_df d)
                     ++ rows (all_round_df d))
               /\ cell "player" r = VStr s.
Proof.
  intros Hb Hw Ha Hstr.
  assert (Hall : all_players d
                 = set_union
                     (set_union
                        (set_of (map (cell "player") (rows (batting_df d))))
                        (set_of (map (cell "player") (rows (bowling_df d)))))
                     (set_of (map (cell "player") (rows (all_round_df d))))).
  { unfold all_players, getitem. rewrite Hb, Hw, Ha. reflexivity. }
  assert (Hfrom : forall v,
            In v (all_players d) ->
            In v (map (cell "player")
                      (rows (batting_df d) ++ rows (bowling_df d)
                       ++ rows (all_round_df d)))).
  { intros v Hv. rewrite Hall in Hv. unfold set_union, set_of in Hv.
    rewrite !map_app. rewrite !in_app_iff.
    apply fold_set_add_from in Hv. destruct Hv as [Hv|Hv].
    - apply fold_set_add_from in Hv. destruct Hv as [Hv|Hv].
      + apply fold_set_add_from in Hv. destruct Hv as [[]|Hv]. tauto.
      + apply fold_set_add_from in Hv. destruct Hv as [[]|Hv]. tauto.
    - apply fold_set_add_from in Hv. destruct Hv as [[]|Hv]. tauto. }
  assert (Hto : forall s,
            In (VStr s)
               (map (cell "player")
                    (rows (batting_df d) ++ rows (bowling_df d)
                     ++ rows (all_round_df d))) ->
            In (VStr s) (all_players d)).
  { intros s Hs. rewrite Hall. unfold set_union, set_of.
    rewrite !map_app in Hs. rewrite !in_app_iff in Hs.
    rewrite !fold_set_add_str. simpl. tauto. }
  unfold player_names, sorted.
  destruct (sorted_fold_strings (all_players d) [])
    as [l [Hl [Hls [Hsorted Hn]]]].
  - constructor.
  - rewrite Forall_forall. intros v Hv. apply Hfrom in Hv.
    apply in_map_iff in Hv. destruct Hv as [r [<- Hr]]. apply Hstr. exact Hr.
  - constructor.
  - apply all_players_NoDup.
  - destruct (sorted_strings l Hls Hsorted Hn) as [names [-> Hnames]].
    exists names. split; [exact Hl|split; [exact Hnames|]].
    intros s. split.
    + intros Hs. apply (in_map VStr) in Hs.
      apply (sorted_In _ _ Hl (VStr s)) in Hs. apply Hfrom in Hs.
      apply in_map_iff in Hs. destruct Hs as [r [Hc Hr]].
      exists r. split; [exact Hr|exact Hc].
    + intros [r [Hr Hc]].
      assert (Hs : In (VStr s) (all_players d)).
      { apply Hto. rewrite <- Hc. apply in_map. exact Hr. }
      apply (sorted_In _ _ Hl (VStr s)) in Hs.
      apply in_map_iff in Hs. destruct Hs as [u [[= ->] Hu]]. exact Hu.
Qed.

Lemma player_names_sorted_witness :
  let d := load example.summary_files in
  map (cell "player")
      (rows (batting_df d) ++ rows (bowling_df d) ++ rows (all_round_df d))
  = [VStr "V Kohli"; VStr "V Kohli"; VStr "V Kohli"; VStr "A Sharma";
     VStr "V Kohli"; VStr "A Sharma"]
  /\ exists names,
       player_names d = Ok (map VStr names)
       /\ StronglySorted string_lt names
       /\ forall s,
            In s names
            <-> exists r,
                  In r (rows (batting_df d) ++ rows (bowling_df d)
                        ++ rows (all_round_df d))
                  /\ cell "player" r = VStr s.
Proof.
  intros d. split; [vm_compute; reflexivity|].
  apply (player_names_sorted d); try (vm_compute; reflexivity).
  intros r Hr. vm_compute in Hr.
  repeat (destruct Hr as [<-|Hr]; [eexists; vm_compute; reflexivity|]).
  destruct Hr.
Defined.

(** ** The aggregation *)

Lemma aggregate_spec_row (T : DataFrame) (p : string) (row : row) :
  In row (rows (aggregate_spec T p)) ->
  exists k,
    In k (sort_keys (uniq (filter (fun v => negb (isna v))
                                  (formats_of (player_rows T p)))))
    /\ cell "format" row = k
    /\ row
       = ("format", k)
         :: map (fun cd =>
                   (fst cd,
                    col_sum (snd cd) (map (cell (fst cd)) (group_of T p k))))
                (filter (fun cd => is_numeric (snd cd)
                                   && negb (fst cd =? "format"))
                        (remove_key "player" (columns T))).
Proof.
  unfold aggregate_spec. cbn [rows]. intros H. apply in_map_iff in H.
  destruct H as [k [<- Hk]]. exists k. split; [exact Hk|].
  split; reflexivity.
Qed.

Lemma aggregate_spec_row_of_key (T : DataFrame) (p : string) (k : value) :
  In k (sort_keys (uniq (filter (fun v => negb (isna v))
                                (formats_of (player_rows T p))))) ->
  In (("format", k)
      :: map (fun cd =>
                (fst cd,
                 col_sum (snd cd) (map (cell (fst cd)) (group_of T p k))))
             (filter (fun cd => is_numeric (snd cd)
                                && negb (fst cd =? "format"))
                     (remove_key "player" (columns T))))
     (rows (aggregate_spec T p)).
Proof.
  intros Hk. unfold aggregate_spec. cbn [rows].
  apply (in_map
           (fun k =>
              ("format", k)
              :: map (fun cd =>
                        (fst cd,
                         col_sum (snd cd)
                           (map (cell (fst cd)) (group_of T p k))))
                     (filter (fun cd => is_numeric (snd cd)
                                        && negb (fst cd =? "format"))
                             (remove_key "player" (columns T))))).
  exact Hk.
Qed.

(** X7.  Every format in which the player has a row gets its row: for a
    table with player and format columns, if some row of [p] has the string
    format [f], [get_stats T p] returns exactly one row of format [f]. *)
Theorem get_stats_row_for_each_format (T : DataFrame) (p f : string) :
  has_column T "player" = true -> has_column T "format" = true ->
  In (VStr f) (formats_of (player_rows T p)) ->
  exists out row,
    get_stats T p = Ok out
    /\ In row (rows out)
    /\ cell "format" row = VStr f
    /\ forall row', In row' (rows out) -> cell "format" row' = VStr f ->
                    row' = row.
Proof.
  intros Hp Hf Hin.
  assert (Hrows : player_rows T p <> []).
  { intros E. rewrite E in Hin. exact Hin. }
  eexists (aggregate_spec T p), _.
  split; [apply get_stats_present; assumption|].
  split; [apply aggregate_spec_row_of_key, group_keys_complete_str, Hin|].
  split; [reflexivity|].
  intros row' Hrow' Hfmt.
  destruct (aggregate_spec_row T p row' Hrow') as [k [_ [_ ->]]].
  change (k = VStr f) in Hfmt. subst k. reflexivity.
Qed.

Lemma get_stats_row_for_each_format_witness :
  In (VStr "T20") (formats_of (player_rows example.table "A Sharma"))
  /\ exists out row,
       get_stats example.table "A Sharma" = Ok out
       /\ In row (rows out)
       /\ cell "format" row = VStr "T20"
       /\ forall row', In row' (rows out) -> cell "format" row' = VStr "T20" ->
                       row' = row.
Proof.
  assert (H : In (VStr "T20")
                 (formats_of (player_rows example.table "A Sharma"))).
  { vm_compute. right. right. left. reflexivity. }
  split; [exact H|].
  apply (get_stats_row_for_each_format example.table "A Sharma" "T20");
    [reflexivity|reflexivity|exact H].
Defined.

(** X8.  Every int64 column other than player and format is summed per
    format: the row of format [f] carries in column [c] the sum of the cells
    of [c] over the rows of [p] with format [f], reduced to the signed
    64-bit range (the sum itself when it fits). *)
Theorem get_stats_sums_int64_column (T : DataFrame) (p f c : string) :
  has_column T "player" = true -> has_column T "format" = true ->
  assoc c (columns T) = Some int64 ->
  c <> "player" -> c <> "format" ->
  In (VStr f) (formats_of (player_rows T p)) ->
  let total :=
    fold_right (fun r s => (as_int (cell c r) + s)%Z) 0%Z
               (group_of T p (VStr f)) in
  exists out row,
    get_stats T p = Ok out
    /\ In row (rows out)
    /\ cell "format" row = VStr f
    /\ cell c row = VInt (wrap64 total)
    /\ ((- 2 ^ 63 <= total < 2 ^ 63)%Z -> cell c row = VInt total).
Proof.
  intros Hp Hf Hc Hcp Hcf Hin total.
  assert (Hrows : player_rows T p <> []).
  { intros E. rewrite E in Hin. exact Hin. }
  assert (Hcell :
    cell c
      (("format", VStr f)
       :: map (fun cd =>
                 (fst cd,
                  col_sum (snd cd)
                    (map (cell (fst cd)) (group_of T p (VStr f)))))
              (filter (fun cd => is_numeric (snd cd)
                                 && negb (fst cd =? "format"))
                      (remove_key "player" (columns T))))
    = VInt (wrap64 total)).
  { rewrite (aggregate_spec_cell T p c (VStr f) int64 Hc eq_refl Hcp Hcf).
    unfold col_sum. f_equal. change 0%Z with (wrap64 0) at 1.
    rewrite sum_int64_fold, Z.add_0_l. f_equal. unfold total.
    induction (group_of T p (VStr f)) as [|r rs IH]; [reflexivity|].
    cbn [map fold_right]. rewrite IH. reflexivity. }
  eexists (aggregate_spec T p), _.
  split; [apply get_stats_present; assumption|].
  split; [apply aggregate_spec_row_of_key, group_keys_complete_str, Hin|].
  split; [reflexivity|]. split; [exact Hcell|].
  intros Hrange. rewrite Hcell, wrap64_small by exact Hrange. reflexivity.
Qed.

Lemma get_stats_sums_int64_column_witness :
  exists out row,
    get_stats example.table "A Sharma" = Ok out
    /\ In row (rows out)
    /\ cell "format" row = VStr "T20"
    /\ cell "runs" row = VInt (wrap64 (12 + (8 + 0)))
    /\ ((- 2 ^ 63 <= 12 + (8 + 0) < 2 ^ 63)%Z ->
        cell "runs" row = VInt (12 + (8 + 0))).
Proof.
  apply (get_stats_sums_int64_column example.table "A Sharma" "T20" "runs").
  - reflexivity.
  - reflexivity.
  - reflexivity.
  - discriminate.
  - discriminate.
  - vm_compute. right. right. left. reflexivity.
Defined.

(** X9.  The frame [get_stats] returns has the format column first and
    after it only numeric columns of the table: the player column and every
    other object column are gone, and no column is invented. *)
Theorem get_stats_columns (T : DataFrame) (p : string) (out : DataFrame) :
  get_stats T p = Ok out ->
  out = empty_frame
  \/ (exists dt rest,
        columns out = ("format", dt) :: rest
        /\ assoc "format" (columns T) = Some dt
        /\ assoc "player" rest = None
        /\ forall c d, In (c, d) rest ->
             is_numeric d = true /\ c <> "format" /\ In (c, d) (columns T)).
Proof.
  rewrite get_stats_cases.
  destruct (empty T); [intros [= <-]; left; reflexivity|].
  destruct (has_column T "player"); [|discriminate].
  destruct (player_rows T p); [intros [= <-]; left; reflexivity|].
  unfold has_column. destruct (assoc "format" (columns T)) as [dt|] eqn:Ef;
    [|discriminate].
  intros [= <-]. right. unfold aggregate_spec. cbn [columns]. rewrite Ef.
  eexists dt, _. split; [reflexivity|]. split; [reflexivity|]. split.
  - apply assoc_None_iff. intros H. apply in_map_iff in H.
    destruct H as [[c d] [E H]]. simpl in E. subst c.
    apply filter_In in H. destruct H as [H _].
    unfold remove_key in H. apply filter_In in H. destruct H as [_ H].
    simpl in H. discriminate H.
  - intros c d H. apply filter_In in H. destruct H as [H Hnum].
    simpl in Hnum. apply andb_true_iff in Hnum. destruct Hnum as [Hn Hc].
    apply negb_true_iff, String.eqb_neq in Hc.
    unfold remove_key in H. apply filter_In in H. tauto.
Qed.

Lemma get_stats_columns_witness :
  exists out,
    get_stats example.table "A Sharma" = Ok out
    /\ columns out = [("format", object); ("id", int64); ("runs", int64)].
Proof.
  destruct (get_stats example.table "A Sharma") as [out|e] eqn:E.
  - exists out. split; [reflexivity|].
    destruct (get_stats_columns example.table "A Sharma" out E) as [->|_].
    + vm_compute in E. discriminate E.
    + vm_compute in E. injection E as <-. reflexivity.
  - vm_compute in E. discriminate E.
Defined.

(** ** The comparison tabs *)

Lemma eq_str_false (v : value) (p : string) :
  eq_str v p = false <-> v <> VStr p.
Proof.
  destruct v as [z|f|s]; simpl; try (split; [discriminate|reflexivity]).
  rewrite String.eqb_neq. split; [intros H [= E]; exact (H E)|].
  intros H E. apply H. rewrite E. reflexivity.
Qed.

Lemma empty_has_column (df : DataFrame) (c : string) :
  has_column df c = true -> empty df = true <-> rows df = [].
Proof.
  unfold has_column, empty. destruct (columns df); [discriminate|].
  intros _. destruct (rows df); split; congruence.
Qed.

(** X10.  A tab over a table with a player column reports that no records
    were found exactly when no row of the table belongs to a selected
    player; it then shows neither a table nor a chart. *)
Theorem show_tab_no_records (d : dataset) (selected : list string)
    (label : string) :
  has_column (dfs d label) "player" = true ->
  show_tab d selected label = Ok no_records_found
  <-> forall r p, In r (rows (dfs d label)) -> In p selected ->
                  cell "player" r <> VStr p.
Proof.
  intros Hp. unfold show_tab.
  destruct (compare_df (dfs d label) selected) as [c|e] eqn:Ec.
  2:{ unfold compare_df, getitem in Ec. rewrite Hp in Ec. discriminate Ec. }
  destruct (compare_df_Ok _ _ _ Ec) as [_ Hc]. cbn [bind].
  assert (Hpc : has_column c "player" = true) by (rewrite Hc; exact Hp).
  pose proof (empty_has_column c "player" Hpc) as He.
  assert (Hrows : rows c = []
                  <-> forall r p, In r (rows (dfs d label)) -> In p selected ->
                                  cell "player" r <> VStr p).
  { rewrite Hc. cbn [rows]. split.
    - intros Hnil r p Hr Hsel. apply eq_str_false.
      destruct (eq_str (cell "player" r) p) eqn:E; [|reflexivity].
      exfalso.
      assert (Hin : In r (filter (fun r => existsb (eq_str (cell "player" r))
                                                   selected)
                                 (rows (dfs d label)))).
      { apply filter_In. split; [exact Hr|]. apply existsb_exists.
        exists p. split; [exact Hsel|exact E]. }
      rewrite Hnil in Hin. exact Hin.
    - intros Hno.
      destruct (filter _ (rows (dfs d label))) as [|r rs] eqn:E;
        [reflexivity|].
      exfalso.
      assert (Hin : In r (filter (fun r => existsb (eq_str (cell "player" r))
                                                   selected)
                                 (rows (dfs d label))))
        by (rewrite E; left; reflexivity).
      apply filter_In in Hin. destruct Hin as [Hr Hex].
      apply existsb_exists in Hex. destruct Hex as [p [Hsel Heq]].
      pose proof (proj2 (eq_str_false _ _) (Hno r p Hr Hsel)) as Hf.
      congruence. }
  destruct (empty c) eqn:Eempty.
  - split; [intros _|reflexivity]. apply Hrows, He. reflexivity.
  - split.
    + destruct (chart label c selected); cbn [bind]; discriminate.
    + intros Hno. apply Hrows, He in Hno. discriminate Hno.
Qed.

Lemma show_tab_no_records_witness :
  player_names (load example.without_wk)
  = Ok [VStr "A Sharma"; VStr "V Kohli"]
  /\ has_column (dfs (load example.without_wk) "Bowling") "player" = true
  /\ show_tab (load example.without_wk) ["A Sharma"] "Bowling"
     = Ok no_records_found.
Proof.
  assert (H : has_column (dfs (load example.without_wk) "Bowling") "player"
              = true) by (vm_compute; reflexivity).
  split; [vm_compute; reflexivity|]. split; [exact H|].
  apply (proj2 (show_tab_no_records (load example.without_wk)
                  ["A Sharma"] "Bowling" H)).
  intros r p Hr [<-|[]]. vm_compute in Hr.
  destruct Hr as [<-|[]]; vm_compute; discriminate.
Defined.

Lemma bar_name (cdf : DataFrame) (metric player : string) (b : Bar) :
  bar cdf metric player = Ok b -> name b = (player ++ " - " ++ metric)%string.
Proof.
  unfold bar. destruct (subset cdf player) as [s|e]; cbn [bind];
    [|discriminate].
  destruct (getitem s "format"); cbn [bind]; [|discriminate].
  destruct (getitem s metric); cbn [bind]; [|discriminate].
  intros [= <-]. reflexivity.
Qed.

(** X11.  A chart that is drawn has one bar series for every pair of a
    metric of the tab and a selected player, metric by metric and within a
    metric in the order of selection, each named "player - metric". *)
Theorem chart_series (label : string) (cdf : DataFrame)
    (selected : list string) (fig : list Bar) :
  chart label cdf selected = Ok fig ->
  map name fig
  = map (fun mp => (snd mp ++ " - " ++ fst mp)%string)
        (list_prod (metrics label) selected)
  /\ List.length fig
     = List.length (metrics label) * List.length selected.
Proof.
  intros Hfig. unfold chart in Hfig.
  destruct (metric_loop_Ok _ _ _ _ _ Hfig) as [bs [-> Hbs]]. simpl.
  assert (Hnames : map name bs
                   = map (fun mp => (snd mp ++ " - " ++ fst mp)%string)
                         (list_prod (metrics label) selected)).
  { clear Hfig. induction Hbs as [|mp b mps bs' Hb _ IH]; [reflexivity|].
    cbn [map]. rewrite IH, (bar_name _ _ _ _ Hb). reflexivity. }
  split; [exact Hnames|].
  rewrite <- (length_map name), Hnames, length_map. apply length_prod.
Qed.

Lemma chart_series_witness :
  exists fig,
    chart "Batting" example.batting_table ["A Sharma"; "V Kohli"] = Ok fig
    /\ map name fig
       = ["A Sharma - runs"; "V Kohli - runs";
          "A Sharma - average_score"; "V Kohli - average_score";
          "A Sharma - strike_rate"; "V Kohli - strike_rate"].
Proof.
  eexists. split; [vm_compute; reflexivity|].
  refine (proj1 (chart_series "Batting" example.batting_table
                   ["A Sharma"; "V Kohli"] _ _)).
  vm_compute. reflexivity.
Defined.

Lemma subset_columns (df cdf : DataFrame) (selected : list string)
    (p c : string) :
  compare_df df selected = Ok cdf -> In p selected ->
  has_column df "format" = true -> c <> "player" ->
  exists s,
    subset cdf p = Ok s
    /\ assoc c (columns s) = assoc c (columns (aggregate_spec df p)).
Proof.
  intros Hc Hp Hf Hne.
  destruct (subset_Ok df cdf selected p Hc Hp Hf) as [s [Hs [Hcols _]]].
  exists s. split; [exact Hs|]. rewrite Hcols.
  rewrite assoc_remove_key_ne by exact Hne. reflexivity.
Qed.

Lemma aggregate_spec_no_column (T : DataFrame) (p c : string) :
  c <> "format" ->
  (forall dt, In (c, dt) (columns T) -> is_numeric dt = false) ->
  assoc c (columns (aggregate_spec T p)) = None.
Proof.
  intros Hne Hno. unfold aggregate_spec. cbn [columns assoc].
  destruct (String.eqb_spec "format" c) as [E|_]; [congruence|].
  apply assoc_None_iff. intros H. apply in_map_iff in H.
  destruct H as [[c' dt] [E H]]. simpl in E. subst c'.
  apply filter_In in H. destruct H as [H Hnum]. simpl in Hnum.
  apply andb_true_iff in Hnum. destruct Hnum as [Hnum _].
  unfold remove_key in H. apply filter_In in H. destruct H as [H _].
  rewrite (Hno dt H) in Hnum. discriminate Hnum.
Qed.

Lemma bar_missing_metric (df cdf : DataFrame) (selected : list string)
    (label p metric : string) :
  compare_df df selected = Ok cdf -> In p selected ->
  In metric (metrics label) ->
  has_column df "format" = true ->
  (forall dt, In (metric, dt) (columns df) -> is_numeric dt = false) ->
  bar cdf metric p = Raise (KeyError metric).
Proof.
  intros Hc Hp Hm Hf Hno.
  assert (Hnp : metric <> "player") by exact (metrics_not_player _ _ Hm).
  assert (Hnf : metric <> "format").
  { unfold metrics in Hm. destruct (label =? "Batting"); simpl in Hm;
      repeat (destruct Hm as [<-|Hm]; [discriminate|]); contradiction. }
  destruct (subset_columns df cdf selected p "format" Hc Hp Hf)
    as [s [Hs Hfmt]]; [discriminate|].
  destruct (subset_columns df cdf selected p metric Hc Hp Hf Hnp)
    as [s' [Hs' Hmet]].
  rewrite Hs in Hs'. injection Hs' as <-.
  unfold bar. rewrite Hs. cbn [bind]. unfold getitem, has_column.
  rewrite Hfmt, Hmet, (aggregate_spec_no_column df p metric Hnf Hno).
  unfold aggregate_spec. cbn [columns assoc String.eqb Ascii.eqb Bool.eqb bind].
  reflexivity.
Qed.

(** X12.  The chart reads its metric column without a guard.  When the
    table of a Bowling or All-Round tab has no numeric [wk] column and some
    selected player has a row in it, the lookup raises KeyError for [wk]:
    the tab shows no chart. *)
Theorem show_tab_missing_wk (d : dataset) (selected : list string)
    (label : string) :
  label <> "Batting" ->
  has_column (dfs d label) "player" = true ->
  has_column (dfs d label) "format" = true ->
  (forall dt, In ("wk", dt) (columns (dfs d label)) -> is_numeric dt = false) ->
  (exists r p, In r (rows (dfs d label)) /\ In p selected
               /\ cell "player" r = VStr p) ->
  show_tab d selected label = Raise (KeyError "wk").
Proof.
  intros Hl Hp Hf Hno [r [p [Hr [Hsel Hcell]]]]. unfold show_tab.
  destruct (compare_df (dfs d label) selected) as [c|e] eqn:Ec.
  2:{ unfold compare_df, getitem in Ec. rewrite Hp in Ec. discriminate Ec. }
  cbn [bind].
  destruct (compare_df_Ok _ _ _ Ec) as [_ Hc].
  assert (Hne : empty c = false).
  { apply (not_empty c "player" r); [rewrite Hc; exact Hp|].
    rewrite Hc. cbn [rows]. apply filter_In. split; [exact Hr|].
    apply existsb_exists. exists p. split; [exact Hsel|].
    rewrite Hcell. simpl. apply String.eqb_refl. }
  rewrite Hne.
  assert (Hm : metrics label = ["wk"]).
  { unfold metrics. destruct (String.eqb_spec label "Batting");
      [contradiction|reflexivity]. }
  unfold chart. rewrite Hm. cbn [fold_left].
  destruct selected as [|p0 ps]; [destruct Hsel|].
  cbn [fold_left bind].
  rewrite (bar_missing_metric (dfs d label) c (p0 :: ps) label p0 "wk" Ec);
    [|left; reflexivity|rewrite Hm; left; reflexivity|exact Hf|exact Hno].
  cbn [bind]. rewrite player_loop_raise. reflexivity.
Qed.

Lemma show_tab_missing_wk_witness :
  rows (dfs (load example.without_wk) "Bowling")
  = [[("id", VInt 1); ("overs", VInt 10); ("player", VStr "V Kohli");
      ("format", VStr "ODI")]]
  /\ player_names (load example.without_wk)
     = Ok [VStr "A Sharma"; VStr "V Kohli"]
  /\ show_tab (load example.without_wk) ["V Kohli"] "Bowling"
     = Raise (KeyError "wk").
Proof.
  split; [vm_compute; reflexivity|]. split; [vm_compute; reflexivity|].
  apply (show_tab_missing_wk (load example.without_wk) ["V Kohli"] "Bowling").
  - discriminate.
  - vm_compute. reflexivity.
  - vm_compute. reflexivity.
  - intros dt H. vm_compute in H.
    destruct H as [H|[H|[H|[H|[]]]]]; discriminate H.
  - eexists _, "V Kohli". split; [vm_compute; left; reflexivity|].
    split; [left; reflexivity|reflexivity].
Defined.

(** ** The summary *)

Lemma traverse_Ok {A B : Type} (f : A -> result B) (l : list A) :
  (forall a, In a l -> exists b, f a = Ok b) ->
  exists bs, traverse f l = Ok bs.
Proof.
  induction l as [|a l IH]; intros H; simpl.
  - exists []. reflexivity.
  - destruct (H a (or_introl eq_refl)) as [b ->].
    destruct IH as [bs ->]; [intros a' Ha'; apply H; right; exact Ha'|].
    exists (b :: bs). reflexivity.
Qed.

Lemma get_stats_unified (T : DataFrame) (p : string) :
  unified_table T -> exists out, get_stats T p = Ok out.
Proof.
  intros [He|[Hp Hf]]; rewrite get_stats_cases.
  - rewrite He. eexists. reflexivity.
  - destruct (empty T); [eexists; reflexivity|]. rewrite Hp, Hf.
    destruct (player_rows T p); eexists; reflexivity.
Qed.

Lemma lines_Ok (repr_float : float -> string) (T : DataFrame) (p : string)
    (out : DataFrame) :
  get_stats T p = Ok out ->
  (exists ls, traverse (batting_line repr_float) (rows out) = Ok ls)
  /\ (exists ls, traverse (bowling_line repr_float) (rows out) = Ok ls).
Proof.
  intros H. split; apply traverse_Ok; intros r Hr;
    destruct (get_stats_rows_have_format T p out r H Hr) as [f Hf];
    unfold batting_line, bowling_line, row_getitem; rewrite Hf;
    eexists; reflexivity.
Qed.

(** X13.  Building the prompt cannot raise when the batting and bowling
    tables are unified tables: for every selection it returns a text that
    starts with the instruction line. *)
Theorem build_prompt_succeeds (repr_float : float -> string) (d : dataset)
    (selected : list string) :
  unified_table (batting_df d) -> unified_table (bowling_df d) ->
  exists rest,
    build_prompt repr_float d selected = Ok (instruction ++ rest)%string.
Proof.
  intros Hb Hw. unfold build_prompt. rewrite prompt_loop_blocks.
  destruct (traverse_Ok (player_block repr_float d) selected) as [blocks ->].
  - intros p _. unfold player_block.
    destruct (get_stats_unified (batting_df d) p Hb) as [bat Hbat].
    destruct (get_stats_unified (bowling_df d) p Hw) as [bowl Hbowl].
    rewrite Hbat. cbn [bind].
    destruct (proj1 (lines_Ok repr_float _ _ _ Hbat)) as [bl ->]. cbn [bind].
    rewrite Hbowl. cbn [bind].
    destruct (proj2 (lines_Ok repr_float _ _ _ Hbowl)) as [wl ->]. cbn [bind].
    eexists. reflexivity.
  - exists (join blocks). reflexivity.
Qed.

Lemma build_prompt_succeeds_witness :
  unified_table (batting_df (load example.without_wk))
  /\ unified_table (bowling_df (load example.without_wk))
  /\ exists rest,
       build_prompt (fun _ => "0.0") (load example.without_wk)
                    ["A Sharma"; "V Kohli"]
       = Ok (instruction ++ rest)%string.
Proof.
  assert (Hb : unified_table (batting_df (load example.without_wk)))
    by (right; split; vm_compute; reflexivity).
  assert (Hw : unified_table (bowling_df (load example.without_wk)))
    by (right; split; vm_compute; reflexivity).
  split; [exact Hb|]. split; [exact Hw|].
  apply (build_prompt_succeeds (fun _ => "0.0") _ _ Hb Hw).
Defined.

(** X14.  The summary button changes nothing on disk but summary.txt, and
    that only when Gemini is ready, a player is selected, the prompt was
    built and the service returned a text.  Then either the write went
    through, and the file holds exactly the returned text, which is shown;
    or the write failed after [open] had emptied the file, and the file
    holds only the part written before the failure while a failure is
    reported and no text is shown.  A failure to build the prompt, of the
    service or of [open] leaves the disk as it was. *)
Theorem summary_button_writes_only_summary (repr_float : float -> string)
    (gemini_ready : bool) (model : string -> result string)
    (fault : io_fault) (d : dataset) (selected : list string) (fs : disk)
    (path : string) :
  fst (summary_button repr_float gemini_ready model fault d selected fs) path
  <> fs path ->
  path = "summary.txt"
  /\ gemini_ready = true
  /\ selected <> []
  /\ exists prompt text,
       build_prompt repr_float d selected = Ok prompt
       /\ model prompt = Ok text
       /\ ((fault = no_fault
            /\ summary_button repr_float gemini_ready model fault d selected fs
               = (write (open_w fs "summary.txt") "summary.txt" text,
                  summary_shown text)
            /\ fst (summary_button repr_float gemini_ready model fault d
                      selected fs) path
               = Some text)
           \/ (exists written,
                 fault = write_fails written
                 /\ summary_button repr_float gemini_ready model fault d
                      selected fs
                    = (write (open_w fs "summary.txt") "summary.txt"
                             (substring 0 written text),
                       generation_failed (OSError "summary.txt"))
                 /\ fst (summary_button repr_float gemini_ready model fault d
                           selected fs) path
                    = Some (substring 0 written text))).
Proof.
  unfold summary_button. destruct selected as [|p ps].
  { cbn [fst]. intros H. exfalso. apply H. reflexivity. }
  destruct gemini_ready.
  2:{ cbn [fst]. intros H. exfalso. apply H. reflexivity. }
  unfold generate.
  destruct (build_prompt repr_float d (p :: ps)) as [prompt|e] eqn:Hp;
    cbn [bind].
  2:{ cbn [fst]. intros H. exfalso. apply H. reflexivity. }
  destruct (model prompt) as [text|e] eqn:Hm.
  2:{ cbn [fst]. intros H. exfalso. apply H. reflexivity. }
  destruct fault as [| |written]; cbn [fst snd].
  - unfold write, open_w.
    destruct (String.eqb_spec path "summary.txt") as [->|Hne].
    + intros _. split; [reflexivity|]. split; [reflexivity|].
      split; [discriminate|]. exists prompt, text.
      split; [reflexivity|]. split; [exact Hm|]. left.
      split; [reflexivity|]. split; reflexivity.
    + intros H. exfalso. apply H. reflexivity.
  - intros H. exfalso. apply H. reflexivity.
  - unfold write, open_w.
    destruct (String.eqb_spec path "summary.txt") as [->|Hne].
    + intros _. split; [reflexivity|]. split; [reflexivity|].
      split; [discriminate|]. exists prompt, text.
      split; [reflexivity|]. split; [exact Hm|]. right. exists written.
      split; [reflexivity|]. split; reflexivity.
    + intros H. exfalso. apply H. reflexivity.
Qed.

Lemma summary_button_writes_only_summary_witness :
  let after :=
    summary_button (fun _ => "0.0") true (fun _ => Ok "a new summary")
      (write_fails 5) (load example.without_wk) ["V Kohli"]
      example.old_disk in
  example.old_disk "summary.txt" = Some "an older and longer summary"
  /\ fst after "summary.txt" = Some "a new"
  /\ snd after = generation_failed (OSError "summary.txt").
Proof.
  intros after.
  assert (H : fst after "summary.txt" <> example.old_disk "summary.txt")
    by (vm_compute; discriminate).
  split; [reflexivity|].
  destruct (summary_button_writes_only_summary (fun _ => "0.0") true
              (fun _ => Ok "a new summary") (write_fails 5)
              (load example.without_wk) ["V Kohli"] example.old_disk
              "summary.txt" H)
    as [_ [_ [_ [prompt [text [_ [Hm [[Hf _]|[n [Hf [Hx _]]]]]]]]]]].
  - discriminate Hf.
  - injection Hf as <-. cbv beta in Hm. injection Hm as <-.
    subst after. rewrite Hx. split; reflexivity.
Defined.

(** ** The join, for every row *)

Lemma suffix_y_not_player (k : string) : (k ++ "_y")%string <> "player".
Proof.
  intros H.
  repeat (destruct k as [|? k]; simpl in H;
          [discriminate H|injection H as ? H; subst]).
  destruct k; discriminate H.
Qed.

Lemma joined_rows_left_part (left right : DataFrame) (on : string)
    (l j : row) :
  In j (joined_rows left right on l) ->
  exists tail,
    j = map (fun kv => (left_label left right on (fst kv), snd kv)) l ++ tail.
Proof.
  unfold joined_rows. destruct (matches right on l) as [|d ds].
  - intros [<-|[]]. eexists. reflexivity.
  - intros H. apply in_map_iff in H. destruct H as [d' [<- _]].
    eexists. reflexivity.
Qed.

Lemma joined_rows_nonempty (left right : DataFrame) (on : string) (l : row) :
  exists j, In j (joined_rows left right on l).
Proof.
  unfold joined_rows. destruct (matches right on l) as [|d ds].
  - eexists. left. reflexivity.
  - eexists. left. reflexivity.
Qed.

Lemma joined_row_of_match (left right : DataFrame) (on : string)
    (l d : row) :
  In d (rows right) -> key_match (cell on l) (cell on d) = true ->
  In (map (fun kv => (left_label left right on (fst kv), snd kv)) l
      ++ map (fun cd =>
                (right_label left right on (fst cd),
                 astype (right_dtype left right on (snd cd))
                        (cell (fst cd) d)))
             (remove_key on (columns right)))
     (joined_rows left right on l).
Proof.
  intros Hd Hm.
  assert (Hin : In d (matches right on l)).
  { unfold matches. apply filter_In. split; assumption. }
  unfold joined_rows. destruct (matches right on l) as [|d0 ds];
    [destruct Hin|].
  apply (in_map
           (fun r =>
              map (fun kv => (left_label left right on (fst kv), snd kv)) l
              ++ map (fun cd =>
                        (right_label left right on (fst cd),
                         astype (right_dtype left right on (snd cd))
                                (cell (fst cd) r)))
                     (remove_key on (columns right)))).
  exact Hin.
Qed.

Lemma assoc_relabel_values {A B : Type} (f : string -> string)
    (g : string -> A -> B) (c : string) (l : list (string * A)) :
  f c = c -> (forall k, f k = c -> k = c) ->
  assoc c (map (fun kv => (f (fst kv), g (fst kv) (snd kv))) l)
  = option_map (g c) (assoc c l).
Proof.
  intros Hc Hinj. induction l as [|[k a] l IH]; simpl; [reflexivity|].
  destruct (String.eqb_spec k c) as [->|Hne].
  - rewrite Hc, String.eqb_refl. reflexivity.
  - destruct (String.eqb_spec (f k) c) as [E|_]; [|exact IH].
    apply Hinj in E. contradiction.
Qed.

(** A row of the joined frame, once tagged and concatenated. *)
Lemma merged_row_reaches_table (fs : files) (fmt category : string)
    (raw m : DataFrame) (j : row) :
  In fmt formats -> In category categories ->
  fs (csv_path fmt category) = Some raw ->
  well_formed raw ->
  merge (normalize_columns raw) (all_players_df (load fs)) "id" = Ok m ->
  In j (rows m) ->
  exists r',
    In r' (rows (category_table (load fs) category))
    /\ cell "format" r' = VStr fmt
    /\ forall c, c <> "format" -> has_column m c = true ->
         exists dt,
           assoc c (columns (category_table (load fs) category)) = Some dt
           /\ cell c r' = astype dt (cell c j).
Proof.
  intros Hfmt Hcat Hfs Hwf Hm Hj.
  assert (Hwfm : well_formed m).
  { exact (merge_well_formed _ _ _ _ (relabel_well_formed _ _ Hwf) Hm). }
  destruct (setitem_rows m "format" (VStr fmt) j Hwfm Hj)
    as [r1 [Hr1 [Hf1 Hother]]].
  assert (Ht : load_table fs (all_players_df (load fs)) fmt category
               = Ok (setitem m "format" (VStr fmt))).
  { unfold load_table, read_csv. unfold csv_path in Hfs. rewrite Hfs.
    cbn [bind]. rewrite Hm. reflexivity. }
  pose proof (loaded_In fs _ _ fmt category Hfmt Ht) as Hin.
  pose proof (load_tables fs category Hcat) as HT.
  rewrite (concat_or_empty_In _ _ Hin) in HT.
  destruct (concat_rows _ _ r1 Hin Hr1) as [r' [Hr' Hcell]].
  exists r'. rewrite HT. split; [exact Hr'|split].
  - rewrite Hcell, Hf1.
    rewrite (concat_has_column _ _ "format" Hin);
      [apply astype_str|].
    rewrite has_column_setitem. reflexivity.
  - intros c Hne Hc. eexists. split.
    + apply (concat_has_column _ _ c Hin).
      rewrite has_column_setitem, Hc. apply orb_true_r.
    + rewrite Hcell, (concat_has_column _ _ c Hin).
      * rewrite (Hother c Hne). reflexivity.
      * rewrite has_column_setitem, Hc. apply orb_true_r.
Qed.

(** X15.  The left join drops no statistics row: every row of a statistics
    file that was read and joined, matched or not, has a row in its
    category's table that carries its identifier and the format of its
    file. *)
Theorem stat_row_kept (fs : files) (fmt category : string)
    (raw m : DataFrame) (r : row) :
  In fmt formats -> In category categories ->
  fs (csv_path fmt category) = Some raw ->
  well_formed raw ->
  merge (normalize_columns raw) (all_players_df (load fs)) "id" = Ok m ->
  In r (rows (normalize_columns raw)) ->
  exists r' dt,
    In r' (rows (category_table (load fs) category))
    /\ cell "format" r' = VStr fmt
    /\ assoc "id" (columns (category_table (load fs) category)) = Some dt
    /\ cell "id" r' = astype dt (cell "id" r).
Proof.
  intros Hfmt Hcat Hfs Hwf Hm Hr.
  set (stat := normalize_columns raw) in *.
  set (players := all_players_df (load fs)) in *.
  assert (Hwfs : well_formed stat) by (apply relabel_well_formed; exact Hwf).
  destruct (joined_rows_nonempty stat players "id" r) as [j Hj].
  assert (Hjm : In j (rows m)).
  { destruct (merge_Ok _ _ _ _ Hm) as [_ [-> _]].
    apply in_flat_map. exists r. split; [exact Hr|exact Hj]. }
  assert (Hid : cell "id" j = cell "id" r).
  { destruct (joined_rows_left_part _ _ _ _ _ Hj) as [tail ->].
    unfold cell. rewrite assoc_app.
    rewrite (assoc_relabel_same (left_label stat players "id") "id" r
               (left_label_key stat players "id")
               (fun k => left_label_inv stat players "id" k "id"
                           suffix_x_not_id)).
    destruct (assoc_Some_of_In "id" r) as [a Ha]; [|rewrite Ha; reflexivity].
    rewrite (Hwfs r Hr). apply has_column_In.
    destruct (merge_Ok _ _ _ _ Hm) as [_ [_ [H _]]]. exact H. }
  destruct (merged_row_reaches_table fs fmt category raw m j
              Hfmt Hcat Hfs Hwf Hm Hjm) as [r' [Hr' [Hf Hcells]]].
  destruct (Hcells "id") as [dt [Hdt Hc]];
    [discriminate|exact (merged_has_key _ _ _ _ Hm)|].
  exists r', dt. rewrite Hc, Hid. tauto.
Qed.

(** X16.  A statistics row whose identifier matches a directory row gets
    that row's name: when the directory has the player column, the file has
    none of its own and the matching directory row is named [name], the
    category's table holds a row of the file's format with that player. *)
Theorem matched_row_named (fs : files) (fmt category name : string)
    (raw m : DataFrame) (r d : row) :
  In fmt formats -> In category categories ->
  fs (csv_path fmt category) = Some raw ->
  well_formed raw ->
  has_column (normalize_columns raw) "player" = false ->
  has_column (all_players_df (load fs)) "player" = true ->
  merge (normalize_columns raw) (all_players_df (load fs)) "id" = Ok m ->
  In r (rows (normalize_columns raw)) ->
  In d (rows (all_players_df (load fs))) ->
  key_match (cell "id" r) (cell "id" d) = true ->
  cell "player" d = VStr name ->
  exists r' dt,
    In r' (rows (category_table (load fs) category))
    /\ cell "player" r' = VStr name
    /\ cell "format" r' = VStr fmt
    /\ assoc "id" (columns (category_table (load fs) category)) = Some dt
    /\ cell "id" r' = astype dt (cell "id" r).
Proof.
  intros Hfmt Hcat Hfs Hwf Hnp Hpl Hm Hr Hd Hkey Hname.
  set (stat := normalize_columns raw) in *.
  set (players := all_players_df (load fs)) in *.
  assert (Hwfs : well_formed stat) by (apply relabel_well_formed; exact Hwf).
  pose proof (joined_row_of_match stat players "id" r d Hd Hkey) as Hj.
  set (j := map (fun kv => (left_label stat players "id" (fst kv), snd kv)) r
            ++ map (fun cd =>
                      (right_label stat players "id" (fst cd),
                       astype (right_dtype stat players "id" (snd cd))
                              (cell (fst cd) d)))
                   (remove_key "id" (columns players))) in *.
  assert (Hjm : In j (rows m)).
  { destruct (merge_Ok _ _ _ _ Hm) as [_ [-> _]].
    apply in_flat_map. exists r. split; [exact Hr|exact Hj]. }
  assert (Hov : overlap stat players "id" "player" = false).
  { unfold overlap. apply andb_false_iff. left.
    destruct (mem_string "player" (map fst (remove_key "id" (columns stat))))
      eqn:E; [|reflexivity].
    apply mem_string_In, in_map_iff in E. destruct E as [[k a] [E Hk]].
    simpl in E. subst k. unfold remove_key in Hk. apply filter_In in Hk.
    destruct Hk as [Hk _].
    assert (H : has_column stat "player" = true).
    { apply has_column_In, in_map_iff. exists ("player", a). tauto. }
    congruence. }
  assert (Hid : cell "id" j = cell "id" r).
  { unfold j, cell. rewrite assoc_app.
    rewrite (assoc_relabel_same (left_label stat players "id") "id" r
               (left_label_key stat players "id")
               (fun k => left_label_inv stat players "id" k "id"
                           suffix_x_not_id)).
    destruct (assoc_Some_of_In "id" r) as [a Ha]; [|rewrite Ha; reflexivity].
    rewrite (Hwfs r Hr). apply has_column_In.
    destruct (merge_Ok _ _ _ _ Hm) as [_ [_ [H _]]]. exact H. }
  assert (Hplayer : cell "player" j = VStr name).
  { unfold j, cell. rewrite assoc_app.
    rewrite assoc_relabel_none.
    2:{ intros k Hk E.
        apply (left_label_inv stat players "id" k "player"
                 suffix_x_not_player) in E.
        subst k. rewrite (Hwfs r Hr) in Hk. apply has_column_In in Hk.
        congruence. }
    rewrite (assoc_relabel_values (right_label stat players "id")
               (fun c dt => astype (right_dtype stat players "id" dt)
                                   (cell c d))).
    - destruct (assoc_Some_of_In "player" (remove_key "id" (columns players)))
        as [dt Hdt].
      + apply in_map_iff. apply has_column_In in Hpl.
        apply in_map_iff in Hpl. destruct Hpl as [[k a] [E Hk]].
        simpl in E. subst k. exists ("player", a). split; [reflexivity|].
        unfold remove_key. apply filter_In. split; [exact Hk|reflexivity].
      + rewrite Hdt. simpl. fold (cell "player" d). rewrite Hname.
        rewrite astype_str. reflexivity.
    - unfold right_label. rewrite Hov. reflexivity.
    - intros k. unfold right_label.
      destruct (overlap stat players "id" k); [|tauto].
      intros E. exfalso. exact (suffix_y_not_player k E). }
  destruct (merged_row_reaches_table fs fmt category raw m j
              Hfmt Hcat Hfs Hwf Hm Hjm) as [r' [Hr' [Hf Hcells]]].
  destruct (Hcells "id") as [dt [Hdt Hc]];
    [discriminate|exact (merged_has_key _ _ _ _ Hm)|].
  destruct (Hcells "player") as [dtp [_ Hcp]];
    [discriminate
    |exact (merged_has_right_column stat players m "id" "player" Hm Hpl
              ltac:(discriminate) Hnp)|].
  exists r', dt. rewrite Hcp, Hplayer, astype_str, Hc, Hid. tauto.
Qed.

Lemma stat_row_kept_witness :
  exists r' dt,
    In r' (rows (category_table (load example.one_unmatched) "batting"))
    /\ cell "format" r' = VStr "ODI"
    /\ assoc "id"
         (columns (category_table (load example.one_unmatched) "batting"))
       = Some dt
    /\ cell "id" r' = astype dt (VInt 3).
Proof.
  refine (stat_row_kept example.one_unmatched "ODI" "batting"
            example.odi_batting_three _
            [("id", VInt 3); ("runs", VInt 9)] _ _ _ _ _ _).
  - left. reflexivity.
  - left. reflexivity.
  - reflexivity.
  - intros r [<-|[<-|[<-|[]]]]; reflexivity.
  - vm_compute. reflexivity.
  - right. right. left. reflexivity.
Defined.

Lemma matched_row_named_witness :
  exists r' dt,
    In r' (rows (category_table (load example.without_wk) "batting"))
    /\ cell "player" r' = VStr "A Sharma"
    /\ cell "format" r' = VStr "ODI"
    /\ assoc "id"
         (columns (category_table (load example.without_wk) "batting"))
       = Some dt
    /\ cell "id" r' = astype dt (VInt 3).
Proof.
  refine (matched_row_named example.without_wk "ODI" "batting" "A Sharma"
            example.odi_batting_two _
            [("id", VInt 3); ("runs", VInt 9)]
            [("id", VInt 3); ("player", VStr "A Sharma")]
            _ _ _ _ _ _ _ _ _ _ _).
  - left. reflexivity.
  - left. reflexivity.
  - reflexivity.
  - intros r [<-|[<-|[]]]; reflexivity.
  - reflexivity.
  - vm_compute. reflexivity.
  - vm_compute. reflexivity.
  - right. left. reflexivity.
  - vm_compute. right. left. reflexivity.
  - reflexivity.
  - reflexivity.
Defined.

(** ** Warnings and the table of a tab *)

Lemma load_format_keeps_messages (fs : files) (players : DataFrame)
    (st : tables) (fmt : string) (msg : message) :
  In msg (shown st) -> In msg (shown (load_format fs players st fmt)).
Proof.
  intros H. unfold load_format.
  destruct (load_table fs players fmt "batting");
    destruct (load_table fs players fmt "bowling");
    destruct (load_table fs players fmt "all_round");
    cbn [shown]; repeat (apply in_or_app; left); exact H.
Qed.

Lemma load_loop_keeps_messages (fs : files) (players : DataFrame)
    (fmts : list string) (st : tables) (msg : message) :
  In msg (shown st) ->
  In msg (shown (fold_left (load_format fs players) fmts st)).
Proof.
  revert st. induction fmts as [|fmt fmts IH]; intros st H; [exact H|].
  cbn [fold_left]. apply IH, load_format_keeps_messages, H.
Qed.

Lemma load_format_warns (fs : files) (players : DataFrame) (st : tables)
    (fmt category : string) (e : exn) :
  In category categories ->
  load_table fs players fmt category = Raise e ->
  In (st_warning ("Could not load " ++ fmt ++ "_" ++ category ++ ".csv")%string
                 e)
     (shown (load_format fs players st fmt)).
Proof.
  intros Hc He. unfold load_format.
  destruct Hc as [<-|[<-|[<-|[]]]]; rewrite He;
    destruct (load_table fs players fmt "batting");
    destruct (load_table fs players fmt "bowling");
    destruct (load_table fs players fmt "all_round");
    cbn [shown]; try discriminate He;
    repeat (apply in_or_app;
            first [right; left; reflexivity | left]);
    try (left; reflexivity).
Qed.

(** X17.  Every statistics file that cannot be read is reported: the
    messages shown after loading hold a warning that names the file, and
    loading goes on. *)
Theorem unreadable_file_warned (fs : files) (fmt category : string) :
  In fmt formats -> In category categories ->
  fs (csv_path fmt category) = None ->
  In (st_warning ("Could not load " ++ fmt ++ "_" ++ category ++ ".csv")%string
                 (ReadError (csv_path fmt category)))
     (messages (load fs)).
Proof.
  intros Hfmt Hcat Hnone. unfold load.
  destruct (load_all_players fs) as [players msgs]. cbn [messages].
  assert (He : load_table fs players fmt category
               = Raise (ReadError (csv_path fmt category))).
  { unfold load_table, read_csv. unfold csv_path in *. rewrite Hnone.
    reflexivity. }
  generalize (mkTables [] [] [] msgs).
  induction formats as [|f fmts IH]; intros st; [destruct Hfmt|].
  cbn [fold_left]. destruct Hfmt as [->|Hfmt].
  - apply load_loop_keeps_messages.
    apply (load_format_warns fs players st fmt category _ Hcat He).
  - apply IH. exact Hfmt.
Qed.

Lemma unreadable_file_warned_witness :
  example.scenario (csv_path "T20" "batting") = None
  /\ In (st_warning "Could not load T20_batting.csv"
                    (ReadError "archive (2)/T20_batting.csv"))
        (messages (load example.scenario)).
Proof.
  split; [reflexivity|].
  apply (unreadable_file_warned example.scenario "T20" "batting").
  - right. right. left. reflexivity.
  - left. reflexivity.
  - reflexivity.
Defined.

(** X18.  The table a tab shows is the category's table restricted to the
    rows of the selected players: the same columns, the matching rows in
    the table's order, none aggregated or dropped. *)
Theorem show_tab_table (d : dataset) (selected : list string)
    (label : string) (table : DataFrame) (fig : list Bar) :
  show_tab d selected label = Ok (table_and_chart table fig) ->
  columns table = columns (dfs d label)
  /\ rows table
     = filter (fun r => existsb (eq_str (cell "player" r)) selected)
              (rows (dfs d label))
  /\ rows table <> []
  /\ chart label table selected = Ok fig.
Proof.
  unfold show_tab.
  destruct (compare_df (dfs d label) selected) as [c|e] eqn:Ec;
    cbn [bind]; [|discriminate].
  destruct (compare_df_Ok _ _ _ Ec) as [Hp Hc].
  destruct (empty c) eqn:He; [discriminate|].
  destruct (chart label c selected) as [f|e] eqn:Ef; cbn [bind];
    [|discriminate].
  assert (Hne : rows c <> []).
  { unfold empty in He. destruct (columns c); [discriminate He|].
    destruct (rows c); [discriminate He|discriminate]. }
  intros [= <- <-]. split; [rewrite Hc; reflexivity|].
  split; [rewrite Hc; reflexivity|]. split; [exact Hne|exact Ef].
Qed.

Lemma show_tab_table_witness :
  exists table fig,
    show_tab (load example.without_wk) ["A Sharma"] "All-Round"
    = Ok (table_and_chart table fig)
    /\ rows table
       = [[("id", VInt 3); ("wk", VInt 4); ("player", VStr "A Sharma");
           ("format", VStr "ODI")]].
Proof.
  destruct (show_tab (load example.without_wk) ["A Sharma"] "All-Round")
    as [[|table fig]|e] eqn:E.
  - vm_compute in E. discriminate E.
  - exists table, fig. split; [reflexivity|].
    destruct (show_tab_table _ _ _ _ _ E) as [_ [-> _]].
    vm_compute. reflexivity.
  - vm_compute in E. discriminate E.
Defined.
